(** * superglue: execution runtime, OAuth endpoint defaulting and run listing

    A shallow embedding of
    - the step executor and pagination driver [callEndpoint], the header
      normalisation [convertBasicAuthToBase64] and the self-healing loop
      [executeApiCall] (core/utils/api.ts),
    - the integration catalog and [getOAuthTokenUrl] (shared/integrations.ts),
    - the run log, the bulk reader of workflows and the tenant record of
      [PostgresService] (core/datastore/postgres.ts),
    - the conversion of a conversation into a request of
      [AnthropicModel] (core/llm/anthropic-model.ts),
    followed by the properties established about them. *)

From Stdlib Require Import ZArith List String Ascii Bool Lia Arith.
From Stdlib Require Import Numbers.DecimalString.
From Stdlib Require Import Sorting.Sorted Sorting.Permutation.
Import ListNotations.
Local Open Scope string_scope.

(* ================================================================== *)
(** * JavaScript values and the string primitives the code relies on  *)
(* ================================================================== *)

Module JS.

(** Strings are sequences of 8-bit characters; the code under study only
    inspects ASCII content (scheme words, whitespace, punctuation). *)

Definition LF : string := String (ascii_of_nat 10) EmptyString.

(** [s.slice(0, n)]. *)
Definition slice0 (n : nat) (s : string) : string := substring 0 n s.

(** [s.substring(n)]. *)
Fixpoint drop (n : nat) (s : string) : string :=
  match n, s with
  | O, _ => s
  | S _, EmptyString => EmptyString
  | S n', String _ s' => drop n' s'
  end.

(** ASCII white space, the part of [\s] and of [trim()] that byte strings
    can carry: TAB, LF, VT, FF, CR and SPACE. *)
Definition is_space (c : ascii) : bool :=
  let n := nat_of_ascii c in
  ((9 <=? n)%nat && (n <=? 13)%nat) || (n =? 32)%nat.

Fixpoint trimStart (s : string) : string :=
  match s with
  | EmptyString => EmptyString
  | String c s' => if is_space c then trimStart s' else s
  end.

Fixpoint trimEnd (s : string) : string :=
  match s with
  | EmptyString => EmptyString
  | String c s' =>
      match trimEnd s' with
      | EmptyString => if is_space c then EmptyString else String c EmptyString
      | t => String c t
      end
  end.

Definition trim (s : string) : string := trimEnd (trimStart s).

Definition lower_ascii (c : ascii) : ascii :=
  let n := nat_of_ascii c in
  if ((65 <=? n)%nat && (n <=? 90)%nat) then ascii_of_nat (n + 32) else c.

Fixpoint toLowerCase (s : string) : string :=
  match s with
  | EmptyString => EmptyString
  | String c s' => String (lower_ascii c) (toLowerCase s')
  end.

Definition startsWith (s p : string) : bool := prefix p s.

(** [s.includes(sub)]. *)
Fixpoint includes (s sub : string) : bool :=
  prefix sub s ||
  match s with
  | EmptyString => false
  | String _ s' => includes s' sub
  end.

(** [s.split(sep)] for a one-character separator. *)
Fixpoint split (sep : ascii) (s : string) : list string :=
  match s with
  | EmptyString => [EmptyString]
  | String c s' =>
      if Ascii.eqb c sep then EmptyString :: split sep s'
      else match split sep s' with
           | [] => [String c EmptyString]
           | x :: r => String c x :: r
           end
  end.

Fixpoint join (sep : string) (l : list string) : string :=
  match l with
  | [] => EmptyString
  | [x] => x
  | x :: r => x ++ sep ++ join sep r
  end.

Definition Z_to_string (z : Z) : string := NilEmpty.string_of_int (Z.to_int z).

(** Numbers: the integers the runtime counts with, and NaN, which
    [parseInt] produces on a page size that is not numeric. The runtime
    computes with doubles, which are exact on integers up to 2^53 in
    magnitude; [parseInt] and [number_add] below stand for the runtime's
    on that range, and statements about their results are made for it. *)
Inductive number : Type :=
| NaN
| Int (z : Z).

Definition number_add (a b : number) : number :=
  match a, b with
  | Int x, Int y => Int (x + y)
  | _, _ => NaN
  end.

Definition number_to_string (n : number) : string :=
  match n with
  | NaN => "NaN"
  | Int z => Z_to_string z
  end.

(** [parseInt(s)]: leading white space, an optional sign, an optional
    [0x] prefix, then the longest run of digits. *)
Definition digit_val (radix : Z) (c : ascii) : option Z :=
  let n := Z.of_nat (nat_of_ascii c) in
  let d := if (48 <=? n)%Z && (n <=? 57)%Z then Some (n - 48)%Z
           else if (97 <=? n)%Z && (n <=? 122)%Z then Some (n - 87)%Z
           else if (65 <=? n)%Z && (n <=? 90)%Z then Some (n - 55)%Z
           else None in
  match d with
  | Some v => if (v <? radix)%Z then Some v else None
  | None => None
  end.

Fixpoint parse_digits (radix : Z) (s : string) (acc : option Z) : option Z :=
  match s with
  | EmptyString => acc
  | String c s' =>
      match digit_val radix c with
      | Some d =>
          parse_digits radix s'
            (Some (match acc with Some a => a * radix + d | None => d end)%Z)
      | None => acc
      end
  end.

Definition parseInt (s : string) : number :=
  let s1 := trimStart s in
  let '(neg, s2) :=
    match s1 with
    | String "-" r => (true, r)
    | String "+" r => (false, r)
    | _ => (false, s1)
    end in
  let '(radix, s3) :=
    if prefix "0x" s2 || prefix "0X" s2 then (16%Z, drop 2 s2) else (10%Z, s2) in
  match parse_digits radix s3 None with
  | None => NaN
  | Some n => Int (if neg then - n else n)%Z
  end.

(** Values: JSON data plus [undefined]. Objects keep their keys in
    insertion order (the runtime lists keys that look like array
    indices first; the objects under study have none). *)
#[local] Set Warnings "-register-all".
Inductive value : Type :=
| VUndefined
| VNull
| VBool (b : bool)
| VNumber (n : number)
| VString (s : string)
| VArray (elems : list value)
| VObject (fields : list (string * value)).

Definition object := list (string * value).

(** Truthiness, as tested by [if (v)], [!v], [a || b] and [a && b]. *)
Definition truthy (v : value) : bool :=
  match v with
  | VUndefined | VNull => false
  | VBool b => b
  | VNumber NaN => false
  | VNumber (Int z) => negb (z =? 0)%Z
  | VString s => negb (s =? EmptyString)
  | VArray _ | VObject _ => true
  end.

(** [a || b]. *)
Definition or_else (a b : value) : value := if truthy a then a else b.

Definition isArray (v : value) : bool :=
  match v with VArray _ => true | _ => false end.

(** Objects as ordered association lists. *)
Fixpoint lookup (k : string) (o : object) : option value :=
  match o with
  | [] => None
  | (k', v) :: r => if k' =? k then Some v else lookup k r
  end.

Fixpoint set (k : string) (v : value) (o : object) : object :=
  match o with
  | [] => [(k, v)]
  | (k', v') :: r => if k' =? k then (k, v) :: r else (k', v') :: set k v r
  end.

(** [{...a, ...b}]. *)
Definition spread (a b : object) : object :=
  fold_left (fun acc kv => set (fst kv) (snd kv) acc) b a.

(** [Object.fromEntries(entries)]. *)
Definition fromEntries (entries : list (string * value)) : object :=
  spread [] entries.

(** Canonical array index: decimal digits without a leading zero. *)
Definition index_of_string (s : string) : option nat :=
  match s with
  | EmptyString => None
  | String "0" EmptyString => Some O
  | String "0" _ => None
  | _ =>
      if forallb (fun c => match digit_val 10 c with Some _ => true | None => false end)
                 (list_ascii_of_string s)
      then match parse_digits 10 s None with
           | Some z => Some (Z.to_nat z)
           | None => None
           end
      else None
  end.

(** Own properties of a value that is neither [null] nor [undefined]:
    the fields of an object, the elements and [length] of an array, the
    characters and [length] of a string. Members inherited from the
    prototypes are not part of JSON data and are not modelled. *)
Definition own_property (v : value) (k : string) : value :=
  match v with
  | VObject o => match lookup k o with Some x => x | None => VUndefined end
  | VArray l =>
      if k =? "length" then VNumber (Int (Z.of_nat (List.length l)))
      else match index_of_string k with
           | Some i => nth i l VUndefined
           | None => VUndefined
           end
  | VString s =>
      if k =? "length" then VNumber (Int (Z.of_nat (String.length s)))
      else match index_of_string k with
           | Some i => match String.get i s with
                       | Some c => VString (String c EmptyString)
                       | None => VUndefined
                       end
           | None => VUndefined
           end
  | _ => VUndefined
  end.

(** [v?.[k]]. *)
Definition get_opt (v : value) (k : string) : value :=
  match v with
  | VUndefined | VNull => VUndefined
  | _ => own_property v k
  end.

(** [Object.keys(v).length] for a value that is neither [null] nor
    [undefined]. *)
Definition keys_length (v : value) : nat :=
  match v with
  | VObject o => List.length o
  | VArray l => List.length l
  | VString s => String.length s
  | _ => O
  end.

(** [String(v)], also the conversion a template literal applies. *)
Fixpoint to_String (v : value) : string :=
  match v with
  | VUndefined => "undefined"
  | VNull => "null"
  | VBool true => "true"
  | VBool false => "false"
  | VNumber n => number_to_string n
  | VString s => s
  | VArray l =>
      join "," (map (fun x => match x with
                              | VUndefined | VNull => EmptyString
                              | _ => to_String x
                              end) l)
  | VObject _ => "[object Object]"
  end.

(** [JSON.stringify]. *)
Definition hex_digit (n : nat) : ascii :=
  ascii_of_nat (if (n <? 10)%nat then 48 + n else 87 + n).

Definition escape_char (c : ascii) : string :=
  let n := nat_of_ascii c in
  if (n =? 34)%nat then String "\" (String c EmptyString)
  else if (n =? 92)%nat then "\\"
  else if (n =? 8)%nat then "\b"
  else if (n =? 9)%nat then "\t"
  else if (n =? 10)%nat then "\n"
  else if (n =? 12)%nat then "\f"
  else if (n =? 13)%nat then "\r"
  else if (n <? 32)%nat then
    "\u00" ++ String (hex_digit (n / 16)) (String (hex_digit (n mod 16)) EmptyString)
  else String c EmptyString.

Fixpoint escape (s : string) : string :=
  match s with
  | EmptyString => EmptyString
  | String c s' => escape_char c ++ escape s'
  end.

Definition quote (s : string) : string :=
  String (ascii_of_nat 34) (escape s ++ String (ascii_of_nat 34) EmptyString).

Fixpoint stringify (v : value) : option string :=
  match v with
  | VUndefined => None
  | VNull => Some "null"
  | VBool true => Some "true"
  | VBool false => Some "false"
  | VNumber NaN => Some "null"
  | VNumber (Int z) => Some (Z_to_string z)
  | VString s => Some (quote s)
  | VArray l =>
      Some ("[" ++ join ","
                     (map (fun x => match stringify x with
                                    | Some t => t
                                    | None => "null"
                                    end) l) ++ "]")
  | VObject o =>
      Some ("{" ++ join ","
                     (flat_map (fun kv => match kv with
                                          | (k, x) =>
                                              match stringify x with
                                              | Some t => [quote k ++ ":" ++ t]
                                              | None => []
                                              end
                                          end) o) ++ "}")
  end.

(** [v == null]: the values a property read throws on. *)
Definition nullish (v : value) : bool :=
  match v with
  | VUndefined | VNull => true
  | _ => false
  end.

End JS.

(* ================================================================== *)
(** * Exceptions                                                      *)
(* ================================================================== *)

(** The error classes of api.ts, plus the [TypeError] the runtime raises
    on a property read of [null] or [undefined]. *)
Inductive exn : Type :=
| ApiCallError (message : string) (statusCode : option Z)
| AbortError (message : string)
| Error (message : string)
| TypeError (message : string).

Definition exn_message (e : exn) : string :=
  match e with
  | ApiCallError m _ | AbortError m | Error m | TypeError m => m
  end.

Inductive Exc (A : Type) : Type :=
| Ok (a : A)
| Throw (e : exn).
Arguments Ok {A} a.
Arguments Throw {A} e.

Definition bind {A B : Type} (c : Exc A) (k : A -> Exc B) : Exc B :=
  match c with
  | Ok a => k a
  | Throw e => Throw e
  end.

Declare Scope exc_scope.
Delimit Scope exc_scope with exc.
Notation "x <- c ;; k" := (bind c (fun x => k))
  (at level 61, c at next level, right associativity) : exc_scope.
Notation "c ;;; k" := (bind c (fun _ => k))
  (at level 61, right associativity) : exc_scope.

(** [for (const x of l) acc = await f(acc, x)]: stops at the first throw. *)
Fixpoint foldM {A B : Type} (f : A -> B -> Exc A) (l : list B) (acc : A) : Exc A :=
  match l with
  | [] => Ok acc
  | x :: r => bind (f acc x) (foldM f r)
  end.

Fixpoint mapM {A B : Type} (f : A -> Exc B) (l : list A) : Exc (list B) :=
  match l with
  | [] => Ok []
  | x :: r => bind (f x) (fun y => bind (mapM f r) (fun ys => Ok (y :: ys)))
  end.

(* ================================================================== *)
(** * Base64, as [Buffer.from(s).toString('base64')] produces it      *)
(* ================================================================== *)

Module Base64.

Definition alphabet : string :=
  "ABCDEFGHIJKLMNOPQRSTUVWXYZabcdefghijklmnopqrstuvwxyz0123456789+/".

Definition sextet (n : nat) : ascii :=
  match String.get n alphabet with
  | Some c => c
  | None => "="%char
  end.

Fixpoint encode_bytes (fuel : nat) (l : list nat) : string :=
  match fuel with
  | O => EmptyString
  | S fuel' =>
      match l with
      | [] => EmptyString
      | [a] =>
          String (sextet (a / 4))
            (String (sextet ((a mod 4) * 16)) "==")
      | [a; b] =>
          String (sextet (a / 4))
            (String (sextet ((a mod 4) * 16 + b / 16))
               (String (sextet ((b mod 16) * 4)) "="))
      | a :: b :: c :: r =>
          String (sextet (a / 4))
            (String (sextet ((a mod 4) * 16 + b / 16))
               (String (sextet ((b mod 16) * 4 + c / 64))
                  (String (sextet (c mod 64)) (encode_bytes fuel' r))))
      end
  end.

Definition encode (s : string) : string :=
  let bytes := map nat_of_ascii (list_ascii_of_string s) in
  encode_bytes (S (List.length bytes)) bytes.

End Base64.

(* ================================================================== *)
(** * core/utils/api.ts                                               *)
(* ================================================================== *)

Module Api.
Import JS.
Local Open Scope exc_scope.

(** ** Data model (the fields of [@superglue/client] the code reads) *)

Inductive PaginationType : Type :=
| OFFSET_BASED
| PAGE_BASED
| CURSOR_BASED
| DISABLED.

Definition PaginationType_eqb (a b : PaginationType) : bool :=
  match a, b with
  | OFFSET_BASED, OFFSET_BASED | PAGE_BASED, PAGE_BASED
  | CURSOR_BASED, CURSOR_BASED | DISABLED, DISABLED => true
  | _, _ => false
  end.

Definition PaginationType_name (t : PaginationType) : string :=
  match t with
  | OFFSET_BASED => "OFFSET_BASED"
  | PAGE_BASED => "PAGE_BASED"
  | CURSOR_BASED => "CURSOR_BASED"
  | DISABLED => "DISABLED"
  end.

Record Pagination : Type := {
  type_ : option PaginationType;
  pageSize : option string;
  cursorPath : option string;
  stopCondition : option string
}.

Record ApiConfig : Type := {
  id : option string;
  urlHost : option string;
  urlPath : option string;
  method : option string;
  headers : option object;
  queryParams : option object;
  body : option string;
  pagination : option Pagination;
  dataPath : option string;
  instruction : option string;
  responseSchema : value
}.

Record RequestOptions : Type := {
  timeout : option Z;
  retries : option Z;
  selfHealing : option string
}.

Record AxiosRequestConfig : Type := {
  ax_method : option string;
  ax_url : string;
  ax_headers : object;
  ax_data : string;
  ax_params : object;
  ax_timeout : Z
}.

Record AxiosResponse : Type := {
  status : Z;
  data : value;
  resp_headers : object;
  statusText : string
}.

(** What [callEndpoint] resolves to. *)
Record EndpointResult : Type := {
  res_data : value;
  res_statusCode : Z;
  res_headers : object
}.

Record StopEval : Type := {
  shouldStop : bool;
  stop_error : option string
}.

(** An optional string read where the code tests it for truthiness or
    falls back with [||]. *)
Definition truthy_str (o : option string) : bool :=
  match o with
  | Some s => negb (s =? EmptyString)
  | None => false
  end.

Definition str_or (o : option string) (d : string) : string :=
  match o with
  | Some s => if s =? EmptyString then d else s
  | None => d
  end.

(** The text a template literal prints for an optional string. *)
Definition show_opt (o : option string) : string :=
  match o with
  | Some s => s
  | None => "undefined"
  end.

Definition opt_value (o : option string) : value :=
  match o with
  | Some s => VString s
  | None => VUndefined
  end.

(** ** Collaborators that live outside api.ts

    [server_defaults] (default.ts), the helpers of tools.ts and
    [parseFile] (file.ts). *)
Class Externals : Type := {
  MAX_PAGINATION_REQUESTS : nat;
  MAX_CALL_RETRIES : Z;
  replaceVariables : option string -> object -> Exc string;
  composeUrl : string -> string -> string;
  maskCredentials : string -> option object -> string;
  parseFile : string -> Exc value;
  evaluateStopCondition : string -> value -> value -> Exc StopEval
}.

(** The remote side of one run of [callEndpoint]: the database behind
    [callPostgres] (postgres.ts) and the server behind [callAxios]
    (tools.ts). [callAxios n cfg opts] is the answer to the request
    issued after [n] earlier ones of the same run. *)
Class Remote : Type := {
  callPostgres : ApiConfig -> object -> object -> RequestOptions -> Exc value;
  callAxios : nat -> AxiosRequestConfig -> RequestOptions -> Exc AxiosResponse
}.

(** ** [convertBasicAuthToBase64] *)

Definition base64_char (c : ascii) : bool :=
  let n := nat_of_ascii c in
  ((65 <=? n)%nat && (n <=? 90)%nat) || ((97 <=? n)%nat && (n <=? 122)%nat) ||
  ((48 <=? n)%nat && (n <=? 57)%nat) ||
  (n =? 43)%nat || (n =? 47)%nat || (n =? 61)%nat.

(** [/^[A-Za-z0-9+/=]+$/.test(s)]. *)
Definition seemsEncoded (s : string) : bool :=
  negb (s =? EmptyString) && forallb base64_char (list_ascii_of_string s).

Definition convertBasicAuthToBase64 (headerValue : string) : string :=
  if headerValue =? EmptyString then headerValue
  else
    let credentials := trim (drop (String.length "Basic ") headerValue) in
    if negb (seemsEncoded credentials)
    then "Basic " ++ Base64.encode credentials
    else headerValue.

(** ** Header processing of [callEndpoint] *)

(** [(Basic|Bearer)] at the start of [s]: the word and what follows. *)
Definition scheme_word (s : string) : option (string * string) :=
  if prefix "Basic" s then Some ("Basic", drop 5 s)
  else if prefix "Bearer" s then Some ("Bearer", drop 6 s)
  else None.

(** [\s+] at the start of [s]: what follows the white space. *)
Definition spaces1 (s : string) : option string :=
  match s with
  | String c r => if is_space c then Some (trimStart r) else None
  | EmptyString => None
  end.

(** [value.replace(/^(Basic|Bearer)\s+(Basic|Bearer)\s+/, '$1 $2')]. *)
Definition replaceSchemePrefix (v : string) : string :=
  match scheme_word v with
  | Some (w1, r1) =>
      match spaces1 r1 with
      | Some r2 =>
          match scheme_word r2 with
          | Some (w2, r3) =>
              match spaces1 r3 with
              | Some r4 => w1 ++ " " ++ w2 ++ r4
              | None => v
              end
          | None => v
          end
      | None => v
      end
  | None => v
  end.

(** The body of the [for] loop over the substituted headers. *)
Definition processHeader (key value : string) : string :=
  let processedValue :=
    if toLowerCase key =? "authorization" then replaceSchemePrefix value else value in
  if (toLowerCase key =? "authorization") && startsWith processedValue "Basic "
  then convertBasicAuthToBase64 processedValue
  else processedValue.

(** ** [callEndpoint] *)

(** The mutable locals of the pagination loop. *)
Inductive hash : Type :=
| hash_null
| hash_undefined
| hash_string (s : string).

(** [a === b] on hashes. *)
Definition hash_eqb (a b : hash) : bool :=
  match a, b with
  | hash_null, hash_null | hash_undefined, hash_undefined => true
  | hash_string x, hash_string y => x =? y
  | _, _ => false
  end.

Definition hash_of (v : value) : hash :=
  match stringify v with
  | Some s => hash_string s
  | None => hash_undefined
  end.

Record LoopState : Type := {
  allResults : list value;
  page : Z;
  offset : number;
  cursor : value;
  hasMore : bool;
  loopCounter : nat;
  seenResponseHashes : list string;
  previousResponseHash : hash;
  firstResponseHash : hash;
  hasValidData : bool;
  lastResponse : option AxiosResponse
}.

Definition initialState : LoopState := {|
  allResults := [];
  page := 1;
  offset := Int 0;
  cursor := VNull;
  hasMore := true;
  loopCounter := 0;
  seenResponseHashes := [];
  previousResponseHash := hash_null;
  firstResponseHash := hash_null;
  hasValidData := false;
  lastResponse := None
|}.

(** [seenResponseHashes.has(h)]. *)
Definition has (h : string) (seen : list string) : bool :=
  existsb (String.eqb h) seen.

(** What one iteration hands to a caller: an HTTP request, or the
    endpoint rewritten for the Postgres caller. *)
Record HttpRequest : Type := {
  axiosConfig : AxiosRequestConfig;
  processedUrl : string;
  processedHeaders : object;
  processedQueryParams : object;
  processedBody : string
}.

Inductive Prepared : Type :=
| ToPostgres (postgresEndpoint : ApiConfig)
| ToHttp (req : HttpRequest).

Definition axiosConfig_value (c : AxiosRequestConfig) : value :=
  VObject [("method", opt_value (ax_method c));
           ("url", VString (ax_url c));
           ("headers", VObject (ax_headers c));
           ("data", VString (ax_data c));
           ("params", VObject (ax_params c));
           ("timeout", VNumber (Int (ax_timeout c)))].

Definition stringify_str (v : value) : string :=
  match stringify v with
  | Some s => s
  | None => "undefined"
  end.

(** [v[k]]: a property read, which throws on [null] and [undefined]. *)
Definition get (v : value) (k : string) : Exc value :=
  match v with
  | VUndefined =>
      Throw (TypeError ("Cannot read properties of undefined (reading '" ++ k ++ "')"))
  | VNull =>
      Throw (TypeError ("Cannot read properties of null (reading '" ++ k ++ "')"))
  | _ => Ok (own_property v k)
  end.

(** The [for] loop over the segments of [dataPath]. *)
Fixpoint walkDataPath (pathParts : list string) (responseData : value) : Exc value :=
  match pathParts with
  | [] => Ok responseData
  | part :: rest =>
      x <- get responseData part ;;
      if negb (truthy x) && negb (part =? "$") then Ok responseData
      else walkDataPath rest (or_else x responseData)
  end.

(** The [for] loop over the segments of [cursorPath]. *)
Definition walkCursorPath (cursorParts : list string) (d : value) : value :=
  fold_left get_opt cursorParts d.

Section CallEndpoint.

Context `{Externals} `{Remote}.
Variables (endpoint : ApiConfig) (payload credentials : object)
          (options : RequestOptions).

(** [{ ...payload, ...credentials }]. *)
Definition allVariables : object := spread (spread [] payload) credentials.

Definition stopConditionOf : option string :=
  match pagination endpoint with
  | Some p => stopCondition p
  | None => None
  end.

Definition pageSizeOf : option string :=
  match pagination endpoint with
  | Some p => pageSize p
  | None => None
  end.

Definition typeOf : option PaginationType :=
  match pagination endpoint with
  | Some p => type_ p
  | None => None
  end.

Definition cursorPathOf : option string :=
  match pagination endpoint with
  | Some p => cursorPath p
  | None => None
  end.

Definition isType (t : PaginationType) : bool :=
  match typeOf with
  | Some t' => PaginationType_eqb t' t
  | None => false
  end.

Definition hasStopCondition : bool := truthy_str stopConditionOf.

Definition maxRequests : nat :=
  if hasStopCondition then MAX_PAGINATION_REQUESTS else 500.

Definition paginationVars (st : LoopState) : object :=
  [("page", VNumber (Int (page st)));
   ("offset", VNumber (offset st));
   ("cursor", cursor st);
   ("limit", VString (str_or pageSizeOf "50"));
   ("pageSize", VString (str_or pageSizeOf "50"))].

(** [{ ...paginationVars, ...allVariables }]. *)
Definition requestVars (st : LoopState) : object :=
  spread (spread [] (paginationVars st)) allVariables.

(** The [Object.entries(..).map(..)] / [filter] pipeline applied to the
    headers and to the query parameters. The substitutions are awaited
    together; a failure is reported for the first entry that fails. *)
Definition keepEntry (kv : string * string) : bool :=
  let v := snd kv in
  negb (v =? EmptyString) && negb (v =? "undefined") && negb (v =? "null").

Definition substituteEntries (entries : option object) (vars : object)
  : Exc (list (string * string)) :=
  replaced <- mapM (fun kv : string * value =>
                      v <- replaceVariables (Some (to_String (snd kv))) vars ;;
                      Ok (fst kv, v))
                   (match entries with Some o => o | None => [] end) ;;
  Ok (filter keepEntry replaced).

Definition string_entries (l : list (string * string)) : object :=
  fromEntries (map (fun kv => (fst kv, VString (snd kv))) l).

(** Lines 66-130: everything up to the call. *)
Definition prepare (st : LoopState) : Exc Prepared :=
  let vars := requestVars st in
  headersWithReplacedVars <- substituteEntries (headers endpoint) vars ;;
  let processedHeaders :=
    string_entries
      (map (fun kv => (fst kv, processHeader (fst kv) (snd kv)))
           headersWithReplacedVars) in
  queryParams' <- substituteEntries (queryParams endpoint) vars ;;
  let processedQueryParams := string_entries queryParams' in
  processedBody <- (if truthy_str (body endpoint)
                    then replaceVariables (body endpoint) vars
                    else Ok EmptyString) ;;
  processedUrlHost <- replaceVariables (urlHost endpoint) vars ;;
  processedUrlPath <- replaceVariables (urlPath endpoint) vars ;;
  if startsWith processedUrlHost "postgres://" ||
     startsWith processedUrlHost "postgresql://"
  then
    Ok (ToPostgres {|
          id := id endpoint;
          urlHost := Some processedUrlHost;
          urlPath := Some processedUrlPath;
          method := method endpoint;
          headers := headers endpoint;
          queryParams := queryParams endpoint;
          body := Some processedBody;
          pagination := pagination endpoint;
          dataPath := dataPath endpoint;
          instruction := instruction endpoint;
          responseSchema := responseSchema endpoint |})
  else
    let processedUrl := composeUrl processedUrlHost processedUrlPath in
    Ok (ToHttp {|
          axiosConfig := {|
            ax_method := method endpoint;
            ax_url := processedUrl;
            ax_headers := processedHeaders;
            ax_data := processedBody;
            ax_params := processedQueryParams;
            ax_timeout := match timeout options with
                          | Some t => if (t =? 0)%Z then 60000%Z else t
                          | None => 60000%Z
                          end |};
          processedUrl := processedUrl;
          processedHeaders := processedHeaders;
          processedQueryParams := processedQueryParams;
          processedBody := processedBody |}).

(** Lines 134-154: the status and error-body check. *)
Definition okStatus (s : Z) : bool :=
  existsb (Z.eqb s) [200; 201; 202; 203; 204; 205]%Z.

Definition hasErrors (d : value) : bool :=
  match get_opt d "errors" with
  | VArray l => (0 <? List.length l)%nat
  | _ => false
  end.

Definition responseFailed (lastResponse : AxiosResponse) : bool :=
  negb (okStatus (status lastResponse)) ||
  truthy (get_opt (data lastResponse) "error") ||
  hasErrors (data lastResponse).

Definition failureMessage (req : HttpRequest) (lastResponse : AxiosResponse) : string :=
  let d := data lastResponse in
  let error :=
    stringify_str
      (or_else (get_opt d "error")
         (or_else (get_opt d "errors")
            (or_else d
               (or_else (VString (statusText lastResponse)) (VString "undefined"))))) in
  let maskedConfig :=
    maskCredentials (stringify_str (axiosConfig_value (axiosConfig req))) None in
  let message :=
    show_opt (method endpoint) ++ " " ++ processedUrl req ++
    " failed with status " ++ Z_to_string (status lastResponse) ++ "." ++ LF ++
    "Response: " ++ slice0 1000 error ++ LF ++
    "config: " ++ maskedConfig in
  let message :=
    if (status lastResponse =? 429)%Z then
      let retryAfter :=
        match lookup "retry-after" (resp_headers lastResponse) with
        | Some h => if truthy h then "Retry-After: " ++ to_String h
                    else "No Retry-After header provided"
        | None => "No Retry-After header provided"
        end in
      "Rate limit exceeded. " ++ retryAfter ++
      ". Maximum wait time of 60s exceeded. " ++ LF ++
      "        " ++ LF ++
      "        " ++ message
    else message in
  "API call failed with status " ++ Z_to_string (status lastResponse) ++
  ". Response: " ++ message.

Definition checkStatus (req : HttpRequest) (lastResponse : AxiosResponse) : Exc unit :=
  if responseFailed lastResponse
  then Throw (ApiCallError (failureMessage req lastResponse) (Some (status lastResponse)))
  else Ok tt.

(** Lines 156-162: HTML detection. *)
Definition looksLikeHtml (d : value) : bool :=
  match d with
  | VString s =>
      let head := toLowerCase (trim (slice0 100 s)) in
      startsWith head "<!doctype html" || startsWith head "<html"
  | _ => false
  end.

Definition checkHtml (req : HttpRequest) (lastResponse : AxiosResponse) : Exc unit :=
  if looksLikeHtml (data lastResponse) then
    let maskedUrl :=
      maskCredentials (processedUrl req) (Some (spread (spread [] credentials) payload)) in
    Throw (ApiCallError
             ("Received HTML response instead of expected JSON data from " ++
              maskedUrl ++ ". " ++ LF ++
              "        This usually indicates an error page or invalid endpoint." ++ LF ++
              "Response: " ++ slice0 2000 (to_String (data lastResponse)))
             (Some (status lastResponse)))
  else Ok tt.

(** Lines 168-185: parsing of a textual body and [dataPath] extraction. *)
Definition extractData (lastResponse : AxiosResponse) : Exc value :=
  responseData <- match data lastResponse with
                  | VString s => if s =? EmptyString then Ok (VString s) else parseFile s
                  | d => Ok d
                  end ;;
  match dataPath endpoint with
  | Some p => if p =? EmptyString then Ok responseData
              else walkDataPath (split "." p) responseData
  | None => Ok responseData
  end.

(** The checks and the extraction a response goes through before the
    pagination bookkeeping sees it. *)
Definition receive (req : HttpRequest) (lastResponse : AxiosResponse) : Exc value :=
  checkStatus req lastResponse ;;; 
  checkHtml req lastResponse ;;;
  extractData lastResponse.

(** Lines 188-251: bookkeeping when a stop condition is configured. *)
Definition currentHasData (responseData : value) : bool :=
  match responseData with
  | VArray l => (0 <? List.length l)%nat
  | _ => truthy responseData && (0 <? keys_length responseData)%nat
  end.

Definition show_type : string :=
  match typeOf with
  | Some t => PaginationType_name t
  | None => "undefined"
  end.

Definition paginationConfigError (req : HttpRequest) : exn :=
  let secrets := Some (spread (spread [] credentials) payload) in
  let maskedBody := maskCredentials (processedBody req) secrets in
  let maskedParams :=
    maskCredentials (stringify_str (VObject (processedQueryParams req))) secrets in
  let maskedHeaders :=
    maskCredentials (stringify_str (VObject (processedHeaders req))) secrets in
  Error ("Pagination configuration error: The first two API requests returned identical responses with valid data. " ++
         "This indicates the pagination parameters are not being applied correctly. " ++
         "Please check your pagination configuration (type: " ++ show_type ++
         ", pageSize: " ++ show_opt pageSizeOf ++ "), " ++
         "body: " ++ maskedBody ++ ", queryParams: " ++ maskedParams ++
         ", headers: " ++ maskedHeaders ++ ".").

Definition stopConditionError : exn :=
  Error ("Stop condition error: The API returned no data on the first request, but the stop condition did not terminate pagination. " ++
         "The stop condition should detect empty responses and stop immediately. " ++
         "Current stop condition: " ++ show_opt stopConditionOf).

Definition pageInfo (st : LoopState) : value :=
  VObject [("page", VNumber (Int (page st)));
           ("offset", VNumber (offset st));
           ("cursor", cursor st);
           ("totalFetched", VNumber (Int (Z.of_nat (List.length (allResults st)))))].

Definition accumulate (acc : list value) (responseData : value) : list value :=
  match responseData with
  | VArray l => acc ++ l
  | _ => if truthy responseData then acc ++ [responseData] else acc
  end.

Definition paginateWithStop (st : LoopState) (req : HttpRequest)
    (response : AxiosResponse) (responseData : value) : Exc LoopState :=
  let currentResponseHash := hash_of responseData in
  let hasData := currentHasData responseData in
  let first := if (loopCounter st =? 0)%nat then currentResponseHash
               else firstResponseHash st in
  let valid := if (loopCounter st =? 0)%nat then hasData else hasValidData st in
  if (loopCounter st =? 1)%nat && hash_eqb currentResponseHash first && valid && hasData
  then Throw (paginationConfigError req)
  else if (loopCounter st =? 1)%nat && negb valid && negb hasData
  then Throw stopConditionError
  else
    more <- (if (1 <? loopCounter st)%nat &&
                hash_eqb currentResponseHash (previousResponseHash st)
             then Ok false
             else
               stopEval <- evaluateStopCondition (show_opt stopConditionOf)
                             (data response) (pageInfo st) ;;
               if truthy_str (stop_error stopEval)
               then Throw (Error ("Pagination stop condition error: " ++
                                  show_opt (stop_error stopEval) ++ LF ++
                                  "Stop condition: " ++ show_opt stopConditionOf))
               else Ok (negb (shouldStop stopEval))) ;;
    Ok {| allResults := accumulate (allResults st) responseData;
          page := page st;
          offset := offset st;
          cursor := cursor st;
          hasMore := more;
          loopCounter := loopCounter st;
          seenResponseHashes := seenResponseHashes st;
          previousResponseHash := currentResponseHash;
          firstResponseHash := first;
          hasValidData := valid;
          lastResponse := lastResponse st |}.

(** Lines 252-271: bookkeeping without a stop condition. *)
Definition shortPage (n : nat) : bool :=
  match parseInt (str_or pageSizeOf "50") with
  | NaN => true
  | Int z => (z =? 0)%Z || (Z.of_nat n <? z)%Z
  end.

Definition paginateWithoutStop (st : LoopState) (responseData : value) : LoopState :=
  match responseData with
  | VArray l =>
      let more := if shortPage (List.length l) then false else hasMore st in
      let currentResponseHash := stringify_str responseData in
      let fresh := negb (has currentResponseHash (seenResponseHashes st)) in
      {| allResults := if fresh then allResults st ++ l else allResults st;
         page := page st;
         offset := offset st;
         cursor := cursor st;
         hasMore := if fresh then more else false;
         loopCounter := loopCounter st;
         seenResponseHashes :=
           if fresh then seenResponseHashes st ++ [currentResponseHash]
           else seenResponseHashes st;
         previousResponseHash := previousResponseHash st;
         firstResponseHash := firstResponseHash st;
         hasValidData := hasValidData st;
         lastResponse := lastResponse st |}
  | _ =>
      {| allResults :=
           if truthy responseData && (List.length (allResults st) =? 0)%nat
           then allResults st ++ [responseData] else allResults st;
         page := page st;
         offset := offset st;
         cursor := cursor st;
         hasMore := false;
         loopCounter := loopCounter st;
         seenResponseHashes := seenResponseHashes st;
         previousResponseHash := previousResponseHash st;
         firstResponseHash := firstResponseHash st;
         hasValidData := hasValidData st;
         lastResponse := lastResponse st |}
  end.

(** Lines 273-288: the next page, offset or cursor, and [loopCounter++]. *)
Definition advance (st : LoopState) (response : AxiosResponse) : LoopState :=
  let nextCursor :=
    walkCursorPath (split "." (str_or cursorPathOf "next_cursor")) (data response) in
  {| allResults := allResults st;
     page := if isType PAGE_BASED then (page st + 1)%Z else page st;
     offset := if isType PAGE_BASED then offset st
               else if isType OFFSET_BASED
               then number_add (offset st) (parseInt (str_or pageSizeOf "50"))
               else offset st;
     cursor := if isType CURSOR_BASED then nextCursor else cursor st;
     hasMore := if isType CURSOR_BASED
                then (if truthy nextCursor then hasMore st else false)
                else hasMore st;
     loopCounter := S (loopCounter st);
     seenResponseHashes := seenResponseHashes st;
     previousResponseHash := previousResponseHash st;
     firstResponseHash := firstResponseHash st;
     hasValidData := hasValidData st;
     lastResponse := Some response |}.

(** One pass through the loop body once the response is in. *)
Definition handleResponse (st : LoopState) (req : HttpRequest)
    (response : AxiosResponse) : Exc LoopState :=
  responseData <- receive req response ;;
  st' <- (if hasStopCondition
          then paginateWithStop st req response responseData
          else Ok (paginateWithoutStop st responseData)) ;;
  Ok (advance st' response).

(** The [while (hasMore && loopCounter < maxRequests)] loop. [trace]
    records the configurations handed to [callAxios], oldest first. *)
Inductive LoopResult : Type :=
| LoopDone (st : LoopState)
| LoopReturned (r : EndpointResult)
| LoopThrew (e : exn)
| LoopOutOfFuel.

Fixpoint runLoop (fuel : nat) (st : LoopState) (trace : list AxiosRequestConfig)
  : LoopResult * list AxiosRequestConfig :=
  if hasMore st && (loopCounter st <? maxRequests)%nat then
    match fuel with
    | O => (LoopOutOfFuel, trace)
    | S fuel' =>
        match prepare st with
        | Throw e => (LoopThrew e, trace)
        | Ok (ToPostgres postgresEndpoint) =>
            (match callPostgres postgresEndpoint payload credentials options with
             | Ok d => LoopReturned {| res_data := d;
                                       res_statusCode := 200;
                                       res_headers := [] |}
             | Throw e => LoopThrew e
             end, trace)
        | Ok (ToHttp req) =>
            let trace' := (trace ++ [axiosConfig req])%list in
            match callAxios (List.length trace) (axiosConfig req) options with
            | Throw e => (LoopThrew e, trace')
            | Ok response =>
                match handleResponse st req response with
                | Throw e => (LoopThrew e, trace')
                | Ok st' => runLoop fuel' st' trace'
                end
            end
        end
    end
  else (LoopDone st, trace).

(** Lines 291-306: the value returned after the loop. [allResults] is
    an array on every path, so the spread of line 295 always contributes
    the single key [results]. *)
Definition resultData (st : LoopState) : value :=
  if isType CURSOR_BASED
  then VObject [("next_cursor", cursor st); ("results", VArray (allResults st))]
  else match allResults st with
       | [x] => x
       | l => VArray l
       end.

Definition finish (st : LoopState) : Exc EndpointResult :=
  match lastResponse st with
  | None => Throw (TypeError "Cannot read properties of null (reading 'status')")
  | Some r => Ok {| res_data := resultData st;
                    res_statusCode := status r;
                    res_headers := resp_headers r |}
  end.

Inductive Outcome : Type :=
| Returns (r : EndpointResult)
| Throws (e : exn)
| OutOfFuel.

Definition conclude (r : LoopResult) : Outcome :=
  match r with
  | LoopDone st =>
      match finish st with
      | Ok r => Returns r
      | Throw e => Throws e
      end
  | LoopReturned r => Returns r
  | LoopThrew e => Throws e
  | LoopOutOfFuel => OutOfFuel
  end.

Definition callEndpointWith (fuel : nat) : Outcome * list AxiosRequestConfig :=
  let r := runLoop fuel initialState [] in
  (conclude (fst r), snd r).

(** [callEndpoint] and the requests it issued. *)
Definition callEndpointTraced : Outcome * list AxiosRequestConfig :=
  callEndpointWith (S maxRequests).

Definition callEndpoint : Outcome := fst callEndpointTraced.

(** ** The states the loop passes through

    One exchange per completed pass: the request, the answer and the
    body [receive] extracted from it. [Reaches st exs] says that the
    loop, started by [callEndpoint], stands at its head in state [st]
    after the exchanges [exs]. *)
Record Exchange : Type := {
  ex_req : HttpRequest;
  ex_response : AxiosResponse;
  ex_page : value
}.

Definition traceOf (exs : list Exchange) : list AxiosRequestConfig :=
  map (fun e => axiosConfig (ex_req e)) exs.

(** The loop condition. *)
Definition running (st : LoopState) : bool :=
  hasMore st && (loopCounter st <? maxRequests)%nat.

Inductive Reaches : LoopState -> list Exchange -> Prop :=
| Reaches_start : Reaches initialState []
| Reaches_step (st : LoopState) (exs : list Exchange) (req : HttpRequest)
    (response : AxiosResponse) (page : value) (st' : LoopState) :
    Reaches st exs ->
    running st = true ->
    prepare st = Ok (ToHttp req) ->
    callAxios (List.length exs) (axiosConfig req) options = Ok response ->
    receive req response = Ok page ->
    handleResponse st req response = Ok st' ->
    Reaches st' (exs ++ [ {| ex_req := req; ex_response := response; ex_page := page |} ]).

End CallEndpoint.

(** ** [generateApiConfig] and [executeApiCall] *)

Record Message : Type := {
  role : string;
  content : string
}.

(** What the language model submits: an [error], or a repaired
    [apiConfig]. *)
Record Generated : Type := {
  gen_error : option string;
  gen_apiConfig : option ApiConfig
}.

Record Evaluation : Type := {
  ev_success : bool;
  refactorNeeded : bool;
  shortReason : string
}.

(** The self-healing collaborators: [isSelfHealingEnabled]
    (graphql/types.ts), the prompt text (llm/prompts.ts and the template
    of lines 328-360, which also searches the documentation),
    [LanguageModel.generateObject] as it answers during attempt [n],
    [generateId] (tools.ts), [evaluateResponse] (one more model call,
    lines 408-469) and the JSON text of an error object whose [message]
    is empty. *)
Class Assistant : Type := {
  isSelfHealingEnabled : RequestOptions -> bool;
  SELF_HEALING_API_AGENT_PROMPT : string;
  generationPrompt : ApiConfig -> object -> object -> Exc string;
  generateObject : nat -> list Message -> Exc (Generated * list Message);
  generateId : option string -> option string -> string;
  evaluateResponse : nat -> value -> ApiConfig -> Exc Evaluation;
  errorJson : exn -> string
}.

(** The value [response] holds in [executeApiCall]: what [callEndpoint]
    returned, or the object the catch block makes up. *)
Record ResponseBox : Type := {
  box_data : value;
  box_statusCode : option Z;
  box_headers : option object
}.

Record ExecResult : Type := {
  out_data : value;
  out_endpoint : ApiConfig;
  out_statusCode : option Z;
  out_headers : option object
}.

Record ExecState : Type := {
  ex_endpoint : ApiConfig;
  response : option ResponseBox;
  retryCount : nat;
  lastError : option string;
  messages : list Message;
  success : bool
}.

(** One entry per pass through the [do] body. *)
Record Attempt : Type := {
  at_retryCount : nat;
  at_error : option exn
}.

Section ExecuteApiCall.

Context `{Externals} `{Assistant}.
(** The remote side as it behaves during attempt [n]. *)
Variable remote : nat -> Remote.
Variables (payload credentials : object) (options : RequestOptions).

(** Lines 309-406. The second component is the [messages] array of the
    caller after the call, which the function extends in place. *)
Definition generateApiConfig (apiConfig : ApiConfig) (retryCount : nat)
    (messages : list Message)
  : Exc (ApiConfig * list Message) * list Message :=
  let pushed :=
    if (List.length messages =? 0)%nat then
      userPrompt <- generationPrompt apiConfig payload credentials ;;
      Ok (messages ++ [ {| role := "system"; content := SELF_HEALING_API_AGENT_PROMPT |};
                        {| role := "user"; content := userPrompt |} ])%list
    else Ok messages in
  match pushed with
  | Throw e => (Throw e, messages)
  | Ok messages1 =>
      match generateObject retryCount messages1 with
      | Throw e => (Throw e, messages1)
      | Ok (generatedConfig, updatedMessages) =>
          if truthy_str (gen_error generatedConfig)
          then (Throw (AbortError (show_opt (gen_error generatedConfig))), messages1)
          else
            match gen_apiConfig generatedConfig with
            | None =>
                (Throw (TypeError "Cannot read properties of undefined (reading 'urlHost')"),
                 messages1)
            | Some g =>
                (Ok ({| id := if truthy_str (id apiConfig) then id apiConfig
                              else Some (generateId (urlHost g) (urlPath g));
                        urlHost := urlHost g;
                        urlPath := urlPath g;
                        method := method g;
                        headers := headers g;
                        queryParams := queryParams g;
                        body := body g;
                        pagination := pagination g;
                        dataPath := dataPath g;
                        instruction := instruction apiConfig;
                        responseSchema := responseSchema apiConfig |},
                     updatedMessages), messages1)
            end
      end
  end.

(** [callEndpoint] as [executeApiCall] awaits it during attempt [n]. *)
Definition awaitCallEndpoint (n : nat) (endpoint : ApiConfig) : Exc EndpointResult :=
  match @callEndpoint _ (remote n) endpoint payload credentials options with
  | Returns r => Ok r
  | Throws e => Throw e
  | OutOfFuel => Throw (Error "callEndpoint did not return")
  end.

Definition retryLimit : Z :=
  match retries options with
  | Some r => r
  | None => MAX_CALL_RETRIES
  end.

(** Lines 500-539: the [try] block. The state returned is the one the
    [catch] block sees when the block throws. *)
Definition tryBlock (st : ExecState) : Exc unit * ExecState :=
  let healing := (0 <? retryCount st)%nat && isSelfHealingEnabled options in
  let generated :=
    if healing then
      match generateApiConfig (ex_endpoint st) (retryCount st) (messages st) with
      | (Throw e, msgs) =>
          (Throw e, {| ex_endpoint := ex_endpoint st; response := response st;
                       retryCount := retryCount st; lastError := lastError st;
                       messages := msgs; success := success st |})
      | (Ok (config, msgs), _) =>
          (Ok tt, {| ex_endpoint := config; response := response st;
                     retryCount := retryCount st; lastError := lastError st;
                     messages := msgs; success := success st |})
      end
    else (Ok tt, st) in
  match generated with
  | (Throw e, st1) => (Throw e, st1)
  | (Ok _, st1) =>
      match awaitCallEndpoint (retryCount st1) (ex_endpoint st1) with
      | Throw e => (Throw e, st1)
      | Ok r =>
          let st2 b :=
            {| ex_endpoint := ex_endpoint st1;
               response := Some {| box_data := res_data r;
                                   box_statusCode := Some (res_statusCode r);
                                   box_headers := Some (res_headers r) |};
               retryCount := retryCount st1; lastError := lastError st1;
               messages := messages st1; success := b |} in
          if negb (truthy (res_data r)) then
            (Throw (Error "No data returned from API. This could be due to a configuration error."),
             st2 (success st1))
          else if healing then
            match evaluateResponse (retryCount st1) (res_data r) (ex_endpoint st1) with
            | Throw e => (Throw e, st2 (success st1))
            | Ok result =>
                if ev_success result then (Ok tt, st2 true)
                else (Throw (Error (shortReason result ++ " " ++
                                    slice0 1000 (stringify_str (res_data r)))),
                      st2 false)
            end
          else (Ok tt, st2 true)
      end
  end.

(** Line 541: [error?.message || JSON.stringify(error || {})]. *)
Definition rawErrorString (error : exn) : string :=
  if exn_message error =? EmptyString then errorJson error else exn_message error.

Definition fixPrompt : string :=
  "There was an error with the configuration, please fix: ".

Definition statusOfError (error : exn) : option Z :=
  match error with
  | ApiCallError _ statusCode => statusCode
  | _ => Some 500%Z
  end.

Definition falsyStatus (r : option ResponseBox) : bool :=
  match r with
  | Some b => match box_statusCode b with
              | Some z => (z =? 0)%Z
              | None => true
              end
  | None => true
  end.

(** Lines 540-552: the [catch] block up to the [AbortError] test. *)
Definition catchBlock (st : ExecState) (error : exn) : ExecState :=
  let raw := rawErrorString error in
  {| ex_endpoint := ex_endpoint st;
     response :=
       if falsyStatus (response st) then
         Some {| box_data := match response st with
                             | Some b => box_data b
                             | None => VUndefined
                             end;
                 box_statusCode := statusOfError error;
                 box_headers := match response st with
                                | Some b => box_headers b
                                | None => None
                                end |}
       else response st;
     retryCount := retryCount st;
     lastError := Some (slice0 1000 (maskCredentials raw (Some credentials)));
     messages :=
       if (0 <? retryCount st)%nat
       then (messages st ++
             [ {| role := "user"; content := fixPrompt ++ slice0 2000 raw |} ])%list
       else messages st;
     success := success st |}.

Definition isAbortError (e : exn) : bool :=
  match e with
  | AbortError _ => true
  | _ => false
  end.

Definition bump (st : ExecState) : ExecState :=
  {| ex_endpoint := ex_endpoint st; response := response st;
     retryCount := S (retryCount st); lastError := lastError st;
     messages := messages st; success := success st |}.

(** The [do ... while (retryCount < limit)] loop; [log] records the
    passes through its body, oldest first. [None]: out of fuel. *)
Fixpoint execLoop (fuel : nat) (st : ExecState) (log : list Attempt)
  : option (ExecState * list Attempt) :=
  match fuel with
  | O => None
  | S fuel' =>
      match tryBlock st with
      | (Ok _, st1) =>
          Some (st1, (log ++ [ {| at_retryCount := retryCount st; at_error := None |} ])%list)
      | (Throw error, st1) =>
          let st2 := catchBlock st1 error in
          let log' :=
            (log ++ [ {| at_retryCount := retryCount st; at_error := Some error |} ])%list in
          if isAbortError error then Some (st2, log')
          else
            let st3 := bump st2 in
            if (Z.of_nat (retryCount st3) <? retryLimit)%Z
            then execLoop fuel' st3 log'
            else Some (st3, log')
      end
  end.

Definition show_lastError (o : option string) : string :=
  match o with
  | Some s => s
  | None => "null"
  end.

Definition failureText (st : ExecState) : string :=
  "API call failed after " ++ Z_to_string (Z.of_nat (retryCount st)) ++
  " retries. Last error: " ++ show_lastError (lastError st).

(** Lines 559-567. *)
Definition finishExec (st : ExecState) : Exc ExecResult :=
  if negb (success st) then
    Throw (ApiCallError (failureText st)
             (match response st with
              | Some b => box_statusCode b
              | None => None
              end))
  else
    Ok {| out_data := match response st with
                      | Some b => box_data b
                      | None => VUndefined
                      end;
          out_endpoint := ex_endpoint st;
          out_statusCode := match response st with
                            | Some b => box_statusCode b
                            | None => None
                            end;
          out_headers := match response st with
                         | Some b => box_headers b
                         | None => None
                         end |}.

Definition initialExec (endpoint : ApiConfig) : ExecState :=
  {| ex_endpoint := endpoint; response := None; retryCount := 0;
     lastError := None; messages := []; success := false |}.

(** Enough fuel for every pass the loop condition allows. *)
Definition execFuel : nat := S (Z.to_nat retryLimit).

Definition executeApiCallTraced (endpoint : ApiConfig)
  : option (Exc ExecResult * ExecState * list Attempt) :=
  match execLoop execFuel (initialExec endpoint) [] with
  | Some (st, log) => Some (finishExec st, st, log)
  | None => None
  end.

Definition executeApiCall (endpoint : ApiConfig) : option (Exc ExecResult) :=
  match executeApiCallTraced endpoint with
  | Some (r, _, _) => Some r
  | None => None
  end.

(** The passes the loop condition still allows from [st] on. *)
Definition allowance (st : ExecState) : nat :=
  Nat.max 1 (Z.to_nat (retryLimit - Z.of_nat (retryCount st))).

(** What [lastError] holds after a pass that failed with [e]. *)
Definition maskedError (e : exn) : string :=
  slice0 1000 (maskCredentials (rawErrorString e) (Some credentials)).

End ExecuteApiCall.

(** A message by which [executeApiCall] asks for a repair. *)
Definition fixRequest (m : Message) : Prop :=
  role m = "user" /\ prefix fixPrompt (content m) = true.

(** What a repair by the language model leaves of the endpoint it is
    given: the instruction, the response schema and, when set, the id. *)
Definition keeps (endpoint e : ApiConfig) : Prop :=
  instruction e = instruction endpoint /\
  responseSchema e = responseSchema endpoint /\
  (truthy_str (id endpoint) = true -> id e = id endpoint).

(** The elements a page contributes when it is an array. *)
Definition elements (v : value) : list value :=
  match v with
  | VArray l => l
  | _ => []
  end.

End Api.

(* ================================================================== *)
(** * shared/integrations.ts                                          *)
(* ================================================================== *)

Module Integrations.
Import JS.

Inductive AuthType : Type :=
| oauth_auth
| apikey_auth
| none_auth.

Record OAuthConfig : Type := {
  authUrl : string;
  tokenUrl : string;
  scopes : option string
}.

Record IntegrationConfig : Type := {
  apiUrl : string;
  regex : string;
  icon : string;
  docsUrl : string;
  openApiUrl : option string;
  preferredAuthType : option AuthType;
  oauth : option OAuthConfig
}.

(** The catalog, in declaration order, which is the order
    [Object.entries] lists it in. *)
Definition integrations : list (string * IntegrationConfig) := [
  ("stripe",
   {| apiUrl := "https://api.stripe.com";
      regex := "^(.*\.)?stripe\.com(/.*)?$";
      icon := "stripe";
      docsUrl := "https://stripe.com/docs/api";
      openApiUrl := (Some "https://raw.githubusercontent.com/stripe/openapi/master/openapi/spec3.json");
      preferredAuthType := (Some apikey_auth);
      oauth := None |});
  ("shopify",
   {| apiUrl := "https://admin.shopify.com";
      regex := "^(.*\.)?myshopify\.com(/.*)?$";
      icon := "shopify";
      docsUrl := "https://shopify.dev/docs/api";
      openApiUrl := None;
      preferredAuthType := (Some apikey_auth);
      oauth := (Some {| authUrl := "https://{shop}.myshopify.com/admin/oauth/authorize";
                       tokenUrl := "https://{shop}.myshopify.com/admin/oauth/access_token";
                       scopes := (Some "read_products write_products read_orders write_orders read_customers write_customers read_inventory write_inventory read_fulfillments write_fulfillments read_shipping write_shipping") |}) |});
  ("hubspot",
   {| apiUrl := "https://api.hubapi.com/crm/v3";
      regex := "^(.*\.)?(hubapi|hubspot)\.com(/.*)?$";
      icon := "hubspot";
      docsUrl := "https://developers.hubspot.com/docs/api/overview";
      openApiUrl := (Some "https://api.hubspot.com/public/api/spec/v1/specs");
      preferredAuthType := (Some apikey_auth);
      oauth := (Some {| authUrl := "https://app.hubspot.com/oauth/authorize";
                       tokenUrl := "https://api.hubapi.com/oauth/v1/token";
                       scopes := (Some "crm.objects.contacts.read crm.objects.contacts.write crm.objects.companies.read crm.objects.companies.write crm.objects.deals.read crm.objects.deals.write crm.objects.owners.read forms forms-uploaded-files files sales-email-read crm.objects.quotes.read crm.objects.quotes.write") |}) |});
  ("attio",
   {| apiUrl := "https://api.attio.com/v2/";
      regex := "^(.*\.)?attio\.com(/.*)?$";
      icon := "attio";
      docsUrl := "https://api.attio.com/openapi/api";
      openApiUrl := (Some "https://api.attio.com/openapi/api");
      preferredAuthType := (Some apikey_auth);
      oauth := None |});
  ("twilio",
   {| apiUrl := "https://api.twilio.com";
      regex := "^(.*\.)?twilio\.com(/.*)?$";
      icon := "twilio";
      docsUrl := "https://www.twilio.com/docs/api";
      openApiUrl := (Some "https://raw.githubusercontent.com/twilio/twilio-oai/refs/heads/main/spec/json/twilio_api_v2010.json");
      preferredAuthType := (Some apikey_auth);
      oauth := None |});
  ("sendgrid",
   {| apiUrl := "https://api.sendgrid.com";
      regex := "^(.*\.)?sendgrid\.com(/.*)?$";
      icon := "sendgrid";
      docsUrl := "https://docs.sendgrid.com/api-reference";
      openApiUrl := (Some "https://raw.githubusercontent.com/sendgrid/sendgrid-oai/main/oai.json");
      preferredAuthType := (Some apikey_auth);
      oauth := None |});
  ("github",
   {| apiUrl := "https://api.github.com";
      regex := "^(.*\.)?github\.com(/.*)?$";
      icon := "github";
      docsUrl := "https://docs.github.com/en/rest";
      openApiUrl := (Some "https://raw.githubusercontent.com/github/rest-api-description/main/descriptions/api.github.com/api.github.com.json");
      preferredAuthType := (Some apikey_auth);
      oauth := (Some {| authUrl := "https://github.com/login/oauth/authorize";
                       tokenUrl := "https://github.com/login/oauth/access_token";
                       scopes := (Some "repo user read:org write:org admin:repo_hook admin:org_hook gist notifications delete_repo write:packages read:packages delete:packages admin:gpg_key workflow") |}) |});
  ("gitlab",
   {| apiUrl := "https://api.gitlab.com";
      regex := "^(.*\.)?gitlab\.com(/.*)?$";
      icon := "gitlab";
      docsUrl := "https://docs.gitlab.com/ee/api/";
      openApiUrl := (Some "https://gitlab.com/gitlab-org/gitlab/-/raw/master/doc/api/openapi/openapi.yaml");
      preferredAuthType := (Some apikey_auth);
      oauth := (Some {| authUrl := "https://gitlab.com/oauth/authorize";
                       tokenUrl := "https://gitlab.com/oauth/token";
                       scopes := (Some "api read_api read_user read_repository write_repository read_registry write_registry sudo admin_mode") |}) |});
  ("bitbucket",
   {| apiUrl := "https://api.bitbucket.org";
      regex := "^(.*\.)?bitbucket\.org(/.*)?$";
      icon := "bitbucket";
      docsUrl := "https://developer.atlassian.com/cloud/bitbucket/rest";
      openApiUrl := (Some "https://api.bitbucket.org/swagger.json");
      preferredAuthType := (Some oauth_auth);
      oauth := (Some {| authUrl := "https://bitbucket.org/site/oauth2/authorize";
                       tokenUrl := "https://bitbucket.org/site/oauth2/access_token";
                       scopes := (Some "repository repository:write repository:admin repository:delete issue issue:write pullrequest pullrequest:write wiki snippet account account:write team team:write webhook") |}) |});
  ("slack",
   {| apiUrl := "https://api.slack.com";
      regex := "^(.*\.)?slack\.com(/.*)?$";
      icon := "slack";
      docsUrl := "https://api.slack.com/docs";
      openApiUrl := (Some "https://raw.githubusercontent.com/slackapi/slack-api-specs/master/web-api/slack_web_openapi_v2.json");
      preferredAuthType := (Some oauth_auth);
      oauth := (Some {| authUrl := "https://slack.com/oauth/v2/authorize";
                       tokenUrl := "https://slack.com/api/oauth.v2.access";
                       scopes := (Some "channels:read channels:write channels:history chat:write chat:write.public users:read users:read.email files:read files:write groups:read groups:write im:read im:write mpim:read mpim:write") |}) |});
  ("airtable",
   {| apiUrl := "https://api.airtable.com";
      regex := "^(.*\.)?airtable\.com(/.*)?$";
      icon := "airtable";
      docsUrl := "https://airtable.com/developers/web/api";
      openApiUrl := None;
      preferredAuthType := (Some apikey_auth);
      oauth := (Some {| authUrl := "https://airtable.com/oauth2/v1/authorize";
                       tokenUrl := "https://airtable.com/oauth2/v1/token";
                       scopes := (Some "data.records:read data.records:write data.recordComments:read data.recordComments:write schema.bases:read schema.bases:write webhook:manage user.email:read") |}) |});
  ("gmail",
   {| apiUrl := "https://gmail.googleapis.com/gmail/v1";
      regex := "^(.*\.)?(gmail\.googleapis\.com|mail\.google\.com)(/.*)?$";
      icon := "gmail";
      docsUrl := "https://developers.google.com/gmail/api/reference/rest";
      openApiUrl := (Some "https://www.googleapis.com/discovery/v1/apis/gmail/v1/rest");
      preferredAuthType := (Some oauth_auth);
      oauth := (Some {| authUrl := "https://accounts.google.com/o/oauth2/v2/auth";
                       tokenUrl := "https://oauth2.googleapis.com/token";
                       scopes := (Some "https://www.googleapis.com/auth/gmail.readonly https://www.googleapis.com/auth/gmail.send https://www.googleapis.com/auth/gmail.modify https://www.googleapis.com/auth/gmail.compose https://www.googleapis.com/auth/gmail.labels https://www.googleapis.com/auth/gmail.metadata https://www.googleapis.com/auth/gmail.settings.basic https://www.googleapis.com/auth/gmail.settings.sharing") |}) |});
  ("googleDrive",
   {| apiUrl := "https://www.googleapis.com/drive/v3";
      regex := "^(.*\.)?drive\.google\.com(/.*)?$";
      icon := "googledrive";
      docsUrl := "https://developers.google.com/drive/api/v3/reference";
      openApiUrl := (Some "https://www.googleapis.com/discovery/v1/apis/drive/v3/rest");
      preferredAuthType := (Some oauth_auth);
      oauth := (Some {| authUrl := "https://accounts.google.com/o/oauth2/v2/auth";
                       tokenUrl := "https://oauth2.googleapis.com/token";
                       scopes := (Some "https://www.googleapis.com/auth/drive.file https://www.googleapis.com/auth/drive.readonly https://www.googleapis.com/auth/drive https://www.googleapis.com/auth/drive.appdata https://www.googleapis.com/auth/drive.metadata https://www.googleapis.com/auth/drive.metadata.readonly https://www.googleapis.com/auth/drive.photos.readonly") |}) |});
  ("googleCalendar",
   {| apiUrl := "https://www.googleapis.com/calendar/v3";
      regex := "^(.*\.)?calendar\.google\.com(/.*)?$";
      icon := "googlecalendar";
      docsUrl := "https://developers.google.com/calendar/api/v3/reference";
      openApiUrl := (Some "https://www.googleapis.com/discovery/v1/apis/calendar/v3/rest");
      preferredAuthType := (Some oauth_auth);
      oauth := (Some {| authUrl := "https://accounts.google.com/o/oauth2/v2/auth";
                       tokenUrl := "https://oauth2.googleapis.com/token";
                       scopes := (Some "https://www.googleapis.com/auth/calendar.readonly https://www.googleapis.com/auth/calendar.events https://www.googleapis.com/auth/calendar https://www.googleapis.com/auth/calendar.settings.readonly https://www.googleapis.com/auth/calendar.calendars https://www.googleapis.com/auth/calendar.calendars.readonly") |}) |});
  ("googleSheets",
   {| apiUrl := "https://sheets.googleapis.com/v4";
      regex := "^(.*\.)?sheets\.googleapis\.com(/.*)?$";
      icon := "googlesheets";
      docsUrl := "https://developers.google.com/sheets/api/reference/rest";
      openApiUrl := (Some "https://www.googleapis.com/discovery/v1/apis/sheets/v4/rest");
      preferredAuthType := (Some oauth_auth);
      oauth := (Some {| authUrl := "https://accounts.google.com/o/oauth2/v2/auth";
                       tokenUrl := "https://oauth2.googleapis.com/token";
                       scopes := (Some "https://www.googleapis.com/auth/spreadsheets https://www.googleapis.com/auth/spreadsheets.readonly https://www.googleapis.com/auth/drive.file https://www.googleapis.com/auth/drive.readonly") |}) |});
  ("googleAnalytics",
   {| apiUrl := "https://analytics.google.com";
      regex := "^(.*\.)?(analytics\.google\.com|analyticsdata\.googleapis\.com)(/.*)?$";
      icon := "googleAnalytics";
      docsUrl := "https://developers.google.com/analytics/devguides/reporting/data/v1";
      openApiUrl := (Some "https://analyticsdata.googleapis.com/$discovery/rest?version=v1beta");
      preferredAuthType := (Some oauth_auth);
      oauth := (Some {| authUrl := "https://accounts.google.com/o/oauth2/v2/auth";
                       tokenUrl := "https://oauth2.googleapis.com/token";
                       scopes := (Some "https://www.googleapis.com/auth/analytics.readonly https://www.googleapis.com/auth/analytics https://www.googleapis.com/auth/analytics.edit https://www.googleapis.com/auth/analytics.manage.users https://www.googleapis.com/auth/analytics.manage.users.readonly https://www.googleapis.com/auth/analytics.user.deletion") |}) |});
  ("youtube",
   {| apiUrl := "https://youtube.googleapis.com";
      regex := "^(.*\.)?(youtube\.com|youtube\.googleapis\.com)(/.*)?$";
      icon := "youtube";
      docsUrl := "https://developers.google.com/youtube/v3/docs";
      openApiUrl := (Some "https://www.googleapis.com/discovery/v1/apis/youtube/v3/rest");
      preferredAuthType := (Some oauth_auth);
      oauth := (Some {| authUrl := "https://accounts.google.com/o/oauth2/v2/auth";
                       tokenUrl := "https://oauth2.googleapis.com/token";
                       scopes := (Some "https://www.googleapis.com/auth/youtube.readonly https://www.googleapis.com/auth/youtube https://www.googleapis.com/auth/youtube.force-ssl https://www.googleapis.com/auth/youtube.upload https://www.googleapis.com/auth/youtube.channel-memberships.creator https://www.googleapis.com/auth/youtubepartner") |}) |});
  ("aws",
   {| apiUrl := "https://amazonaws.com";
      regex := "^(.*\.)?amazonaws\.com(/.*)?$";
      icon := "amazonAWS";
      docsUrl := "https://docs.aws.amazon.com/index.html";
      openApiUrl := None;
      preferredAuthType := (Some apikey_auth);
      oauth := None |});
  ("googleCloud",
   {| apiUrl := "https://cloud.google.com";
      regex := "^(.*\.)?cloud\.google\.com(/.*)?$";
      icon := "googleCloud";
      docsUrl := "https://cloud.google.com/apis/docs/overview";
      openApiUrl := None;
      preferredAuthType := (Some oauth_auth);
      oauth := (Some {| authUrl := "https://accounts.google.com/o/oauth2/v2/auth";
                       tokenUrl := "https://oauth2.googleapis.com/token";
                       scopes := (Some "https://www.googleapis.com/auth/cloud-platform https://www.googleapis.com/auth/cloud-platform.read-only https://www.googleapis.com/auth/cloudplatformprojects https://www.googleapis.com/auth/cloudplatformprojects.readonly https://www.googleapis.com/auth/devstorage.full_control https://www.googleapis.com/auth/devstorage.read_only https://www.googleapis.com/auth/devstorage.read_write") |}) |});
  ("firebase",
   {| apiUrl := "https://firestore.googleapis.com";
      regex := "^(.*\.)?(firebase\.google\.com|firebaseio\.com|firestore\.googleapis\.com)(/.*)?$";
      icon := "firebase";
      docsUrl := "https://firebase.google.com/docs/reference/firebase-management/rest";
      openApiUrl := (Some "https://firestore.googleapis.com/$discovery/rest?version=v1");
      preferredAuthType := (Some oauth_auth);
      oauth := (Some {| authUrl := "https://accounts.google.com/o/oauth2/v2/auth";
                       tokenUrl := "https://oauth2.googleapis.com/token";
                       scopes := (Some "https://www.googleapis.com/auth/firebase https://www.googleapis.com/auth/datastore") |}) |});
  ("salesforce",
   {| apiUrl := "https://api.salesforce.com";
      regex := "^(.*\.)?salesforce\.com(/.*)?$";
      icon := "salesforce";
      docsUrl := "https://developer.salesforce.com/docs/atlas.en-us.api_rest.meta/api_rest/intro_rest.htm";
      openApiUrl := None;
      preferredAuthType := (Some oauth_auth);
      oauth := (Some {| authUrl := "https://login.salesforce.com/services/oauth2/authorize";
                       tokenUrl := "https://login.salesforce.com/services/oauth2/token";
                       scopes := (Some "api refresh_token web full chatter_api custom_permissions eclair_api wave_api pardot_api content cdp_query_api cdp_profile_api cdp_ingest_api interaction_api") |}) |});
  ("facebook",
   {| apiUrl := "https://graph.facebook.com";
      regex := "^(.*\.)?facebook\.com(/.*)?$";
      icon := "facebook";
      docsUrl := "https://developers.facebook.com/docs/graph-api";
      openApiUrl := None;
      preferredAuthType := (Some oauth_auth);
      oauth := (Some {| authUrl := "https://www.facebook.com/v18.0/dialog/oauth";
                       tokenUrl := "https://graph.facebook.com/v18.0/oauth/access_token";
                       scopes := (Some "email public_profile pages_show_list pages_read_engagement pages_manage_metadata pages_read_user_content pages_manage_posts pages_manage_engagement business_management ads_management ads_read catalog_management leads_retrieval") |}) |});
  ("instagram",
   {| apiUrl := "https://graph.facebook.com/v23.0/";
      regex := "^(.*\.)?instagram\.com(/.*)?$";
      icon := "instagram";
      docsUrl := "https://developers.facebook.com/docs/graph-api/overview";
      openApiUrl := None;
      preferredAuthType := (Some oauth_auth);
      oauth := (Some {| authUrl := "https://www.facebook.com/v23.0/dialog/oauth";
                       tokenUrl := "https://graph.facebook.com/v23.0/oauth/access_token";
                       scopes := (Some "instagram_basic pages_show_list instagram_content_publish pages_read_engagement instagram_manage_comments instagram_manage_insights instagram_manage_messages business_management") |}) |});
  ("twitter",
   {| apiUrl := "https://api.twitter.com";
      regex := "^(.*\.)?twitter\.com(/.*)?$";
      icon := "x";
      docsUrl := "https://developer.twitter.com/en/docs/twitter-api";
      openApiUrl := (Some "https://api.twitter.com/2/openapi.json");
      preferredAuthType := (Some oauth_auth);
      oauth := (Some {| authUrl := "https://twitter.com/i/oauth2/authorize";
                       tokenUrl := "https://api.twitter.com/2/oauth2/token";
                       scopes := (Some "tweet.read tweet.write tweet.moderate.write users.read follows.read follows.write offline.access space.read mute.read mute.write like.read like.write list.read list.write block.read block.write bookmark.read bookmark.write") |}) |});
  ("linkedin",
   {| apiUrl := "https://api.linkedin.com";
      regex := "^(.*\.)?linkedin\.com(/.*)?$";
      icon := "linkedin";
      docsUrl := "https://developer.linkedin.com/docs";
      openApiUrl := None;
      preferredAuthType := (Some oauth_auth);
      oauth := (Some {| authUrl := "https://www.linkedin.com/oauth/v2/authorization";
                       tokenUrl := "https://www.linkedin.com/oauth/v2/accessToken";
                       scopes := (Some "r_liteprofile r_emailaddress w_member_social r_fullprofile r_basicprofile rw_company_admin r_1st_connections r_ads r_ads_reporting r_organization_social rw_organization_admin w_organization_social r_events") |}) |});
  ("paypal",
   {| apiUrl := "https://api.paypal.com";
      regex := "^(.*\.)?paypal\.com(/.*)?$";
      icon := "paypal";
      docsUrl := "https://developer.paypal.com/api/rest";
      openApiUrl := None;
      preferredAuthType := (Some apikey_auth);
      oauth := None |});
  ("square",
   {| apiUrl := "https://connect.squareup.com";
      regex := "^(.*\.)?square\.com(/.*)?$";
      icon := "square";
      docsUrl := "https://developer.squareup.com/reference/square";
      openApiUrl := (Some "https://raw.githubusercontent.com/square/connect-api-specification/refs/heads/master/api.json");
      preferredAuthType := (Some oauth_auth);
      oauth := (Some {| authUrl := "https://connect.squareup.com/oauth2/authorize";
                       tokenUrl := "https://connect.squareup.com/oauth2/token";
                       scopes := (Some "MERCHANT_PROFILE_READ PAYMENTS_READ PAYMENTS_WRITE CUSTOMERS_READ CUSTOMERS_WRITE INVENTORY_READ INVENTORY_WRITE ORDERS_READ ORDERS_WRITE ITEMS_READ ITEMS_WRITE EMPLOYEES_READ EMPLOYEES_WRITE TIMECARDS_READ TIMECARDS_WRITE") |}) |});
  ("adyen",
   {| apiUrl := "https://checkout-test.adyen.com";
      regex := "^(.*\.)?adyen\.com(/.*)?$";
      icon := "adyen";
      docsUrl := "https://docs.adyen.com/api-explorer";
      openApiUrl := (Some "https://raw.githubusercontent.com/Adyen/adyen-openapi/main/yaml/CheckoutService-v71.yaml");
      preferredAuthType := (Some apikey_auth);
      oauth := None |});
  ("razorpay",
   {| apiUrl := "https://api.razorpay.com";
      regex := "^(.*\.)?razorpay\.com(/.*)?$";
      icon := "razorpay";
      docsUrl := "https://razorpay.com/docs/api";
      openApiUrl := None;
      preferredAuthType := (Some apikey_auth);
      oauth := None |});
  ("plaid",
   {| apiUrl := "https://production.plaid.com";
      regex := "^(.*\.)?plaid\.com(/.*)?$";
      icon := "plaid";
      docsUrl := "https://plaid.com/docs/api";
      openApiUrl := (Some "https://raw.githubusercontent.com/plaid/plaid-openapi/master/2020-09-14.yml");
      preferredAuthType := (Some apikey_auth);
      oauth := None |});
  ("zendesk",
   {| apiUrl := "https://api.zendesk.com";
      regex := "^(.*\.)?zendesk\.com(/.*)?$";
      icon := "zendesk";
      docsUrl := "https://developer.zendesk.com/api-reference";
      openApiUrl := (Some "https://developer.zendesk.com/zendesk/oas.yaml");
      preferredAuthType := (Some apikey_auth);
      oauth := (Some {| authUrl := "https://{subdomain}.zendesk.com/oauth/authorizations/new";
                       tokenUrl := "https://{subdomain}.zendesk.com/oauth/tokens";
                       scopes := (Some "read write tickets:read tickets:write users:read users:write organizations:read organizations:write hc:read hc:write chat:read chat:write") |}) |});
  ("freshdesk",
   {| apiUrl := "https://{domain}.freshdesk.com/api/v2";
      regex := "^(.*\.)?freshdesk\.com(/.*)?$";
      icon := "freshdesk";
      docsUrl := "https://developers.freshdesk.com/api";
      openApiUrl := None;
      preferredAuthType := (Some apikey_auth);
      oauth := None |});
  ("freshworks",
   {| apiUrl := "https://{domain}.freshservice.com/api/v2";
      regex := "^(.*\.)?freshservice\.com(/.*)?$";
      icon := "freshworks";
      docsUrl := "https://api.freshservice.com";
      openApiUrl := None;
      preferredAuthType := (Some apikey_auth);
      oauth := None |});
  ("servicenow",
   {| apiUrl := "https://{instance}.service-now.com/api";
      regex := "^(.*\.)?(service-now\.com|servicenow\.com)(/.*)?$";
      icon := "servicenow";
      docsUrl := "https://developer.servicenow.com/dev.do#!/reference/api/latest/rest";
      openApiUrl := None;
      preferredAuthType := (Some apikey_auth);
      oauth := None |});
  ("helpscout",
   {| apiUrl := "https://api.helpscout.net";
      regex := "^(.*\.)?helpscout\.net(/.*)?$";
      icon := "helpscout";
      docsUrl := "https://developer.helpscout.com/mailbox-api";
      openApiUrl := None;
      preferredAuthType := (Some apikey_auth);
      oauth := None |});
  ("dropbox",
   {| apiUrl := "https://api.dropboxapi.com";
      regex := "^(.*\.)?dropbox\.com(/.*)?$";
      icon := "dropbox";
      docsUrl := "https://www.dropbox.com/developers/documentation/http/documentation";
      openApiUrl := None;
      preferredAuthType := (Some oauth_auth);
      oauth := (Some {| authUrl := "https://www.dropbox.com/oauth2/authorize";
                       tokenUrl := "https://api.dropboxapi.com/oauth2/token";
                       scopes := (Some "files.metadata.read files.metadata.write files.content.read files.content.write sharing.read sharing.write account_info.read account_info.write contacts.read") |}) |});
  ("mailchimp",
   {| apiUrl := "https://api.mailchimp.com";
      regex := "^(.*\.)?mailchimp\.com(/.*)?$";
      icon := "mailchimp";
      docsUrl := "https://mailchimp.com/developer/marketing/api";
      openApiUrl := (Some "https://api.mailchimp.com/schema/3.0/Swagger.json");
      preferredAuthType := (Some apikey_auth);
      oauth := (Some {| authUrl := "https://login.mailchimp.com/oauth2/authorize";
                       tokenUrl := "https://login.mailchimp.com/oauth2/token";
                       scopes := (Some "audiences:read audiences:write automations:read automations:write campaigns:read campaigns:write conversations:read conversations:write ecommerce:read ecommerce:write files:read files:write lists:read lists:write reports:read templates:read templates:write") |}) |});
  ("jira",
   {| apiUrl := "https://{your-domain}.atlassian.net/rest/api";
      regex := "^(.*\.)?(jira\.com|atlassian\.net|atlassian\.com)(/.*)?$";
      icon := "jira";
      docsUrl := "https://developer.atlassian.com/cloud/jira/platform/rest/v3";
      openApiUrl := (Some "https://developer.atlassian.com/cloud/jira/platform/swagger-v3.json");
      preferredAuthType := (Some oauth_auth);
      oauth := (Some {| authUrl := "https://auth.atlassian.com/authorize";
                       tokenUrl := "https://auth.atlassian.com/oauth/token";
                       scopes := (Some "read:jira-work write:jira-work read:jira-user write:jira-user read:jira-work-management write:jira-work-management read:servicedesk-request write:servicedesk-request manage:jira-project manage:jira-configuration manage:jira-data-provider") |}) |});
  ("confluence",
   {| apiUrl := "https://{your-domain}.atlassian.net/wiki/rest/api";
      regex := "^(.*\.)?(confluence\.com|atlassian\.net|atlassian\.com)(/.*)?$";
      icon := "confluence";
      docsUrl := "https://developer.atlassian.com/cloud/confluence/rest";
      openApiUrl := (Some "https://developer.atlassian.com/cloud/confluence/openapi.json");
      preferredAuthType := (Some oauth_auth);
      oauth := (Some {| authUrl := "https://auth.atlassian.com/authorize";
                       tokenUrl := "https://auth.atlassian.com/oauth/token";
                       scopes := (Some "read:confluence-content.all write:confluence-content read:confluence-space.summary write:confluence-space read:confluence-props write:confluence-props read:confluence-user write:confluence-user read:confluence-groups write:confluence-groups delete:confluence-content delete:confluence-space") |}) |});
  ("quickbooks",
   {| apiUrl := "https://quickbooks.api.intuit.com";
      regex := "^(.*\.)?quickbooks\.com(/.*)?$";
      icon := "quickbooks";
      docsUrl := "https://developer.intuit.com/app/developer/qbo/docs/api/accounting/most-commonly-used/account";
      openApiUrl := None;
      preferredAuthType := (Some oauth_auth);
      oauth := (Some {| authUrl := "https://appcenter.intuit.com/connect/oauth2";
                       tokenUrl := "https://oauth.platform.intuit.com/oauth2/v1/tokens/bearer";
                       scopes := (Some "com.intuit.quickbooks.accounting com.intuit.quickbooks.payment com.intuit.quickbooks.payroll com.intuit.quickbooks.payroll.timetracking com.intuit.quickbooks.payroll.benefits openid profile email phone address") |}) |});
  ("xero",
   {| apiUrl := "https://api.xero.com";
      regex := "^(.*\.)?xero\.com(/.*)?$";
      icon := "xero";
      docsUrl := "https://developer.xero.com/documentation/api/api-overview";
      openApiUrl := (Some "https://raw.githubusercontent.com/XeroAPI/Xero-OpenAPI/master/xero_accounting.yaml");
      preferredAuthType := (Some oauth_auth);
      oauth := (Some {| authUrl := "https://login.xero.com/identity/connect/authorize";
                       tokenUrl := "https://identity.xero.com/connect/token";
                       scopes := (Some "accounting.transactions accounting.transactions.read accounting.reports.read accounting.journals.read accounting.settings accounting.settings.read accounting.contacts accounting.contacts.read accounting.attachments accounting.attachments.read payroll.employees payroll.payruns payroll.payslip payroll.timesheets payroll.settings") |}) |});
  ("docusign",
   {| apiUrl := "https://api.docusign.com";
      regex := "^(.*\.)?docusign\.com(/.*)?$";
      icon := "docusign";
      docsUrl := "https://developers.docusign.com/docs/esign-rest-api";
      openApiUrl := (Some "https://raw.githubusercontent.com/docusign/OpenAPI-Specifications/refs/heads/master/esignature.rest.swagger-v2.1.json");
      preferredAuthType := (Some oauth_auth);
      oauth := (Some {| authUrl := "https://account.docusign.com/oauth/auth";
                       tokenUrl := "https://account.docusign.com/oauth/token";
                       scopes := (Some "signature extended impersonation organization_read group_read permission_read user_read user_write account_read domain_read identity_provider_read user_data_redact asset_group_account_read asset_group_account_clone_write asset_group_account_clone_read") |}) |});
  ("intercom",
   {| apiUrl := "https://api.intercom.io";
      regex := "^(.*\.)?intercom\.com(/.*)?$";
      icon := "intercom";
      docsUrl := "https://developers.intercom.com/intercom-api-reference";
      openApiUrl := (Some "https://raw.githubusercontent.com/intercom/Intercom-OpenAPI/refs/heads/main/descriptions/2.9/api.intercom.io.yaml");
      preferredAuthType := (Some apikey_auth);
      oauth := (Some {| authUrl := "https://app.intercom.com/oauth";
                       tokenUrl := "https://api.intercom.io/auth/eagle/token";
                       scopes := (Some "inbox:read inbox:write users:read users:write companies:read companies:write contacts:read contacts:write conversations:read conversations:write help_center:read help_center:write teams:read teams:write tags:read tags:write segments:read events:write counts:read") |}) |});
  ("asana",
   {| apiUrl := "https://app.asana.com/api";
      regex := "^(.*\.)?asana\.com(/.*)?$";
      icon := "asana";
      docsUrl := "https://developers.asana.com/docs";
      openApiUrl := (Some "https://raw.githubusercontent.com/Asana/openapi/master/defs/asana_oas.yaml");
      preferredAuthType := (Some apikey_auth);
      oauth := (Some {| authUrl := "https://app.asana.com/-/oauth_authorize";
                       tokenUrl := "https://app.asana.com/-/oauth_token";
                       scopes := (Some "default openid email profile") |}) |});
  ("trello",
   {| apiUrl := "https://api.trello.com";
      regex := "^(.*\.)?trello\.com(/.*)?$";
      icon := "trello";
      docsUrl := "https://developer.atlassian.com/cloud/trello/rest";
      openApiUrl := (Some "https://developer.atlassian.com/cloud/trello/swagger.v3.json");
      preferredAuthType := (Some apikey_auth);
      oauth := None |});
  ("notion",
   {| apiUrl := "https://api.notion.com";
      regex := "^(.*\.)?notion\.so(/.*)?$";
      icon := "notion";
      docsUrl := "https://developers.notion.com";
      openApiUrl := (Some "https://raw.githubusercontent.com/cameronking4/notion-openapi-chatgpt-action/refs/heads/main/public/notion-openapi.json");
      preferredAuthType := (Some apikey_auth);
      oauth := (Some {| authUrl := "https://api.notion.com/v1/oauth/authorize";
                       tokenUrl := "https://api.notion.com/v1/oauth/token";
                       scopes := (Some "read_content update_content insert_content read_comments update_comments insert_comments read_user update_user") |}) |});
  ("digitalocean",
   {| apiUrl := "https://api.digitalocean.com";
      regex := "^(.*\.)?digitalocean\.com(/.*)?$";
      icon := "digitalocean";
      docsUrl := "https://docs.digitalocean.com/reference/api";
      openApiUrl := (Some "https://raw.githubusercontent.com/digitalocean/openapi/refs/heads/main/specification/DigitalOcean-public.v2.yaml");
      preferredAuthType := (Some apikey_auth);
      oauth := (Some {| authUrl := "https://cloud.digitalocean.com/v1/oauth/authorize";
                       tokenUrl := "https://cloud.digitalocean.com/v1/oauth/token";
                       scopes := (Some "read write admin") |}) |});
  ("heroku",
   {| apiUrl := "https://api.heroku.com";
      regex := "^(.*\.)?heroku\.com(/.*)?$";
      icon := "heroku";
      docsUrl := "https://devcenter.heroku.com/categories/platform-api";
      openApiUrl := None;
      preferredAuthType := (Some apikey_auth);
      oauth := (Some {| authUrl := "https://id.heroku.com/oauth/authorize";
                       tokenUrl := "https://id.heroku.com/oauth/token";
                       scopes := (Some "global read write read-protected write-protected") |}) |});
  ("circleci",
   {| apiUrl := "https://circleci.com/api";
      regex := "^(.*\.)?circleci\.com(/.*)?$";
      icon := "circleci";
      docsUrl := "https://circleci.com/docs/api";
      openApiUrl := (Some "https://circleci.com/api/v2/openapi.json");
      preferredAuthType := (Some apikey_auth);
      oauth := None |});
  ("travisci",
   {| apiUrl := "https://api.travis-ci.com";
      regex := "^(.*\.)?travis-ci\.com(/.*)?$";
      icon := "travisCI";
      docsUrl := "https://docs.travis-ci.com/api";
      openApiUrl := None;
      preferredAuthType := (Some apikey_auth);
      oauth := None |});
  ("wordpress",
   {| apiUrl := "https://{your-site.com}/wp-json/wp/v2";
      regex := "^(.*\.)?(wordpress\.com|wordpress\.org)(/.*)?$";
      icon := "wordpress";
      docsUrl := "https://developer.wordpress.org/rest-api";
      openApiUrl := (Some "https://developer.wordpress.com/docs/api/");
      preferredAuthType := (Some apikey_auth);
      oauth := None |});
  ("cloudflare",
   {| apiUrl := "https://api.cloudflare.com";
      regex := "^(.*\.)?cloudflare\.com(/.*)?$";
      icon := "cloudflare";
      docsUrl := "https://developers.cloudflare.com/api";
      openApiUrl := (Some "https://raw.githubusercontent.com/cloudflare/api-schemas/refs/heads/main/openapi.json");
      preferredAuthType := (Some apikey_auth);
      oauth := None |});
  ("bigcommerce",
   {| apiUrl := "https://api.bigcommerce.com";
      regex := "^(.*\.)?bigcommerce\.com(/.*)?$";
      icon := "bigcommerce";
      docsUrl := "https://developer.bigcommerce.com/docs/rest-management";
      openApiUrl := None;
      preferredAuthType := (Some apikey_auth);
      oauth := None |});
  ("woocommerce",
   {| apiUrl := "https://{yourstore.com}/wp-json/wc/v3";
      regex := "^(.*\.)?woocommerce\.com(/.*)?$";
      icon := "woocommerce";
      docsUrl := "https://woocommerce.github.io/woocommerce-rest-api-docs";
      openApiUrl := None;
      preferredAuthType := (Some apikey_auth);
      oauth := None |});
  ("prestashop",
   {| apiUrl := "https://{yourstore.com}/api";
      regex := "^(.*\.)?prestashop\.com(/.*)?$";
      icon := "prestashop";
      docsUrl := "https://devdocs.prestashop-project.org/8/webservice";
      openApiUrl := None;
      preferredAuthType := (Some apikey_auth);
      oauth := None |});
  ("squarespace",
   {| apiUrl := "https://api.squarespace.com";
      regex := "^(.*\.)?squarespace\.com(/.*)?$";
      icon := "squarespace";
      docsUrl := "https://developers.squarespace.com/commerce-apis";
      openApiUrl := None;
      preferredAuthType := (Some oauth_auth);
      oauth := (Some {| authUrl := "https://login.squarespace.com/api/1/login/oauth/provider/authorize";
                       tokenUrl := "https://login.squarespace.com/api/1/login/oauth/provider/tokens";
                       scopes := (Some "website.products.read website.products.write website.orders.read website.orders.write website.inventory.read website.transactions.read website.store_settings.read email.campaigns.read email.campaigns.send") |}) |});
  ("monday",
   {| apiUrl := "https://api.monday.com/v2";
      regex := "^(.*\.)?monday\.com(/.*)?$";
      icon := "monday";
      docsUrl := "https://developer.monday.com/api-reference/docs";
      openApiUrl := None;
      preferredAuthType := (Some apikey_auth);
      oauth := (Some {| authUrl := "https://auth.monday.com/oauth2/authorize";
                       tokenUrl := "https://auth.monday.com/oauth2/token";
                       scopes := (Some "me:read users:read boards:read boards:write workspaces:read workspaces:write webhooks:write updates:read updates:write assets:read assets:write tags:read teams:read") |}) |});
  ("clickup",
   {| apiUrl := "https://api.clickup.com/api/v2";
      regex := "^(.*\.)?clickup\.com(/.*)?$";
      icon := "clickup";
      docsUrl := "https://clickup.com/api";
      openApiUrl := (Some "https://developer.clickup.com/openapi/673cf4cfdca96a0019533cad");
      preferredAuthType := (Some apikey_auth);
      oauth := (Some {| authUrl := "https://app.clickup.com/api";
                       tokenUrl := "https://app.clickup.com/api/v2/oauth/token";
                       scopes := (Some "user:read user:write task:read task:write list:read list:write folder:read folder:write space:read space:write team:read team:write webhook:read webhook:write goal:read goal:write") |}) |});
  ("typeform",
   {| apiUrl := "https://api.typeform.com";
      regex := "^(.*\.)?typeform\.com(/.*)?$";
      icon := "typeform";
      docsUrl := "https://developer.typeform.com";
      openApiUrl := None;
      preferredAuthType := (Some oauth_auth);
      oauth := (Some {| authUrl := "https://api.typeform.com/oauth/authorize";
                       tokenUrl := "https://api.typeform.com/oauth/token";
                       scopes := (Some "forms:read forms:write responses:read responses:write themes:read themes:write images:read images:write workspaces:read workspaces:write webhooks:read webhooks:write accounts:read offline") |}) |});
  ("figma",
   {| apiUrl := "https://api.figma.com";
      regex := "^(.*\.)?figma\.com(/.*)?$";
      icon := "figma";
      docsUrl := "https://www.figma.com/developers/api";
      openApiUrl := (Some "https://raw.githubusercontent.com/figma/rest-api-spec/refs/heads/main/openapi/openapi.yaml");
      preferredAuthType := (Some oauth_auth);
      oauth := (Some {| authUrl := "https://www.figma.com/oauth";
                       tokenUrl := "https://www.figma.com/api/oauth/token";
                       scopes := (Some "file_read file_write file_dev_resources:read file_dev_resources:write webhooks:write") |}) |});
  ("contentful",
   {| apiUrl := "https://api.contentful.com";
      regex := "^(.*\.)?contentful\.com(/.*)?$";
      icon := "contentful";
      docsUrl := "https://www.contentful.com/developers/docs/references/content-management-api";
      openApiUrl := None;
      preferredAuthType := (Some apikey_auth);
      oauth := None |});
  ("sanity",
   {| apiUrl := "https://api.sanity.io";
      regex := "^(.*\.)?sanity\.io(/.*)?$";
      icon := "sanity";
      docsUrl := "https://www.sanity.io/docs/http-api";
      openApiUrl := None;
      preferredAuthType := (Some apikey_auth);
      oauth := None |});
  ("prismic",
   {| apiUrl := "https://api.prismic.io";
      regex := "^(.*\.)?prismic\.io(/.*)?$";
      icon := "prismic";
      docsUrl := "https://prismic.io/docs/rest-api";
      openApiUrl := None;
      preferredAuthType := (Some apikey_auth);
      oauth := None |});
  ("netlify",
   {| apiUrl := "https://api.netlify.com";
      regex := "^(.*\.)?netlify\.com(/.*)?$";
      icon := "netlify";
      docsUrl := "https://docs.netlify.com/api/get-started";
      openApiUrl := (Some "https://raw.githubusercontent.com/netlify/open-api/refs/heads/master/swagger.yml");
      preferredAuthType := (Some apikey_auth);
      oauth := (Some {| authUrl := "https://app.netlify.com/authorize";
                       tokenUrl := "https://api.netlify.com/oauth/token";
                       scopes := (Some "user sites deploys dns_zones forms submissions assets functions logs split_tests analytics billing members") |}) |});
  ("vercel",
   {| apiUrl := "https://api.vercel.com";
      regex := "^(.*\.)?vercel\.com(/.*)?$";
      icon := "vercel";
      docsUrl := "https://vercel.com/docs/rest-api";
      openApiUrl := (Some "https://openapi.vercel.sh/");
      preferredAuthType := (Some apikey_auth);
      oauth := None |});
  ("amplitude",
   {| apiUrl := "https://api.amplitude.com";
      regex := "^(.*\.)?amplitude\.com(/.*)?$";
      icon := "amplitude";
      docsUrl := "https://www.docs.developers.amplitude.com";
      openApiUrl := None;
      preferredAuthType := (Some apikey_auth);
      oauth := None |});
  ("segment",
   {| apiUrl := "https://api.segment.com";
      regex := "^(.*\.)?segment\.com(/.*)?$";
      icon := "segment";
      docsUrl := "https://segment.com/docs/api";
      openApiUrl := None;
      preferredAuthType := (Some apikey_auth);
      oauth := None |});
  ("mixpanel",
   {| apiUrl := "https://api.mixpanel.com";
      regex := "^(.*\.)?mixpanel\.com(/.*)?$";
      icon := "mixpanel";
      docsUrl := "https://developer.mixpanel.com/reference/overview";
      openApiUrl := (Some "https://developer.mixpanel.com/reference/overview");
      preferredAuthType := (Some apikey_auth);
      oauth := None |});
  ("algolia",
   {| apiUrl := "https://api.algolia.com";
      regex := "^(.*\.)?algolia\.com(/.*)?$";
      icon := "algolia";
      docsUrl := "https://www.algolia.com/doc/rest-api/search";
      openApiUrl := (Some "https://www.algolia.com/doc/rest-api/search/");
      preferredAuthType := (Some apikey_auth);
      oauth := None |});
  ("snowflake",
   {| apiUrl := "https://account.snowflakecomputing.com";
      regex := "^(.*\.)?(snowflake\.com|snowflakecomputing\.com)(/.*)?$";
      icon := "snowflake";
      docsUrl := "https://docs.snowflake.com/en/developer-guide/sql-api/index";
      openApiUrl := None;
      preferredAuthType := (Some apikey_auth);
      oauth := None |});
  ("databricks",
   {| apiUrl := "https://{your-workspace}.cloud.databricks.com/api";
      regex := "^(.*\.)?(databricks\.com|cloud\.databricks\.com)(/.*)?$";
      icon := "databricks";
      docsUrl := "https://docs.databricks.com/dev-tools/api/latest/index.html";
      openApiUrl := (Some "https://docs.databricks.com/dev-tools/api/latest/index.html");
      preferredAuthType := (Some apikey_auth);
      oauth := None |});
  ("looker",
   {| apiUrl := "https://{your-domain}.looker.com/api";
      regex := "^(.*\.)?looker\.com(/.*)?$";
      icon := "looker";
      docsUrl := "https://docs.looker.com/reference/api-and-integration/api-reference";
      openApiUrl := (Some "https://raw.githubusercontent.com/looker-open-source/sdk-codegen/refs/heads/main/spec/Looker.4.0.oas.json");
      preferredAuthType := (Some apikey_auth);
      oauth := None |});
  ("mongodb",
   {| apiUrl := "https://cloud.mongodb.com/api";
      regex := "^(.*\.)?mongodb\.com(/.*)?$";
      icon := "mongodb";
      docsUrl := "https://www.mongodb.com/docs/atlas/api";
      openApiUrl := None;
      preferredAuthType := (Some apikey_auth);
      oauth := None |});
  ("supabase",
   {| apiUrl := "https://api.supabase.co";
      regex := "^(.*\.)?(supabase\.co|supabase\.io)(/.*)?$";
      icon := "supabase";
      docsUrl := "https://supabase.com/docs/reference/api";
      openApiUrl := (Some "https://api.supabase.com/api/v1-json");
      preferredAuthType := (Some apikey_auth);
      oauth := None |});
  ("planetscale",
   {| apiUrl := "https://api.planetscale.com";
      regex := "^(.*\.)?planetscale\.com(/.*)?$";
      icon := "planetscale";
      docsUrl := "https://api-docs.planetscale.com";
      openApiUrl := (Some "https://api.planetscale.com/v1/openapi-spec");
      preferredAuthType := (Some apikey_auth);
      oauth := None |});
  ("openai",
   {| apiUrl := "https://api.openai.com";
      regex := "^(.*\.)?openai\.com(/.*)?$";
      icon := "openai";
      docsUrl := "https://platform.openai.com/docs/api-reference";
      openApiUrl := (Some "https://app.stainless.com/api/spec/documented/openai/openapi.documented.yml");
      preferredAuthType := (Some apikey_auth);
      oauth := None |});
  ("anthropic",
   {| apiUrl := "https://api.anthropic.com";
      regex := "^(.*\.)?anthropic\.com(/.*)?$";
      icon := "anthropic";
      docsUrl := "https://docs.anthropic.com/claude/reference";
      openApiUrl := None;
      preferredAuthType := (Some apikey_auth);
      oauth := None |});
  ("pinecone",
   {| apiUrl := "https://api.pinecone.io";
      regex := "^(.*\.)?pinecone\.io(/.*)?$";
      icon := "pinecone";
      docsUrl := "https://docs.pinecone.io/reference";
      openApiUrl := (Some "https://raw.githubusercontent.com/sigpwned/pinecone-openapi-spec/refs/heads/main/openapi.yml");
      preferredAuthType := (Some apikey_auth);
      oauth := None |});
  ("zoom",
   {| apiUrl := "https://api.zoom.us";
      regex := "^(.*\.)?zoom\.us(/.*)?$";
      icon := "zoom";
      docsUrl := "https://developers.zoom.us/docs/api";
      openApiUrl := None;
      preferredAuthType := (Some oauth_auth);
      oauth := (Some {| authUrl := "https://zoom.us/oauth/authorize";
                       tokenUrl := "https://zoom.us/oauth/token";
                       scopes := (Some "user:read user:write meeting:read meeting:write meeting:master recording:read recording:write webinar:read webinar:write chat_message:read chat_message:write chat_channel:read chat_channel:write contact:read report:read report:master dashboard:read") |}) |});
  ("microsoft",
   {| apiUrl := "https://graph.microsoft.com";
      regex := "^(.*\.)?microsoft\.com(/.*)?$";
      icon := "microsoft";
      docsUrl := "https://learn.microsoft.com/en-us/graph/api/overview";
      openApiUrl := None;
      preferredAuthType := (Some oauth_auth);
      oauth := (Some {| authUrl := "https://login.microsoftonline.com/common/oauth2/v2.0/authorize";
                       tokenUrl := "https://login.microsoftonline.com/common/oauth2/v2.0/token";
                       scopes := (Some "User.Read User.ReadWrite Mail.Read Mail.ReadWrite Mail.Send Calendars.Read Calendars.ReadWrite Files.Read Files.ReadWrite Sites.Read.All Sites.ReadWrite.All Teams.ReadBasic.All Chat.Read Chat.ReadWrite ChannelMessage.Read.All offline_access") |}) |});
  ("redis",
   {| apiUrl := "https://app.redislabs.com/api/v1";
      regex := "^(.*\.)?(redis\.com|redislabs\.com|redis\.io)(/.*)?$";
      icon := "redis";
      docsUrl := "https://docs.redis.com/latest/rc/api";
      openApiUrl := (Some "https://api.redislabs.com/v1/cloud-api-docs");
      preferredAuthType := (Some apikey_auth);
      oauth := None |});
  ("elasticsearch",
   {| apiUrl := "https://api.elastic.co";
      regex := "^(.*\.)?elastic\.co(/.*)?$";
      icon := "elasticsearch";
      docsUrl := "https://www.elastic.co/guide/en/elasticsearch/reference/current/rest-apis.html";
      openApiUrl := (Some "https://raw.githubusercontent.com/elastic/elasticsearch-specification/refs/heads/main/output/openapi/elasticsearch-openapi.json");
      preferredAuthType := (Some apikey_auth);
      oauth := None |});
  ("postmark",
   {| apiUrl := "https://api.postmarkapp.com";
      regex := "^(.*\.)?postmarkapp\.com(/.*)?$";
      icon := "postmark";
      docsUrl := "https://postmarkapp.com/developer";
      openApiUrl := None;
      preferredAuthType := (Some apikey_auth);
      oauth := None |});
  ("sentry",
   {| apiUrl := "https://sentry.io/api";
      regex := "^(.*\.)?sentry\.io(/.*)?$";
      icon := "sentry";
      docsUrl := "https://docs.sentry.io/api";
      openApiUrl := (Some "https://raw.githubusercontent.com/getsentry/sentry-api-schema/refs/heads/main/openapi-derefed.json");
      preferredAuthType := (Some apikey_auth);
      oauth := None |});
  ("pagerduty",
   {| apiUrl := "https://api.pagerduty.com";
      regex := "^(.*\.)?pagerduty\.com(/.*)?$";
      icon := "pagerduty";
      docsUrl := "https://developer.pagerduty.com/api-reference";
      openApiUrl := None;
      preferredAuthType := (Some apikey_auth);
      oauth := None |});
  ("datadog",
   {| apiUrl := "https://api.datadoghq.com";
      regex := "^(.*\.)?datadoghq\.com(/.*)?$";
      icon := "datadog";
      docsUrl := "https://docs.datadoghq.com/api/latest";
      openApiUrl := None;
      preferredAuthType := (Some apikey_auth);
      oauth := None |});
  ("newrelic",
   {| apiUrl := "https://api.newrelic.com";
      regex := "^(.*\.)?newrelic\.com(/.*)?$";
      icon := "newrelic";
      docsUrl := "https://docs.newrelic.com/docs/apis/rest-api-v2";
      openApiUrl := None;
      preferredAuthType := (Some apikey_auth);
      oauth := None |});
  ("auth0",
   {| apiUrl := "https://{your-domain}.auth0.com/api/v2";
      regex := "^(.*\.)?auth0\.com(/.*)?$";
      icon := "auth0";
      docsUrl := "https://auth0.com/docs/api/management/v2";
      openApiUrl := (Some "https://auth0.com/docs/api/management/openapi.json");
      preferredAuthType := (Some oauth_auth);
      oauth := (Some {| authUrl := "https://{your-domain}.auth0.com/authorize";
                       tokenUrl := "https://{your-domain}.auth0.com/oauth/token";
                       scopes := (Some "read:users update:users delete:users create:users read:users_app_metadata update:users_app_metadata delete:users_app_metadata create:users_app_metadata read:user_idp_tokens read:client_grants create:client_grants delete:client_grants update:client_grants read:connections update:connections delete:connections create:connections read:resource_servers") |}) |});
  ("okta",
   {| apiUrl := "https://{your-domain}.okta.com/api/v1";
      regex := "^(.*\.)?okta\.com(/.*)?$";
      icon := "okta";
      docsUrl := "https://developer.okta.com/docs/reference";
      openApiUrl := (Some "https://raw.githubusercontent.com/okta/okta-management-openapi-spec/refs/heads/master/dist/2025.01.1/management-minimal.yaml");
      preferredAuthType := (Some apikey_auth);
      oauth := None |});
  ("discord",
   {| apiUrl := "https://discord.com/api";
      regex := "^(.*\.)?discord\.com(/.*)?$";
      icon := "discord";
      docsUrl := "https://discord.com/developers/docs/intro";
      openApiUrl := (Some "https://raw.githubusercontent.com/discord/discord-api-spec/refs/heads/main/specs/openapi.json");
      preferredAuthType := (Some oauth_auth);
      oauth := (Some {| authUrl := "https://discord.com/api/oauth2/authorize";
                       tokenUrl := "https://discord.com/api/oauth2/token";
                       scopes := (Some "identify email guilds guilds.join connections bot applications.commands applications.commands.update guilds.members.read messages.read webhook.incoming role_connections.write dm_channels.read voice") |}) |});
  ("telegram",
   {| apiUrl := "https://api.telegram.org";
      regex := "^(.*\.)?telegram\.org(/.*)?$";
      icon := "telegram";
      docsUrl := "https://core.telegram.org/bots/api";
      openApiUrl := None;
      preferredAuthType := (Some apikey_auth);
      oauth := None |});
  ("whatsapp",
   {| apiUrl := "https://graph.facebook.com";
      regex := "^(.*\.)?whatsapp\.com(/.*)?$";
      icon := "whatsapp";
      docsUrl := "https://developers.facebook.com/docs/whatsapp/cloud-api";
      openApiUrl := None;
      preferredAuthType := (Some apikey_auth);
      oauth := None |});
  ("linear",
   {| apiUrl := "https://api.linear.app/graphql";
      regex := "^(.*\.)?linear\.app(/.*)?$";
      icon := "linear";
      docsUrl := "https://developers.linear.app/docs/graphql/working-with-the-graphql-api";
      openApiUrl := None;
      preferredAuthType := (Some apikey_auth);
      oauth := None |});
  ("resend",
   {| apiUrl := "https://api.resend.com";
      regex := "^(.*\.)?resend\.com(/.*)?$";
      icon := "resend";
      docsUrl := "https://resend.com/docs/api-reference";
      openApiUrl := (Some "https://raw.githubusercontent.com/resend/resend-openapi/main/resend.yaml");
      preferredAuthType := (Some apikey_auth);
      oauth := None |});
  ("googleAds",
   {| apiUrl := "https://googleads.googleapis.com/v20";
      regex := "^(.*\.)?googleapis\.com(/.*)?$";
      icon := "googleads";
      docsUrl := "https://developers.google.com/google-ads/api/docs/concepts/overview";
      openApiUrl := None;
      preferredAuthType := (Some oauth_auth);
      oauth := (Some {| authUrl := "https://accounts.google.com/o/oauth2/v2/auth";
                       tokenUrl := "https://oauth2.googleapis.com/token";
                       scopes := (Some "https://www.googleapis.com/auth/adwords https://www.googleapis.com/auth/userinfo.email https://www.googleapis.com/auth/userinfo.profile openid") |}) |});
  ("google",
   {| apiUrl := "https://googleapis.com";
      regex := "^(.*\.)?google\.com(/.*)?$";
      icon := "google";
      docsUrl := "https://developers.google.com/apis-explorer";
      openApiUrl := None;
      preferredAuthType := (Some oauth_auth);
      oauth := (Some {| authUrl := "https://accounts.google.com/o/oauth2/v2/auth";
                       tokenUrl := "https://oauth2.googleapis.com/token";
                       scopes := (Some "https://www.googleapis.com/auth/userinfo.email https://www.googleapis.com/auth/userinfo.profile openid") |}) |})
].

(** The argument of [getOAuthTokenUrl]; [credentials] is [undefined]
    when the integration carries none. *)
Record Integration : Type := {
  id : string;
  urlHost : string;
  credentials : value
}.

(** The predicate handed to [find]. *)
Definition isKnown (integration : Integration) (entry : string * IntegrationConfig) : bool :=
  (id integration =? fst entry) || includes (urlHost integration) (fst entry).

Definition fallbackTokenUrl (integration : Integration) : value :=
  VString (urlHost integration ++ "/oauth/token").

Definition getOAuthTokenUrl (integration : Integration) : value :=
  let token_url := get_opt (credentials integration) "token_url" in
  if truthy token_url then token_url
  else
    match find (isKnown integration) integrations with
    | Some (_, config) =>
        match oauth config with
        | Some o => if tokenUrl o =? EmptyString then fallbackTokenUrl integration
                    else VString (tokenUrl o)
        | None => fallbackTokenUrl integration
        end
    | None => fallbackTokenUrl integration
    end.

(** [entry] is the entry [find] stops at: the first one of the catalog
    whose key is the id of the integration or occurs in its host. *)
Definition firstKnown (integration : Integration)
    (entry : string * IntegrationConfig) : Prop :=
  exists l1 l2,
    integrations = (l1 ++ entry :: l2)%list /\
    isKnown integration entry = true /\
    Forall (fun e => isKnown integration e = false) l1.

End Integrations.

(* ================================================================== *)
(** * core/datastore/postgres.ts: the run log                         *)
(* ================================================================== *)

Module PostgresStore.
Import JS.

(** A [RunResult]. Dates are instants (milliseconds since the epoch);
    [JSON.stringify] writes them as ISO text and [new Date] reads that
    text back, a round trip the model leaves implicit. [rest] holds the
    fields the store does not look at. *)
Record RunResult : Type := {
  id : string;
  configId : option string;      (* run.config?.id *)
  startedAt : option Z;
  completedAt : option Z;
  rest : object
}.

(** A row of table [runs]; [data] is the JSONB column. *)
Record Row : Type := {
  row_id : string;
  config_id : option string;
  org_id : string;
  data : RunResult;
  started_at : option Z;
  completed_at : option Z
}.

Definition Table := list Row.

(** [orgId || '']. *)
Definition orgKey (orgId : option string) : string :=
  match orgId with
  | Some o => o
  | None => EmptyString
  end.

(** [INSERT ... ON CONFLICT (id, org_id) DO UPDATE SET data, started_at,
    completed_at]: a conflicting row keeps its place and its
    [config_id]. *)
Fixpoint upsert (r : Row) (t : Table) : Table :=
  match t with
  | [] => [r]
  | x :: t' =>
      if (row_id x =? row_id r) && (org_id x =? org_id r)
      then {| row_id := row_id x; config_id := config_id x; org_id := org_id x;
              data := data r; started_at := started_at r;
              completed_at := completed_at r |} :: t'
      else x :: upsert r t'
  end.

Definition createRun (run : RunResult) (orgId : option string) (t : Table) : Table :=
  upsert {| row_id := id run; config_id := configId run; org_id := orgKey orgId;
            data := run; started_at := startedAt run;
            completed_at := completedAt run |} t.

Definition deleteRun (i : string) (orgId : option string) (t : Table) : Table :=
  if i =? EmptyString then t
  else filter (fun x => negb ((row_id x =? i) && (org_id x =? orgKey orgId))) t.

Definition deleteAllRuns (orgId : option string) (t : Table) : Table :=
  filter (fun x => negb (org_id x =? orgKey orgId)) t.

(** [WHERE org_id = $1] and, when [configId] is truthy,
    [AND config_id = $2]; a NULL [config_id] equals nothing. *)
Definition selected (configId : option string) (orgId : option string) (x : Row) : bool :=
  (org_id x =? orgKey orgId) &&
  match configId with
  | Some c => if c =? EmptyString then true
              else match config_id x with
                   | Some c' => c' =? c
                   | None => false
                   end
  | None => true
  end.

(** [ORDER BY started_at DESC]: NULLs first, then later instants before
    earlier ones. [before a b] holds when [a] may precede [b]. *)
Definition before (a b : option Z) : bool :=
  match a, b with
  | None, _ => true
  | Some _, None => false
  | Some x, Some y => (y <=? x)%Z
  end.

Fixpoint insert_desc (x : Row) (l : list Row) : list Row :=
  match l with
  | [] => [x]
  | y :: l' =>
      if before (started_at y) (started_at x) then y :: insert_desc x l'
      else x :: y :: l'
  end.

(** Rows with equal keys keep the order the table lists them in. *)
Definition order_by_started_at_desc (l : list Row) : list Row :=
  fold_left (fun acc x => insert_desc x acc) l [].

(** [result.rows.map(row => ({ ...run, id: row.id, startedAt, completedAt }))]. *)
Definition toItem (x : Row) : RunResult :=
  {| id := row_id x;
     configId := configId (data x);
     startedAt := startedAt (data x);
     completedAt := completedAt (data x);
     rest := rest (data x) |}.

Record RunList : Type := {
  items : list RunResult;
  total : nat
}.

(** [listRuns(limit = 10, offset = 0, configId?, orgId?)]. The server
    rejects a negative LIMIT or OFFSET. *)
Definition orDefault (o : option Z) (d : Z) : Z :=
  match o with
  | Some z => z
  | None => d
  end.

Definition listRuns (limit offset : option Z) (configId orgId : option string)
    (t : Table) : Exc RunList :=
  let limit := orDefault limit 10 in
  let offset := orDefault offset 0 in
  let matching := filter (selected configId orgId) t in
  let total := List.length matching in
  if (limit <? 0)%Z then Throw (Error "LIMIT must not be negative")
  else if (offset <? 0)%Z then Throw (Error "OFFSET must not be negative")
  else
    let rows := firstn (Z.to_nat limit)
                  (skipn (Z.to_nat offset) (order_by_started_at_desc matching)) in
    Ok {| items := map toItem rows; total := total |}.

(** The order of the rows of a result, and of the items made of them. *)
Definition desc (a b : Row) : Prop := before (started_at a) (started_at b) = true.

Definition newestFirst (a b : RunResult) : Prop :=
  before (startedAt a) (startedAt b) = true.

(** The tables the store can hold: what [createRun], [deleteRun] and
    [deleteAllRuns] make of the empty table. *)
Inductive Reachable : Table -> Prop :=
| Reachable_empty : Reachable []
| Reachable_create (run : RunResult) (orgId : option string) (t : Table) :
    Reachable t -> Reachable (createRun run orgId t)
| Reachable_delete (i : string) (orgId : option string) (t : Table) :
    Reachable t -> Reachable (deleteRun i orgId t)
| Reachable_deleteAll (orgId : option string) (t : Table) :
    Reachable t -> Reachable (deleteAllRuns orgId t).

(** [WHERE id = $1 AND org_id = $2]. *)
Definition keyed (i : string) (orgId : option string) (x : Row) : bool :=
  (row_id x =? i) && (org_id x =? orgKey orgId).

(** [getRun(id, orgId)]: [null] for a falsy id or when no row matches,
    else [{ ...parseDates(rows[0].data), id }]. *)
Definition getRun (i : string) (orgId : option string) (t : Table) : option RunResult :=
  if i =? EmptyString then None
  else
    match find (keyed i orgId) t with
    | Some x => Some {| id := i;
                        configId := configId (data x);
                        startedAt := startedAt (data x);
                        completedAt := completedAt (data x);
                        rest := rest (data x) |}
    | None => None
    end.

(** What [deleteRun] returns: [result.rowCount > 0]. *)
Definition deleteRun_returns (i : string) (orgId : option string) (t : Table) : bool :=
  if i =? EmptyString then false
  else (0 <? List.length (filter (keyed i orgId) t))%nat.

(** The primary key of a row. *)
Definition key (x : Row) : string * string := (row_id x, org_id x).

(** ** Table [configurations], as the bulk reader sees it *)

Inductive ConfigType : Type :=
| api
| extract
| transform
| workflow.

Definition ConfigType_eqb (a b : ConfigType) : bool :=
  match a, b with
  | api, api | extract, extract | transform, transform | workflow, workflow => true
  | _, _ => false
  end.

Record ConfigRow : Type := {
  cfg_id : string;
  cfg_org_id : string;
  cfg_type : ConfigType;
  cfg_data : object
}.

(** [SELECT data FROM configurations WHERE id = ANY($1) AND type = $2
    AND org_id = $3]: the rows of the result carry the column [data]
    and no other. *)
Definition select_data (ids : list string) (type : ConfigType) (orgId : option string)
    (t : list ConfigRow) : list object :=
  map (fun r => [("data", VObject (cfg_data r))])
      (filter (fun r => existsb (String.eqb (cfg_id r)) ids &&
                        ConfigType_eqb (cfg_type r) type &&
                        (cfg_org_id r =? orgKey orgId)) t).

(** The properties a spread copies from the column [data], which holds
    the JSON text of an object. *)
Definition properties (v : value) : object :=
  match v with
  | VObject o => o
  | _ => []
  end.

(** [result.rows.map(row => ({ ...row.data, id: row.id }))]. *)
Definition getManyWorkflows (ids : list string) (orgId : option string)
    (t : list ConfigRow) : list value :=
  map (fun row =>
         VObject (spread (spread [] (properties (own_property (VObject row) "data")))
                         [("id", own_property (VObject row) "id")]))
      (select_data ids workflow orgId t).

(** ** Table [tenant_info] *)







End PostgresStore.

(* ================================================================== *)
(** * core/llm/anthropic-model.ts: the request of a conversation      *)
(* ================================================================== *)

Module AnthropicModel.
Import JS.

(** A message of the conversation; [content] is the text
    [String(message.content)] gives. *)
Definition Message := Api.Message.
Definition role := Api.role.
Definition content := Api.content.

Record Converted : Type := {
  system : string;
  anthropicMessages : list Message
}.

Definition blank : string := LF ++ LF.

(** The body of the loop of [convertToAnthropicFormat]. *)
Definition convertStep (acc : Converted) (message : Message) : Converted :=
  if role message =? "system" then
    {| system := system acc ++
                 (if system acc =? EmptyString then EmptyString else blank) ++
                 content message;
       anthropicMessages := anthropicMessages acc |}
  else if (role message =? "user") || (role message =? "assistant") then
    {| system := system acc;
       anthropicMessages :=
         (anthropicMessages acc ++
          [ {| Api.role := role message; Api.content := content message |} ])%list |}
  else acc.

Definition convertToAnthropicFormat (messages : list Message) : Converted :=
  fold_left convertStep messages {| system := EmptyString; anthropicMessages := [] |}.

(** [for (let i = n - 1; i >= 0; i--) if (l[i].role === 'user') { lastUserIdx = i; break; }];
    [None] stands for [-1]. *)
Fixpoint lastUserIdx (n : nat) (l : list Message) : option nat :=
  match n with
  | O => None
  | S i =>
      match nth_error l i with
      | Some m => if role m =? "user" then Some i else lastUserIdx i l
      | None => lastUserIdx i l
      end
  end.

(** [l[i].content += text]. *)
Fixpoint appendContent (i : nat) (text : string) (l : list Message) : list Message :=
  match l, i with
  | [], _ => []
  | m :: r, O => {| Api.role := role m; Api.content := content m ++ text |} :: r
  | m :: r, S i' => m :: appendContent i' text r
  end.

(** Lines 49-68 of [generateObject]: the messages of the request, with
    the schema instruction put where the loop finds a user message. *)
Definition withSchemaInstruction (schemaInstruction : string) (messages : list Message)
  : list Message :=
  let anthropicMessages := anthropicMessages (convertToAnthropicFormat messages) in
  match lastUserIdx (List.length anthropicMessages) anthropicMessages with
  | Some i => appendContent i schemaInstruction anthropicMessages
  | None => anthropicMessages
  end.

(** [system ? `${system}\n\n${dateMessage}` : dateMessage]. *)
Definition fullSystem (dateMessage : string) (messages : list Message) : string :=
  let system := system (convertToAnthropicFormat messages) in
  if system =? EmptyString then dateMessage else system ++ blank ++ dateMessage.

(** The contents that make up the system text: those of the system
    messages, without the empty ones at the front. *)
Fixpoint dropEmpty (l : list string) : list string :=
  match l with
  | EmptyString :: r => dropEmpty r
  | _ => l
  end.

Definition isSystem (m : Message) : bool := role m =? "system".

Definition isTurn (m : Message) : bool :=
  (role m =? "user") || (role m =? "assistant").

End AnthropicModel.

(* ================================================================== *)
(** * Test doubles                                                    *)
(* ================================================================== *)

(** Simple collaborators to run the definitions on concrete inputs. *)
Module Doubles.
Import JS Api.

(** Replaces every occurrence of [secret] in [s] by [mark]. *)
Fixpoint replaceAll (fuel : nat) (secret mark s : string) : string :=
  match fuel with
  | O => s
  | S fuel' =>
      match s with
      | EmptyString => EmptyString
      | String c s' =>
          if prefix secret s
          then mark ++ replaceAll fuel' secret mark (drop (String.length secret) s)
          else String c (replaceAll fuel' secret mark s')
      end
  end.

(** A masking function: every occurrence of a credential value is
    replaced by a placeholder that names its key. *)
Definition maskWith (message : string) (credentials : option object) : string :=
  match credentials with
  | None => message
  | Some o =>
      fold_left (fun m kv =>
                   match snd kv with
                   | VString v =>
                       if v =? EmptyString then m
                       else replaceAll (S (String.length m)) v
                              ("{masked_" ++ fst kv ++ "}") m
                   | _ => m
                   end) o message
  end.

(** Templates without placeholders, left as they are. *)
Definition plain : Externals := {|
  MAX_PAGINATION_REQUESTS := 1000;
  MAX_CALL_RETRIES := 8;
  replaceVariables := fun t _ => Ok (match t with Some s => s | None => EmptyString end);
  composeUrl := fun host path => host ++ path;
  maskCredentials := maskWith;
  parseFile := fun s => Ok (VString s);
  evaluateStopCondition := fun _ _ _ => Ok {| shouldStop := false; stop_error := None |}
|}.

(** A server that answers request [n] with status 200 and the [n]-th
    body of [bodies] ([null] once they are used up). *)
Definition serving (bodies : list value) : Remote := {|
  callPostgres := fun _ _ _ _ => Ok (VArray [VObject [("one", VNumber (Int 1))]]);
  callAxios := fun n _ _ =>
    Ok {| status := 200; data := nth n bodies VNull;
          resp_headers := []; statusText := "OK" |}
|}.

Definition item (n : Z) : value := VObject [("id", VNumber (Int n))].

Definition endpointOf (host : string) (hdrs : object) (p : option Pagination)
    (path : option string) : ApiConfig :=
  {| id := Some "items"; urlHost := Some host; urlPath := Some "/items";
     method := Some "GET"; headers := Some hdrs; queryParams := None;
     body := None; pagination := p; dataPath := path;
     instruction := Some "list the items"; responseSchema := VUndefined |}.

Definition paged (t : PaginationType) (size : string) (cursorAt stop : option string)
  : option Pagination :=
  Some {| type_ := Some t; pageSize := Some size; cursorPath := cursorAt;
          stopCondition := stop |}.

Definition noOptions : RequestOptions :=
  {| timeout := None; retries := None; selfHealing := None |}.

(** A language model that always submits the same repaired endpoint and
    approves nothing. *)
Definition stubborn (repaired : ApiConfig) : Assistant := {|
  isSelfHealingEnabled := fun _ => true;
  SELF_HEALING_API_AGENT_PROMPT := "You repair API configurations.";
  generationPrompt := fun _ _ _ => Ok "Generate API configuration";
  generateObject := fun _ msgs =>
    Ok ({| gen_error := None; gen_apiConfig := Some repaired |}, msgs);
  generateId := fun _ _ => "generated";
  evaluateResponse := fun _ _ _ =>
    Ok {| ev_success := false; refactorNeeded := false; shortReason := "not what was asked" |};
  errorJson := fun _ => "{}"
|}.

(** Scenarios. *)
Definition itemsEndpoint (t : PaginationType) (stop : option string) : ApiConfig :=
  endpointOf "https://api.example.com" [] (paged t "2" None stop) None.

(** A server that sends the same full page twice. *)
Definition repeating : Remote :=
  serving [VArray [item 1; item 2]; VArray [item 1; item 2]].

(** A server that answers with one object and no further cursor. *)
Definition single : value :=
  VObject [("id", VNumber (Int 1)); ("next_cursor", VNull)].

Definition databaseEndpoint : ApiConfig :=
  {| id := Some "orders"; urlHost := Some "postgres://db.example.com:5432";
     urlPath := Some "/shop"; method := None; headers := None;
     queryParams := None; body := Some "select 1 as one";
     pagination := None; dataPath := None;
     instruction := Some "count the orders"; responseSchema := VUndefined |}.

(** An endpoint whose server answers every request with an error page
    that echoes the token it was sent. *)
Definition secrets : object := [("token", VString "s3cr3t")].

Definition errorPage : value := VString "<html>invalid token s3cr3t</html>".

Definition echoing : nat -> Remote := fun _ => serving [errorPage; errorPage].

Definition tokenEndpoint : ApiConfig :=
  endpointOf "https://api.example.com" [("Authorization", VString "Bearer s3cr3t")]
             None None.

Definition withRetries (n : Z) : RequestOptions :=
  {| timeout := None; retries := Some n; selfHealing := None |}.

(** Two cursor-based pages. *)
Definition cursorEndpoint : ApiConfig :=
  endpointOf "https://api.example.com" []
             (paged CURSOR_BASED "2" (Some "meta.next_cursor") None) (Some "data").


(** The loop of [executeApiCall] at the head of its second pass. *)
Definition secondAttempt : ExecState :=
  {| ex_endpoint := tokenEndpoint; response := None; retryCount := 1;
     lastError := None; messages := []; success := false |}.

(** A run log: four runs of two configurations, one without a start. *)
Definition run (i c : string) (t : option Z) : PostgresStore.RunResult :=
  {| PostgresStore.id := i; PostgresStore.configId := Some c;
     PostgresStore.startedAt := t; PostgresStore.completedAt := None;
     PostgresStore.rest := [] |}.

Definition runs : PostgresStore.Table :=
  PostgresStore.createRun (run "d" "c2" (Some 5%Z)) None
    (PostgresStore.createRun (run "c" "c1" None) None
       (PostgresStore.createRun (run "b" "c1" (Some 30%Z)) None
          (PostgresStore.createRun (run "a" "c1" (Some 10%Z)) None []))).


(** A server that answers every request with the given status and the
    [n]-th body. *)
Definition answering (code : Z) (bodies : list value) : Remote := {|
  callPostgres := fun _ _ _ _ => Ok (VArray []);
  callAxios := fun n _ _ =>
    Ok {| status := code; data := nth n bodies VNull;
          resp_headers := []; statusText := "Not Found" |}
|}.

Definition notFound : Remote :=
  answering 404 [VObject [("message", VString "no such collection")]].

(** A stop condition that holds at once. *)
Definition stopping : Externals := {|
  MAX_PAGINATION_REQUESTS := 1000;
  MAX_CALL_RETRIES := 8;
  replaceVariables := fun t _ => Ok (match t with Some s => s | None => EmptyString end);
  composeUrl := fun host path => host ++ path;
  maskCredentials := maskWith;
  parseFile := fun s => Ok (VString s);
  evaluateStopCondition := fun _ _ _ => Ok {| shouldStop := true; stop_error := None |}
|}.

(** Servers for runs with a stop condition: one without data, one that
    repeats its second page. *)
Definition silent : Remote := serving [VArray []; VArray []].

Definition stuck : Remote :=
  serving [VArray [item 1]; VArray [item 2]; VArray [item 2]].

(** A language model that is never asked: self-healing is off. *)
Definition disabled : Assistant := {|
  isSelfHealingEnabled := fun _ => false;
  SELF_HEALING_API_AGENT_PROMPT := "You repair API configurations.";
  generationPrompt := fun _ _ _ => Ok "Generate API configuration";
  generateObject := fun _ msgs =>
    Ok ({| gen_error := None; gen_apiConfig := None |}, msgs);
  generateId := fun _ _ => "generated";
  evaluateResponse := fun _ _ _ =>
    Ok {| ev_success := false; refactorNeeded := false; shortReason := "not asked" |};
  errorJson := fun _ => "{}"
|}.

(** A language model that submits [repaired] and is content with what
    comes back. *)
Definition helpful (repaired : ApiConfig) : Assistant := {|
  isSelfHealingEnabled := fun _ => true;
  SELF_HEALING_API_AGENT_PROMPT := "You repair API configurations.";
  generationPrompt := fun _ _ _ => Ok "Generate API configuration";
  generateObject := fun _ msgs =>
    Ok ({| gen_error := None; gen_apiConfig := Some repaired |}, msgs);
  generateId := fun _ _ => "generated";
  evaluateResponse := fun _ _ _ =>
    Ok {| ev_success := true; refactorNeeded := false; shortReason := EmptyString |};
  errorJson := fun _ => "{}"
|}.

(** What the model submits: another path, no id, another instruction. *)
Definition repairedEndpoint : ApiConfig :=
  {| id := None; urlHost := Some "https://api.example.com"; urlPath := Some "/v2/items";
     method := Some "GET"; headers := None; queryParams := None;
     body := None; pagination := None; dataPath := None;
     instruction := Some "something else"; responseSchema := VNull |}.

(** A server that fails the first attempt and serves the second. *)
Definition recovering : nat -> Remote :=
  fun n => match n with
           | O => serving [errorPage]
           | S _ => serving [VArray [item 1; item 2]]
           end.

(** A server whose only item is the number 0. *)
Definition empty : nat -> Remote := fun _ => serving [VArray [VNumber (Int 0)]].

(** The row of run [a] in [runs]. *)
Definition rowA : PostgresStore.Row :=
  {| PostgresStore.row_id := "a"; PostgresStore.config_id := Some "c1";
     PostgresStore.org_id := EmptyString;
     PostgresStore.data := run "a" "c1" (Some 10%Z);
     PostgresStore.started_at := Some 10%Z;
     PostgresStore.completed_at := None |}.

(** Two workflows and an API configuration of one organisation. *)
Definition configs : list PostgresStore.ConfigRow :=
  [ {| PostgresStore.cfg_id := "w1"; PostgresStore.cfg_org_id := "acme";
       PostgresStore.cfg_type := PostgresStore.workflow;
       PostgresStore.cfg_data := [("id", VString "w1"); ("steps", VArray [])] |};
    {| PostgresStore.cfg_id := "w2"; PostgresStore.cfg_org_id := "acme";
       PostgresStore.cfg_type := PostgresStore.workflow;
       PostgresStore.cfg_data := [("id", VString "w2"); ("steps", VArray [])] |};
    {| PostgresStore.cfg_id := "w1"; PostgresStore.cfg_org_id := "acme";
       PostgresStore.cfg_type := PostgresStore.api;
       PostgresStore.cfg_data := [("id", VString "w1")] |} ].


(** A conversation of five messages. *)
Definition says (r c : string) : Message := {| role := r; content := c |}.

Definition conversation : list Message :=
  [says "system" "You repair API configurations."; says "user" "first";
   says "assistant" "one"; says "tool" "lookup"; says "user" "second";
   says "assistant" "two"].

End Doubles.

(* ================================================================== *)
(** * Properties of [callEndpoint]                                    *)
(* ================================================================== *)

Import JS Api.
Local Open Scope exc_scope.

(** Case analysis on the scrutinee of the first [match] or [if] of a
    hypothesis or of the goal. *)
Ltac split_match :=
  match goal with
  | H : context [match ?x with _ => _ end] |- _ =>
      lazymatch x with
      | context [match _ with _ => _ end] => fail
      | _ => destruct x eqn:?
      end
  | |- context [match ?x with _ => _ end] =>
      lazymatch x with
      | context [match _ with _ => _ end] => fail
      | _ => destruct x eqn:?
      end
  end.

Ltac inv H := inversion H; subst; clear H.

Lemma bind_Ok {A B : Type} (c : Exc A) (k : A -> Exc B) (b : B) :
  bind c k = Ok b -> exists a, c = Ok a /\ k a = Ok b.
Proof.
  destruct c as [a|e]; simpl; intros E; [eauto | discriminate].
Qed.

Section CallEndpointFacts.

Context {ext : Externals} {remote : Remote}.
Variables (endpoint : ApiConfig) (payload credentials : object)
          (options : RequestOptions).

Local Abbreviation maxRequests := (maxRequests endpoint).
Local Abbreviation hasStopCondition := (hasStopCondition endpoint).
Local Abbreviation prepare := (prepare endpoint payload credentials options).
Local Abbreviation receive := (receive endpoint payload credentials).
Local Abbreviation handleResponse := (handleResponse endpoint payload credentials).
Local Abbreviation runLoop := (runLoop endpoint payload credentials options).
Local Abbreviation Reaches := (Reaches endpoint payload credentials options).
Local Abbreviation running := (running endpoint).

Lemma advance_counter st r :
  loopCounter (advance endpoint st r) = S (loopCounter st).
Proof. reflexivity. Qed.

Lemma paginateWithoutStop_counter st d :
  loopCounter (paginateWithoutStop endpoint st d) = loopCounter st.
Proof. destruct d; reflexivity. Qed.

Lemma paginateWithStop_counter st req r d st' :
  paginateWithStop endpoint payload credentials st req r d = Ok st' ->
  loopCounter st' = loopCounter st.
Proof.
  unfold paginateWithStop. intros E.
  repeat split_match; try discriminate;
    apply bind_Ok in E; destruct E as (m & _ & E); inv E; reflexivity.
Qed.

Lemma handleResponse_counter st req r st' :
  handleResponse st req r = Ok st' -> loopCounter st' = S (loopCounter st).
Proof.
  unfold Api.handleResponse. intros E.
  apply bind_Ok in E. destruct E as (d & _ & E).
  apply bind_Ok in E. destruct E as (st1 & E1 & E).
  inv E. rewrite advance_counter. f_equal.
  destruct (Api.hasStopCondition endpoint).
  - eapply paginateWithStop_counter; eassumption.
  - inv E1. apply paginateWithoutStop_counter.
Qed.

Lemma running_lt st : running st = true -> (loopCounter st < maxRequests)%nat.
Proof.
  unfold Api.running. intros E. apply andb_true_iff in E.
  destruct E as [_ E]. apply Nat.ltb_lt in E. exact E.
Qed.

Lemma running_hasMore st : running st = true -> hasMore st = true.
Proof.
  unfold Api.running. intros E. apply andb_true_iff in E. tauto.
Qed.

(** One unfolding of the loop. *)
Lemma runLoop_step fuel st trace :
  runLoop (S fuel) st trace =
  if running st then
    match prepare st with
    | Throw e => (LoopThrew e, trace)
    | Ok (ToPostgres postgresEndpoint) =>
        (match callPostgres postgresEndpoint payload credentials options with
         | Ok d => LoopReturned {| res_data := d; res_statusCode := 200; res_headers := [] |}
         | Throw e => LoopThrew e
         end, trace)
    | Ok (ToHttp req) =>
        match callAxios (List.length trace) (axiosConfig req) options with
        | Throw e => (LoopThrew e, (trace ++ [axiosConfig req])%list)
        | Ok response =>
            match handleResponse st req response with
            | Throw e => (LoopThrew e, (trace ++ [axiosConfig req])%list)
            | Ok st' => runLoop fuel st' (trace ++ [axiosConfig req])%list
            end
        end
    end
  else (LoopDone st, trace).
Proof. reflexivity. Qed.

Lemma runLoop_stopped fuel st trace :
  running st = false -> runLoop fuel st trace = (LoopDone st, trace).
Proof.
  intros E. destruct fuel; simpl; fold (running st); rewrite E; reflexivity.
Qed.

(** Every request is paid for by one unit of the counter. *)
Lemma runLoop_trace_bound fuel :
  forall st trace,
    (List.length trace <= loopCounter st)%nat ->
    (List.length (snd (runLoop fuel st trace)) <= Nat.max (List.length trace) maxRequests)%nat.
Proof.
  induction fuel as [|fuel IH]; intros st trace Hle.
  - simpl. destruct (hasMore st && (loopCounter st <? maxRequests)%nat); simpl; lia.
  - rewrite runLoop_step. destruct (running st) eqn:R; [|simpl; lia].
    apply running_lt in R.
    destruct (prepare st) as [[pe|req]|e]; simpl; try lia.
    + destruct (callAxios _ _ _) as [response|e]; simpl.
      * destruct (handleResponse st req response) as [st'|e] eqn:E; simpl.
        -- apply handleResponse_counter in E.
           specialize (IH st' (trace ++ [axiosConfig req])%list).
           rewrite length_app in IH. simpl in IH. lia.
        -- rewrite length_app. simpl. lia.
      * rewrite length_app. simpl. lia.
Qed.

(** The loop ends before the fuel does. *)
Lemma runLoop_fuel fuel :
  forall st trace,
    (maxRequests - loopCounter st < fuel)%nat ->
    fst (runLoop fuel st trace) <> LoopOutOfFuel.
Proof.
  induction fuel as [|fuel IH]; intros st trace Hlt; [lia|].
  rewrite runLoop_step. destruct (running st) eqn:R; [|simpl; discriminate].
  apply running_lt in R.
  destruct (prepare st) as [[pe|req]|e]; simpl; try discriminate.
  - destruct (callPostgres _ _ _ _); discriminate.
  - destruct (callAxios _ _ _) as [response|e]; simpl; [|discriminate].
    destruct (handleResponse st req response) as [st'|e] eqn:E; simpl; [|discriminate].
    apply handleResponse_counter in E. apply IH. lia.
Qed.

(** [callEndpoint] never runs out of the fuel it is given. *)
Lemma callEndpoint_ends :
  fst (callEndpointTraced endpoint payload credentials options) <> OutOfFuel.
Proof.
  unfold callEndpointTraced, callEndpointWith. cbn [fst snd].
  pose proof (runLoop_fuel (S maxRequests) initialState []) as F.
  destruct (fst (runLoop (S maxRequests) initialState [])) eqn:E;
    unfold conclude; try discriminate.
  - destruct (finish endpoint st); discriminate.
  - exfalso. apply F; [simpl; lia | reflexivity].
Qed.

Lemma callEndpoint_trace_bound fuel :
  (List.length (snd (callEndpointWith endpoint payload credentials options fuel)) <=
   maxRequests)%nat.
Proof.
  unfold callEndpointWith. cbn [snd].
  pose proof (runLoop_trace_bound fuel initialState []) as B.
  simpl List.length in B. specialize (B (Nat.le_refl _)).
  rewrite Nat.max_0_l in B. exact B.
Qed.

(** C1. Every run of [callEndpoint] comes to an end, and the number of
    requests it hands to [callAxios] is at most 500 when the endpoint
    has no stop condition and at most [MAX_PAGINATION_REQUESTS] when it
    has one. *)
Theorem callEndpoint_request_bound :
  fst (callEndpointTraced endpoint payload credentials options) <> OutOfFuel /\
  (List.length (snd (callEndpointTraced endpoint payload credentials options)) <=
   if hasStopCondition then MAX_PAGINATION_REQUESTS else 500)%nat.
Proof.
  split; [apply callEndpoint_ends|].
  apply (callEndpoint_trace_bound (S maxRequests)).
Qed.

(** ** Reachable loop heads *)

Lemma Reaches_counter st exs : Reaches st exs -> loopCounter st = List.length exs.
Proof.
  induction 1 as [|st exs req response page st' _ IH _ _ _ _ E]; [reflexivity|].
  apply handleResponse_counter in E. rewrite length_app. simpl. lia.
Qed.

Lemma Reaches_le st exs : Reaches st exs -> (List.length exs <= maxRequests)%nat.
Proof.
  destruct 1 as [|st exs req response page st' R Hrun _ _ _ _]; [simpl; lia|].
  apply running_lt in Hrun. apply Reaches_counter in R.
  rewrite length_app. simpl. lia.
Qed.

Lemma traceOf_app exs e :
  traceOf (exs ++ [e]) = (traceOf exs ++ [axiosConfig (ex_req e)])%list.
Proof. unfold traceOf. rewrite map_app. reflexivity. Qed.

Lemma traceOf_length exs : List.length (traceOf exs) = List.length exs.
Proof. unfold traceOf. apply length_map. Qed.

(** The loop started by [callEndpoint] does arrive at a reachable head. *)
Lemma Reaches_run st exs :
  Reaches st exs ->
  forall fuel,
    runLoop (fuel + List.length exs) initialState [] = runLoop fuel st (traceOf exs).
Proof.
  induction 1 as [|st exs req response page st' _ IH Hrun Hp Hc _ Hh]; intros fuel.
  - simpl. rewrite Nat.add_0_r. reflexivity.
  - rewrite length_app. simpl List.length.
    replace (fuel + (List.length exs + 1))%nat with (S fuel + List.length exs)%nat by lia.
    rewrite IH, runLoop_step, Hrun, Hp, traceOf_length, Hc, Hh, traceOf_app.
    reflexivity.
Qed.

Lemma callEndpointTraced_from st exs :
  Reaches st exs ->
  callEndpointTraced endpoint payload credentials options =
  (conclude endpoint (fst (runLoop (S maxRequests - List.length exs) st (traceOf exs))),
   snd (runLoop (S maxRequests - List.length exs) st (traceOf exs))).
Proof.
  intros R. unfold callEndpointTraced, callEndpointWith.
  pose proof (Reaches_le _ _ R) as L.
  replace (S maxRequests) with ((S maxRequests - List.length exs) + List.length exs)%nat
    at 1 2 by lia.
  rewrite (Reaches_run _ _ R). reflexivity.
Qed.

(** A run that stops at a reachable head returns from there. *)
Lemma callEndpointTraced_stopped st exs :
  Reaches st exs -> running st = false ->
  callEndpointTraced endpoint payload credentials options =
  (conclude endpoint (LoopDone st), traceOf exs).
Proof.
  intros R S. rewrite (callEndpointTraced_from _ _ R), runLoop_stopped by exact S.
  reflexivity.
Qed.

(** What one more exchange does to a run that is still going. *)
Lemma callEndpointTraced_next st exs req response :
  Reaches st exs -> running st = true ->
  prepare st = Ok (ToHttp req) ->
  callAxios (List.length exs) (axiosConfig req) options = Ok response ->
  callEndpointTraced endpoint payload credentials options =
  match handleResponse st req response with
  | Throw e => (Throws e, (traceOf exs ++ [axiosConfig req])%list)
  | Ok st' =>
      (conclude endpoint
         (fst (runLoop (maxRequests - List.length exs) st'
                 (traceOf exs ++ [axiosConfig req])%list)),
       snd (runLoop (maxRequests - List.length exs) st'
              (traceOf exs ++ [axiosConfig req])%list))
  end.
Proof.
  intros R Hrun Hp Hc. rewrite (callEndpointTraced_from _ _ R).
  pose proof (running_lt _ Hrun) as L. rewrite (Reaches_counter _ _ R) in L.
  replace (S maxRequests - List.length exs)%nat
    with (S (maxRequests - List.length exs)) by lia.
  rewrite runLoop_step, Hrun, Hp, traceOf_length, Hc.
  destruct (handleResponse st req response); reflexivity.
Qed.

(** ** Pagination without a stop condition *)

Lemma handleResponse_nostop st req response page :
  hasStopCondition = false ->
  receive req response = Ok page ->
  handleResponse st req response =
  Ok (advance endpoint (paginateWithoutStop endpoint st page) response).
Proof.
  intros N E. unfold Api.handleResponse. rewrite E, N. reflexivity.
Qed.

Lemma handleResponse_stop st req response page :
  hasStopCondition = true ->
  receive req response = Ok page ->
  handleResponse st req response =
  bind (paginateWithStop endpoint payload credentials st req response page)
       (fun st' => Ok (advance endpoint st' response)).
Proof.
  intros N E. unfold Api.handleResponse. rewrite E, N. reflexivity.
Qed.

Lemma advance_hasMore st r :
  hasMore (advance endpoint st r) = true -> hasMore st = true.
Proof.
  unfold advance; simpl. repeat split_match; congruence.
Qed.








(** ** Pagination with a stop condition *)

Lemma Reaches_nil st : Reaches st [] -> st = initialState.
Proof.
  intros R. inversion R as [|st0 exs req response page st' _ _ _ _ _ _ Est Eexs].
  - reflexivity.
  - destruct exs; discriminate.
Qed.

Lemma Reaches_single st e0 :
  Reaches st [e0] ->
  handleResponse initialState (ex_req e0) (ex_response e0) = Ok st /\
  receive (ex_req e0) (ex_response e0) = Ok (ex_page e0).
Proof.
  intros R. inversion R as [|st0 exs req response page st' R0 _ _ _ Hr Hh Est Eexs].
  destruct exs as [|x exs]; [|destruct exs; discriminate].
  simpl in Eexs. inv Eexs. apply Reaches_nil in R0. subst st0.
  simpl. split; assumption.
Qed.

Lemma hash_eqb_refl h : hash_eqb h h = true.
Proof. destruct h; simpl; try reflexivity. apply String.eqb_refl. Qed.

(** What the first pass records. *)
Lemma first_page_recorded st req response page :
  hasStopCondition = true ->
  receive req response = Ok page ->
  handleResponse initialState req response = Ok st ->
  loopCounter st = 1%nat /\
  firstResponseHash st = hash_of page /\
  hasValidData st = currentHasData page.
Proof.
  intros N Hr Hh. rewrite (handleResponse_stop _ _ _ _ N Hr) in Hh.
  apply bind_Ok in Hh. destruct Hh as (st1 & E & Hh). inv Hh.
  unfold paginateWithStop in E. simpl in E.
  apply bind_Ok in E. destruct E as (m & _ & E). inv E.
  repeat split; reflexivity.
Qed.






(** ** The value returned *)

Lemma handleResponse_advance st req r st' :
  handleResponse st req r = Ok st' -> exists st1, st' = advance endpoint st1 r.
Proof.
  unfold Api.handleResponse. intros E.
  apply bind_Ok in E. destruct E as (d & _ & E).
  apply bind_Ok in E. destruct E as (st1 & _ & E). inv E. eauto.
Qed.

Lemma Reaches_last st exs e :
  Reaches st (exs ++ [e]) -> exists st1, st = advance endpoint st1 (ex_response e).
Proof.
  intros R. inversion R as [Est Eexs|st0 exs0 req response page st' _ _ _ _ _ Hh Est Eexs].
  - destruct exs; discriminate.
  - apply app_inj_tail in Eexs. destruct Eexs as [_ <-]. simpl.
    eapply handleResponse_advance. eassumption.
Qed.


(** ** Postgres endpoints *)

(** C10. When the substituted host starts with [postgres://] or
    [postgresql://], [callEndpoint] hands the endpoint, with the
    substituted host, path and body, to [callPostgres] in the first pass:
    it issues no HTTP request and returns what [callPostgres] returns,
    untouched, with status 200 and no headers (or throws what
    [callPostgres] throws). *)
Theorem postgres_delegation hs qs b host path :
  (0 < MAX_PAGINATION_REQUESTS)%nat ->
  let vars := requestVars endpoint payload credentials initialState in
  substituteEntries (headers endpoint) vars = Ok hs ->
  substituteEntries (queryParams endpoint) vars = Ok qs ->
  (if truthy_str (body endpoint) then replaceVariables (body endpoint) vars
   else Ok EmptyString) = Ok b ->
  replaceVariables (urlHost endpoint) vars = Ok host ->
  replaceVariables (urlPath endpoint) vars = Ok path ->
  startsWith host "postgres://" || startsWith host "postgresql://" = true ->
  callEndpointTraced endpoint payload credentials options =
  (match callPostgres
           {| id := id endpoint; urlHost := Some host; urlPath := Some path;
              method := method endpoint; headers := headers endpoint;
              queryParams := queryParams endpoint; body := Some b;
              pagination := pagination endpoint; dataPath := dataPath endpoint;
              instruction := instruction endpoint;
              responseSchema := responseSchema endpoint |}
           payload credentials options with
   | Ok d => Returns {| res_data := d; res_statusCode := 200; res_headers := [] |}
   | Throw e => Throws e
   end, []).
Proof.
  intros M vars Hh Hq Hb Hhost Hpath Hpg.
  assert (Hrun : running initialState = true).
  { unfold Api.running, Api.maxRequests. simpl.
    destruct (Api.hasStopCondition endpoint); apply Nat.ltb_lt; lia. }
  unfold callEndpointTraced, callEndpointWith. rewrite runLoop_step, Hrun.
  unfold Api.prepare. fold vars. rewrite Hh. cbn [bind]. rewrite Hq. cbn [bind].
  rewrite Hb. cbn [bind]. rewrite Hhost. cbn [bind]. rewrite Hpath. cbn [bind].
  rewrite Hpg. cbn [fst snd].
  destruct (callPostgres _ _ _ _); reflexivity.
Qed.

End CallEndpointFacts.

(* ================================================================== *)
(** * Properties of [executeApiCall]                                  *)
(* ================================================================== *)

Lemma slice0_length n s : (String.length (slice0 n s) <= n)%nat.
Proof.
  unfold slice0. revert s. induction n as [|n IH]; intros [|c s]; simpl; try lia.
  specialize (IH s). lia.
Qed.

Lemma slice0_prefix n s : prefix (slice0 n s) s = true.
Proof.
  unfold slice0. revert s. induction n as [|n IH]; intros [|c s]; simpl;
    try reflexivity.
  destruct (ascii_dec c c); [apply IH | congruence].
Qed.

Section ExecuteApiCallFacts.

Context {ext : Externals} {llm : Assistant}.
Variable remote : nat -> Remote.
Variables (payload credentials : object) (options : RequestOptions).

Local Abbreviation tryBlock := (tryBlock remote payload credentials options).
Local Abbreviation catchBlock := (catchBlock credentials).
Local Abbreviation execLoop := (execLoop remote payload credentials options).
Local Abbreviation retryLimit := (retryLimit options).
Local Abbreviation allowance := (allowance options).
Local Abbreviation maskedError := (maskedError credentials).

(** [executeApiCall] sees what [callEndpoint] returns or throws. *)
Lemma awaitCallEndpoint_faithful n endpoint :
  (exists r,
     @callEndpoint ext (remote n) endpoint payload credentials options = Returns r /\
     awaitCallEndpoint remote payload credentials options n endpoint = Ok r) \/
  (exists e,
     @callEndpoint ext (remote n) endpoint payload credentials options = Throws e /\
     awaitCallEndpoint remote payload credentials options n endpoint = Throw e).
Proof.
  unfold awaitCallEndpoint.
  pose proof (@callEndpoint_ends ext (remote n) endpoint payload credentials options) as E.
  unfold callEndpoint.
  destruct (fst (callEndpointTraced endpoint payload credentials options));
    [left | right | congruence]; eauto.
Qed.

(** The [try] block leaves [retryCount] alone, ends normally only with
    [success] set, and never sets it when it throws. *)
Lemma tryBlock_spec st r st1 :
  tryBlock st = (r, st1) ->
  retryCount st1 = retryCount st /\
  match r with
  | Ok _ => success st1 = true
  | Throw _ => success st = false -> success st1 = false
  end.
Proof.
  unfold Api.tryBlock. intros E.
  repeat split_match; inv E; simpl; auto.
Qed.

Lemma retryCount_next st e :
  retryCount (bump (catchBlock st e)) = S (retryCount st).
Proof. reflexivity. Qed.

(** One unfolding of the loop. *)
Lemma execLoop_step fuel st log :
  execLoop (S fuel) st log =
  match tryBlock st with
  | (Ok _, st1) =>
      Some (st1, (log ++ [ {| at_retryCount := retryCount st; at_error := None |} ])%list)
  | (Throw error, st1) =>
      if isAbortError error
      then Some (catchBlock st1 error,
                 (log ++ [ {| at_retryCount := retryCount st; at_error := Some error |} ])%list)
      else if (Z.of_nat (retryCount (bump (catchBlock st1 error))) <? retryLimit)%Z
      then execLoop fuel (bump (catchBlock st1 error))
             (log ++ [ {| at_retryCount := retryCount st; at_error := Some error |} ])%list
      else Some (bump (catchBlock st1 error),
                 (log ++ [ {| at_retryCount := retryCount st; at_error := Some error |} ])%list)
  end.
Proof. reflexivity. Qed.

Lemma execLoop_total fuel :
  forall st log, (allowance st <= fuel)%nat -> execLoop fuel st log <> None.
Proof.
  unfold Api.allowance.
  induction fuel as [|fuel IH]; intros st log L; [lia|].
  rewrite execLoop_step. destruct (tryBlock st) as [[u|e] st1] eqn:T; [discriminate|].
  destruct (isAbortError e); [discriminate|].
  destruct (tryBlock_spec _ _ _ T) as [C _].
  destruct (Z.of_nat (retryCount (bump (catchBlock st1 e))) <? retryLimit)%Z eqn:Q;
    [|discriminate].
  apply Z.ltb_lt in Q. rewrite retryCount_next in Q.
  apply IH. rewrite retryCount_next. lia.
Qed.

Lemma catchBlock_outcome st e :
  success (catchBlock st e) = success st /\
  success (bump (catchBlock st e)) = success st /\
  lastError (catchBlock st e) = Some (maskedError e) /\
  lastError (bump (catchBlock st e)) = Some (maskedError e).
Proof. repeat split; reflexivity. Qed.

Lemma execLoop_post fuel :
  forall st log st_f log_f,
    success st = false ->
    execLoop fuel st log = Some (st_f, log_f) ->
    exists more a,
      log_f = (log ++ more ++ [a])%list /\
      (List.length (more ++ [a]) <= allowance st)%nat /\
      match at_error a with
      | None => success st_f = true
      | Some e => success st_f = false /\ lastError st_f = Some (maskedError e)
      end.
Proof.
  unfold Api.allowance.
  induction fuel as [|fuel IH]; intros st log st_f log_f S0 E; [discriminate|].
  rewrite execLoop_step in E. destruct (tryBlock st) as [[u|e] st1] eqn:T.
  - inv E. destruct (tryBlock_spec _ _ _ T) as [_ S1].
    exists [], {| at_retryCount := retryCount st; at_error := None |}.
    cbn [app List.length at_error]. split; [reflexivity|]. split; [lia | exact S1].
  - destruct (tryBlock_spec _ _ _ T) as [C S1]. specialize (S1 S0).
    destruct (catchBlock_outcome st1 e) as (S2 & S3 & L2 & L3).
    rewrite S1 in S2, S3.
    destruct (isAbortError e).
    + inv E. exists [], {| at_retryCount := retryCount st; at_error := Some e |}.
      cbn [app List.length at_error]. split; [reflexivity|]. split; [lia | tauto].
    + destruct (Z.of_nat (retryCount (bump (catchBlock st1 e))) <? retryLimit)%Z eqn:Q.
      * apply Z.ltb_lt in Q. rewrite retryCount_next in Q.
        apply IH in E; [|exact S3]. destruct E as (more & a & -> & L & P).
        exists ({| at_retryCount := retryCount st; at_error := Some e |} :: more), a.
        split; [rewrite <- app_assoc; reflexivity|]. split; [|exact P].
        rewrite retryCount_next in L. cbn [List.length app]. lia.
      * inv E. exists [], {| at_retryCount := retryCount st; at_error := Some e |}.
        cbn [app List.length at_error]. split; [reflexivity|]. split; [lia | tauto].
Qed.

(** C4, as the code has it. [executeApiCall] always comes to an end,
    after at least one pass through the loop body and at most
    [max(1, limit)] passes, where [limit] is [options.retries] or, when
    that is undefined, [MAX_CALL_RETRIES]. When the last pass failed with
    error [e], it throws an [ApiCallError] whose message ends in the
    first 1000 characters of the masked text of [e]. *)
Theorem executeApiCall_attempts endpoint :
  exists r st more a,
    executeApiCallTraced remote payload credentials options endpoint =
      Some (r, st, (more ++ [a])%list) /\
    (Z.of_nat (List.length (more ++ [a])) <= Z.max 1 retryLimit)%Z /\
    match at_error a with
    | None => exists result, r = Ok result
    | Some e =>
        r = Throw (ApiCallError
                     ("API call failed after " ++
                      Z_to_string (Z.of_nat (retryCount st)) ++
                      " retries. Last error: " ++
                      slice0 1000 (maskCredentials (rawErrorString e) (Some credentials)))
                     (match response st with
                      | Some b => box_statusCode b
                      | None => None
                      end))
    end.
Proof.
  unfold executeApiCallTraced.
  destruct (execLoop (execFuel options) (initialExec endpoint) [])
    as [[st log]|] eqn:E.
  - apply execLoop_post in E; [|reflexivity].
    destruct E as (more & a & -> & L & P).
    exists (finishExec st), st, more, a. split; [reflexivity|]. split.
    + unfold Api.allowance in L. cbn [initialExec Api.retryCount] in L. lia.
    + unfold finishExec, failureText. destruct (at_error a) as [e|].
      * destruct P as [-> ->]. reflexivity.
      * rewrite P. simpl. eauto.
  - exfalso. revert E. apply execLoop_total.
    unfold Api.allowance, execFuel. cbn [initialExec Api.retryCount]. lia.
Qed.

(** What the catch block leaves in the conversation. When a pass through
    the loop body fails, it appends one user-role message if
    [retryCount > 0], and nothing on the first pass; the content is the
    fixed request to fix the configuration followed by the first 2000
    characters of [rawErrorString], the text line 542 masks for
    [lastError] and line 544 uses as it is. *)
Lemma failed_attempt_message st e st1 :
  tryBlock st = (Throw e, st1) ->
  messages (catchBlock st1 e) =
    (messages st1 ++
     if (0 <? retryCount st)%nat
     then [ {| role := "user";
               content := fixPrompt ++ slice0 2000 (rawErrorString e) |} ]
     else [])%list /\
  (String.length (slice0 2000 (rawErrorString e)) <= 2000)%nat /\
  prefix (slice0 2000 (rawErrorString e)) (rawErrorString e) = true.
Proof.
  intros T. destruct (tryBlock_spec _ _ _ T) as [C _].
  split; [|split; [apply slice0_length | apply slice0_prefix]].
  unfold Api.catchBlock. cbn [messages]. rewrite C.
  destruct (0 <? retryCount st)%nat; [reflexivity|].
  rewrite app_nil_r. reflexivity.
Qed.

End ExecuteApiCallFacts.

(* ================================================================== *)
(** * The properties at work on concrete runs                         *)
(* ================================================================== *)

Section Runs.

Import Doubles.





Lemma postgres_delegation_witness :
  @callEndpointTraced plain (serving []) databaseEndpoint [] [] noOptions =
  (Returns {| res_data := VArray [VObject [("one", VNumber (Int 1))]];
              res_statusCode := 200;
              res_headers := [] |}, []).
Proof.
  etransitivity.
  - eapply (@postgres_delegation plain (serving []) databaseEndpoint [] [] noOptions).
    + vm_compute; lia.
    + vm_compute; reflexivity.
    + vm_compute; reflexivity.
    + vm_compute; reflexivity.
    + vm_compute; reflexivity.
    + vm_compute; reflexivity.
    + vm_compute; reflexivity.
  - vm_compute; reflexivity.
Defined.

(** C3 at work on the code. The server echoes the token in its error
    page, and both attempts fail. Line 542 masks the text of the error
    for [lastError]; line 544 pushes the same text, cut to 2000
    characters, into the conversation without masking it: the message
    the language model is sent holds the token, the error kept for the
    caller does not, and masking the message would have removed it. *)
Theorem fix_request_not_masked :
  exists r st a0 a1 e1 m1 m2 m3 shown,
    @executeApiCallTraced plain (stubborn tokenEndpoint) echoing [] secrets
      (withRetries 2) tokenEndpoint = Some (r, st, [a0; a1]) /\
    at_error a1 = Some e1 /\
    messages st = [m1; m2; m3] /\
    role m3 = "user" /\
    content m3 = fixPrompt ++
                 slice0 2000 (@rawErrorString (stubborn tokenEndpoint) e1) /\
    (String.length (slice0 2000 (@rawErrorString (stubborn tokenEndpoint) e1))
       <= 2000)%nat /\
    includes (content m3) "s3cr3t" = true /\
    lastError st = Some shown /\
    shown = slice0 1000 (@maskCredentials plain
                           (@rawErrorString (stubborn tokenEndpoint) e1)
                           (Some secrets)) /\
    includes shown "s3cr3t" = false /\
    includes (@maskCredentials plain (content m3) (Some secrets)) "s3cr3t" = false.
Proof.
  do 9 eexists. split; [vm_compute; reflexivity|].
  repeat split; try (vm_compute; reflexivity).
  apply slice0_length.
Qed.

(** C4 as stated fails: with [retries = 0] the loop body still runs
    once. *)
Lemma zero_retries_counterexample :
  exists r st a,
    @executeApiCallTraced plain (stubborn tokenEndpoint) echoing [] secrets
      (withRetries 0) tokenEndpoint = Some (r, st, [a]) /\
    @retryLimit plain (withRetries 0) = 0%Z /\
    ~ (Z.of_nat (List.length [a]) <= @retryLimit plain (withRetries 0))%Z.
Proof.
  do 3 eexists. split; [vm_compute; reflexivity|].
  split; [reflexivity|]. vm_compute. intros L. apply L. reflexivity.
Qed.

End Runs.

(* ================================================================== *)
(** * Header normalisation                                            *)
(* ================================================================== *)

(** What line 87 does to a doubled scheme word, whatever follows. *)
Lemma replaceSchemePrefix_doubled (rest : string) :
  replaceSchemePrefix ("Bearer Bearer " ++ rest) = "Bearer Bearer" ++ trimStart rest /\
  replaceSchemePrefix ("Basic Basic " ++ rest) = "Basic Basic" ++ trimStart rest.
Proof. split; reflexivity. Qed.

(** A [Basic] credential outside the Base64 alphabet is encoded. *)
Lemma convertBasicAuthToBase64_encodes (payload : string) :
  seemsEncoded (trim payload) = false ->
  convertBasicAuthToBase64 ("Basic " ++ payload) =
  "Basic " ++ Base64.encode (trim payload).
Proof.
  intros E. unfold convertBasicAuthToBase64. simpl. rewrite E. reflexivity.
Qed.

(** C7 at work on the code. The replacement text of line 87 writes both
    scheme words back and swallows the white space after the second, so
    a doubled scheme word is kept and runs into the credential; the
    same values reach the request. A plain [Basic] credential outside
    the Base64 alphabet is encoded. *)
Theorem duplicate_scheme_kept :
  processHeader "Authorization" "Bearer Bearer abc123" = "Bearer Bearerabc123" /\
  processHeader "authorization" "Basic Basic dXNlcjpwYXNz" = "Basic BasicdXNlcjpwYXNz" /\
  match @prepare Doubles.plain
          (Doubles.endpointOf "https://api.example.com"
             [("Authorization", VString "Bearer Bearer abc123")] None None)
          [] [] Doubles.noOptions initialState with
  | Ok (ToHttp req) =>
      ax_headers (axiosConfig req) = [("Authorization", VString "Bearer Bearerabc123")]
  | _ => False
  end /\
  processHeader "Authorization" "Basic user:pass" = "Basic dXNlcjpwYXNz".
Proof. repeat split; vm_compute; reflexivity. Qed.

(* ================================================================== *)
(** * The token endpoint of an integration                            *)
(* ================================================================== *)

Lemma find_first {A : Type} (f : A -> bool) (l : list A) (x : A) :
  find f l = Some x ->
  exists l1 l2, l = (l1 ++ x :: l2)%list /\ f x = true /\
                Forall (fun e => f e = false) l1.
Proof.
  induction l as [|y l IH]; simpl; [discriminate|].
  destruct (f y) eqn:F; intros E.
  - inv E. exists [], l. repeat split; [exact F | constructor].
  - destruct (IH E) as (l1 & l2 & -> & Fx & N).
    exists (y :: l1), l2. repeat split; [exact Fx | constructor; assumption].
Qed.

Lemma find_none {A : Type} (f : A -> bool) (l : list A) :
  find f l = None -> Forall (fun e => f e = false) l.
Proof.
  induction l as [|y l IH]; simpl; [constructor|].
  destruct (f y) eqn:F; [discriminate|]. intros E. constructor; auto.
Qed.

Section TokenUrl.

Import Integrations.

(** The rule the code follows. [getOAuthTokenUrl] returns
    [credentials.token_url] when that is set; otherwise the
    [oauth.tokenUrl] of the entry [find] stops at (the first entry of
    the catalog, in the order it is declared, whose key is the id of the
    integration or occurs in its host) when that entry has one;
    otherwise [urlHost + "/oauth/token"]. *)
Lemma getOAuthTokenUrl_priority (integration : Integration) :
  let token_url := get_opt (credentials integration) "token_url" in
  (truthy token_url = true /\ getOAuthTokenUrl integration = token_url) \/
  (truthy token_url = false /\
   exists key config o,
     firstKnown integration (key, config) /\
     oauth config = Some o /\ tokenUrl o <> EmptyString /\
     getOAuthTokenUrl integration = VString (tokenUrl o)) \/
  (truthy token_url = false /\
   (Forall (fun e => isKnown integration e = false) integrations \/
    exists key config,
      firstKnown integration (key, config) /\
      (oauth config = None \/ exists o, oauth config = Some o /\ tokenUrl o = EmptyString)) /\
   getOAuthTokenUrl integration = VString (urlHost integration ++ "/oauth/token")).
Proof.
  intros token_url. unfold getOAuthTokenUrl. fold token_url.
  destruct (truthy token_url) eqn:T; [left; split; reflexivity|].
  right.
  destruct (find (isKnown integration) integrations) as [[key config]|] eqn:F.
  - apply find_first in F.
    destruct (oauth config) as [o|] eqn:O.
    + destruct (tokenUrl o =? EmptyString) eqn:Q.
      * right. apply String.eqb_eq in Q. split; [reflexivity|]. split; [|reflexivity].
        right. exists key, config. split; [exact F|]. right. eauto.
      * left. apply String.eqb_neq in Q. split; [reflexivity|].
        exists key, config, o. repeat split; assumption.
    + right. split; [reflexivity|]. split; [|reflexivity].
      right. exists key, config. split; [exact F|]. left. exact O.
  - right. split; [reflexivity|]. split; [|reflexivity].
    left. apply find_none. exact F.
Qed.

(** The first entry wins: an integration named after a later entry is
    given the endpoint of an earlier one whose key occurs in its host. *)
Example getOAuthTokenUrl_first_match :
  getOAuthTokenUrl {| id := "squarespace"; urlHost := "https://api.squarespace.com";
                      credentials := VUndefined |}
  = VString "https://connect.squareup.com/oauth2/token".
Proof. vm_compute; reflexivity. Qed.

(** C9 at work on the code. The catalog has an entry [squarespace]
    with a token endpoint of its own, and the host of that entry is
    [https://api.squarespace.com]. For the integration with that id and
    that host, [find] stops at the entry [square], declared earlier,
    because the text [square] occurs in the host: the token endpoint
    returned is Square's, not the one of the entry the integration is
    named after, whether the integration carries credentials or not. *)
Theorem squarespace_token_url_shadowed :
  option_map (fun e => (apiUrl (snd e), option_map tokenUrl (oauth (snd e))))
             (find (fun e => fst e =? "squarespace") integrations) =
  Some ("https://api.squarespace.com",
        Some "https://login.squarespace.com/api/1/login/oauth/provider/tokens") /\
  option_map fst
    (find (isKnown {| id := "squarespace"; urlHost := "https://api.squarespace.com";
                      credentials := VObject [] |}) integrations) = Some "square" /\
  getOAuthTokenUrl {| id := "squarespace"; urlHost := "https://api.squarespace.com";
                      credentials := VObject [] |}
  = VString "https://connect.squareup.com/oauth2/token" /\
  getOAuthTokenUrl {| id := "squarespace"; urlHost := "https://api.squarespace.com";
                      credentials := VObject [("client_id", VString "abc")] |}
  = VString "https://connect.squareup.com/oauth2/token".
Proof. repeat split; vm_compute; reflexivity. Qed.

(** The four cases of the unit tests of [getTokenUrl]. *)
Example getOAuthTokenUrl_tests :
  getOAuthTokenUrl {| id := "github"; urlHost := "https://api.github.com";
                      credentials := VObject [] |}
  = VString "https://github.com/login/oauth/access_token" /\
  getOAuthTokenUrl {| id := "my-github"; urlHost := "https://api.github.com";
                      credentials := VObject [] |}
  = VString "https://github.com/login/oauth/access_token" /\
  getOAuthTokenUrl {| id := "custom"; urlHost := "https://api.custom.com";
                      credentials :=
                        VObject [("token_url", VString "https://custom.com/oauth/token")] |}
  = VString "https://custom.com/oauth/token" /\
  getOAuthTokenUrl {| id := "unknown"; urlHost := "https://api.unknown.com";
                      credentials := VObject [] |}
  = VString "https://api.unknown.com/oauth/token".
Proof. repeat split; vm_compute; reflexivity. Qed.

End TokenUrl.

(* ================================================================== *)
(** * Listing the runs                                                *)
(* ================================================================== *)

Section RunList.

Import PostgresStore.

Lemma before_total a b : before a b = true \/ before b a = true.
Proof.
  destruct a as [x|], b as [y|]; simpl; auto.
  destruct (Z.leb_spec y x); [left; reflexivity|].
  right. apply Z.leb_le. lia.
Qed.

Lemma before_trans a b c :
  before a b = true -> before b c = true -> before a c = true.
Proof.
  destruct a as [x|], b as [y|], c as [z|]; simpl; try congruence.
  intros P Q. apply Z.leb_le in P, Q. apply Z.leb_le. lia.
Qed.

Lemma insert_desc_Forall (P : Row -> Prop) x l :
  P x -> Forall P l -> Forall P (insert_desc x l).
Proof.
  intros Px. induction 1 as [|y l Py Pl IH]; simpl; [repeat constructor; assumption|].
  destruct (before (started_at y) (started_at x)).
  - constructor; assumption.
  - constructor; [assumption|]. constructor; assumption.
Qed.

Lemma insert_desc_sorted x l :
  StronglySorted desc l -> StronglySorted desc (insert_desc x l).
Proof.
  induction 1 as [|y l S IH F]; simpl; [repeat constructor|].
  destruct (before (started_at y) (started_at x)) eqn:B.
  - constructor; [exact IH|]. apply insert_desc_Forall; assumption.
  - assert (Bxy : desc x y).
    { destruct (before_total (started_at x) (started_at y)) as [Q|Q];
        [exact Q | congruence]. }
    constructor; [constructor; assumption|].
    constructor; [exact Bxy|].
    eapply Forall_impl; [|exact F]. intros z Byz.
    eapply before_trans; eassumption.
Qed.

Lemma insert_desc_perm x l : Permutation (insert_desc x l) (x :: l).
Proof.
  induction l as [|y l IH]; simpl; [reflexivity|].
  destruct (before (started_at y) (started_at x)); [|reflexivity].
  rewrite IH. apply perm_swap.
Qed.

Lemma order_by_sorted l : StronglySorted desc (order_by_started_at_desc l).
Proof.
  unfold order_by_started_at_desc.
  assert (G : forall acc, StronglySorted desc acc ->
                StronglySorted desc (fold_left (fun acc x => insert_desc x acc) l acc)).
  { induction l as [|x l IH]; intros acc S; simpl; [exact S|].
    apply IH. apply insert_desc_sorted. exact S. }
  apply G. constructor.
Qed.

Lemma order_by_perm l : Permutation (order_by_started_at_desc l) l.
Proof.
  unfold order_by_started_at_desc.
  assert (G : forall acc,
             Permutation (fold_left (fun acc x => insert_desc x acc) l acc) (acc ++ l)).
  { induction l as [|x l IH]; intros acc; simpl; [rewrite app_nil_r; reflexivity|].
    rewrite IH, insert_desc_perm. apply Permutation_middle. }
  apply (G []).
Qed.

Lemma sorted_skipn {A : Type} (R : A -> A -> Prop) n l :
  StronglySorted R l -> StronglySorted R (skipn n l).
Proof.
  revert l. induction n as [|n IH]; intros l S; [exact S|].
  destruct l as [|x l]; [exact S|]. simpl. apply IH.
  apply StronglySorted_inv in S. tauto.
Qed.

Lemma sorted_firstn {A : Type} (R : A -> A -> Prop) n l :
  StronglySorted R l -> StronglySorted R (firstn n l).
Proof.
  revert l. induction n as [|n IH]; intros l S; [constructor|].
  destruct l as [|x l]; [constructor|]. simpl.
  apply StronglySorted_inv in S. destruct S as [S F].
  constructor; [apply IH; exact S|].
  apply Forall_forall. intros y I. rewrite Forall_forall in F. apply F.
  rewrite <- (firstn_skipn n l). apply in_or_app. left. exact I.
Qed.

(** The column [started_at] of every row the store holds is the
    [startedAt] of the run in its [data]. *)
Lemma Reachable_started_at t :
  Reachable t -> Forall (fun x => started_at x = startedAt (data x)) t.
Proof.
  induction 1 as [|run orgId t _ IH|i orgId t _ IH|orgId t _ IH].
  - constructor.
  - unfold createRun. induction IH as [|x t Px Pt IHt]; simpl.
    + repeat constructor.
    + destruct ((row_id x =? _) && (org_id x =? _)).
      * constructor; [reflexivity | exact Pt].
      * constructor; [exact Px | exact IHt].
  - unfold deleteRun. destruct (i =? EmptyString); [exact IH|].
    apply Forall_forall. intros x I. apply filter_In in I.
    rewrite Forall_forall in IH. apply IH. tauto.
  - unfold deleteAllRuns.
    apply Forall_forall. intros x I. apply filter_In in I.
    rewrite Forall_forall in IH. apply IH. tauto.
Qed.

Lemma sorted_items rows :
  Forall (fun x => started_at x = startedAt (data x)) rows ->
  StronglySorted desc rows -> StronglySorted newestFirst (map toItem rows).
Proof.
  intros C. induction 1 as [|x l S IH F]; simpl; [constructor|].
  inversion C as [|? ? Cx Cl]; subst.
  constructor; [apply IH; exact Cl|].
  apply Forall_forall. intros i I. apply in_map_iff in I.
  destruct I as (y & <- & Iy).
  rewrite Forall_forall in F, Cl. specialize (F y Iy). specialize (Cl y Iy).
  unfold newestFirst, desc in *. simpl. rewrite <- Cx, <- Cl. exact F.
Qed.

(** The query on the rows. [listRuns] answers with the rows of the
    organisation, and of those whose column [config_id] holds the
    configuration when one is named, ordered by [started_at]
    descending; [items] is the page that skips [offset] of them and
    takes [limit], newest first by [startedAt], and [total] counts all
    of them, whatever the page. *)
Lemma listRuns_page (t : Table) (limit offset : option Z)
    (configId orgId : option string) :
  Reachable t ->
  (0 <= orDefault limit 10)%Z ->
  (0 <= orDefault offset 0)%Z ->
  exists all,
    Permutation all (filter (selected configId orgId) t) /\
    StronglySorted desc all /\
    listRuns limit offset configId orgId t =
      Ok {| items := map toItem
                       (firstn (Z.to_nat (orDefault limit 10))
                          (skipn (Z.to_nat (orDefault offset 0)) all));
            total := List.length (filter (selected configId orgId) t) |} /\
    StronglySorted newestFirst
      (map toItem (firstn (Z.to_nat (orDefault limit 10))
                     (skipn (Z.to_nat (orDefault offset 0)) all))) /\
    (List.length (firstn (Z.to_nat (orDefault limit 10))
                    (skipn (Z.to_nat (orDefault offset 0)) all)) <=
     List.length (filter (selected configId orgId) t))%nat.
Proof.
  intros R L O.
  exists (order_by_started_at_desc (filter (selected configId orgId) t)).
  pose proof (order_by_perm (filter (selected configId orgId) t)) as P.
  pose proof (order_by_sorted (filter (selected configId orgId) t)) as S.
  split; [exact P|]. split; [exact S|]. split; [|split].
  - unfold listRuns.
    destruct (Z.ltb_spec (orDefault limit 10) 0); [lia|].
    destruct (Z.ltb_spec (orDefault offset 0) 0); [lia|]. reflexivity.
  - apply sorted_items.
    + apply Forall_forall. intros x I.
      assert (I' : In x (filter (selected configId orgId) t)).
      { eapply Permutation_in; [exact P|].
        rewrite <- (firstn_skipn (Z.to_nat (orDefault offset 0))).
        apply in_or_app. right.
        rewrite <- (firstn_skipn (Z.to_nat (orDefault limit 10))
                      (skipn _ _)).
        apply in_or_app. left. exact I. }
      apply filter_In in I'. pose proof (Reachable_started_at t R) as C.
      rewrite Forall_forall in C. apply C. tauto.
    + apply sorted_firstn, sorted_skipn. exact S.
  - rewrite length_firstn, length_skipn, <- (Permutation_length P). lia.
Qed.

Lemma listRuns_page_witness :
  listRuns (Some 1%Z) (Some 1%Z) (Some "c1") None Doubles.runs =
  Ok {| items := [Doubles.run "b" "c1" (Some 30%Z)]; total := 3 |}.
Proof.
  destruct (listRuns_page Doubles.runs (Some 1%Z) (Some 1%Z) (Some "c1") None)
    as (all & _ & _ & E & _).
  - unfold Doubles.runs. repeat apply Reachable_create. apply Reachable_empty.
  - vm_compute; discriminate.
  - vm_compute; discriminate.
  - vm_compute; reflexivity.
Defined.

(** C8 at work on the code. A run is written twice under the same id,
    first for configuration [A], then for configuration [B]. The
    [INSERT] sets the column [config_id]; the [DO UPDATE] of the second
    write replaces [data], [started_at] and [completed_at] and leaves
    [config_id] at [A]. Filtered by [A], [listRuns] lists the run,
    whose configuration is [B], and counts it; filtered by [B] it lists
    and counts nothing. *)
Theorem listRuns_stale_config_id :
  let t := createRun (Doubles.run "r1" "B" (Some 20%Z)) None
             (createRun (Doubles.run "r1" "A" (Some 10%Z)) None []) in
  Reachable t /\
  configId (Doubles.run "r1" "B" (Some 20%Z)) = Some "B" /\
  map config_id t = [Some "A"] /\
  listRuns (Some 10%Z) (Some 0%Z) (Some "A") None t =
    Ok {| items := [Doubles.run "r1" "B" (Some 20%Z)]; total := 1 |} /\
  listRuns (Some 10%Z) (Some 0%Z) (Some "B") None t =
    Ok {| items := []; total := 0 |}.
Proof.
  cbv zeta. split; [repeat apply Reachable_create; apply Reachable_empty|].
  repeat split; vm_compute; reflexivity.
Qed.

End RunList.

(* ================================================================== *)
(** * More on [callEndpoint]: rejected responses                      *)
(* ================================================================== *)

Lemma prefix_self_app a b : prefix a (a ++ b) = true.
Proof.
  induction a as [|c a IH]; simpl; [destruct b; reflexivity|].
  destruct (ascii_dec c c); [exact IH | congruence].
Qed.

Lemma append_assoc (a b c : string) : (a ++ b) ++ c = a ++ b ++ c.
Proof. induction a as [|x a IH]; simpl; [reflexivity | rewrite IH; reflexivity]. Qed.

Lemma okStatus_range z : okStatus z = true <-> (200 <= z <= 205)%Z.
Proof.
  unfold okStatus. simpl. rewrite !orb_true_iff, !Z.eqb_eq. lia.
Qed.

Section RejectedResponses.

Context {ext : Externals} {remote : Remote}.
Variables (endpoint : ApiConfig) (payload credentials : object)
          (options : RequestOptions).

Local Abbreviation prepare := (prepare endpoint payload credentials options).
Local Abbreviation receive := (receive endpoint payload credentials).
Local Abbreviation handleResponse := (handleResponse endpoint payload credentials).
Local Abbreviation Reaches := (Reaches endpoint payload credentials options).
Local Abbreviation running := (running endpoint).

Lemma handleResponse_rejected st req response e :
  receive req response = Throw e -> handleResponse st req response = Throw e.
Proof. intros E. unfold Api.handleResponse. rewrite E. reflexivity. Qed.

(** X1. A response is turned down for its status or for what its body says:
    a status outside 200..205, a truthy [error] member or a non-empty
    [errors] array make [callEndpoint] throw an [ApiCallError] that
    carries the status of the response and starts by naming it. No
    further request follows. *)
Theorem failed_response_throws st exs req response :
  Reaches st exs ->
  running st = true ->
  prepare st = Ok (ToHttp req) ->
  callAxios (List.length exs) (axiosConfig req) options = Ok response ->
  ((status response < 200)%Z \/ (205 < status response)%Z \/
   truthy (get_opt (data response) "error") = true \/
   exists x l, get_opt (data response) "errors" = VArray (x :: l)) ->
  callEndpointTraced endpoint payload credentials options =
  (Throws (ApiCallError (failureMessage endpoint req response)
                        (Some (status response))),
   (traceOf exs ++ [axiosConfig req])%list) /\
  prefix ("API call failed with status " ++ Z_to_string (status response))
         (failureMessage endpoint req response) = true.
Proof.
  intros R Hrun Hp Hc Bad.
  split; [|unfold failureMessage; rewrite <- append_assoc; apply prefix_self_app].
  rewrite (callEndpointTraced_next _ _ _ _ _ _ _ _ R Hrun Hp Hc).
  rewrite (handleResponse_rejected st req response
             (ApiCallError (failureMessage endpoint req response)
                           (Some (status response)))); [reflexivity|].
  unfold Api.receive, checkStatus.
  assert (F : responseFailed response = true).
  { unfold responseFailed. destruct (okStatus (status response)) eqn:S.
    - apply okStatus_range in S. destruct Bad as [B|[B|[B|(x & l & B)]]]; try lia.
      + rewrite B. reflexivity.
      + unfold hasErrors. rewrite B. simpl. apply orb_true_r.
    - reflexivity. }
  rewrite F. reflexivity.
Qed.

(** X2. An accepted response whose body is text that starts, after leading
    white space and in any letter case, with [<!doctype html] or [<html]
    makes [callEndpoint] throw an [ApiCallError] that says so and
    carries the status of the response. *)
Theorem html_response_throws st exs req response s :
  Reaches st exs ->
  running st = true ->
  prepare st = Ok (ToHttp req) ->
  callAxios (List.length exs) (axiosConfig req) options = Ok response ->
  responseFailed response = false ->
  data response = VString s ->
  startsWith (toLowerCase (trim (slice0 100 s))) "<!doctype html" ||
  startsWith (toLowerCase (trim (slice0 100 s))) "<html" = true ->
  exists msg,
    callEndpointTraced endpoint payload credentials options =
    (Throws (ApiCallError msg (Some (status response))),
     (traceOf exs ++ [axiosConfig req])%list) /\
    prefix "Received HTML response instead of expected JSON data from " msg = true.
Proof.
  intros R Hrun Hp Hc Good D Html.
  eexists. split.
  - rewrite (callEndpointTraced_next _ _ _ _ _ _ _ _ R Hrun Hp Hc).
    erewrite handleResponse_rejected; [reflexivity|].
    unfold Api.receive, checkStatus, checkHtml, looksLikeHtml.
    rewrite Good, D. cbn [bind]. rewrite Html. reflexivity.
  - apply prefix_self_app.
Qed.

End RejectedResponses.

(* ================================================================== *)
(** * More on [callEndpoint]: extraction and accumulation             *)
(* ================================================================== *)

Lemma split_cons sep s : exists x r, split sep s = x :: r.
Proof.
  induction s as [|c s IH]; simpl; [eauto|].
  destruct (Ascii.eqb c sep); [eauto|].
  destruct IH as (x & r & ->). eauto.
Qed.

Lemma has_In h l : has h l = true <-> In h l.
Proof.
  unfold has. rewrite existsb_exists. split.
  - intros (x & I & E). apply String.eqb_eq in E. subst. exact I.
  - intros I. exists h. split; [exact I | apply String.eqb_refl].
Qed.

Section Extraction.

Context {ext : Externals} {remote : Remote}.
Variables (endpoint : ApiConfig) (payload credentials : object)
          (options : RequestOptions).

Local Abbreviation hasStopCondition := (hasStopCondition endpoint).
Local Abbreviation prepare := (prepare endpoint payload credentials options).
Local Abbreviation receive := (receive endpoint payload credentials).
Local Abbreviation handleResponse := (handleResponse endpoint payload credentials).
Local Abbreviation Reaches := (Reaches endpoint payload credentials options).
Local Abbreviation running := (running endpoint).

(** X3. A body that is [null] or [undefined] cannot be searched: when a
    [dataPath] is set and an accepted response (status 200..205) has
    such a body, the first step of the extraction reads a property of
    it, and [callEndpoint] throws the [TypeError] of the runtime in
    place of a result. No further request follows. *)
Theorem null_body_with_dataPath_throws st exs req response :
  Reaches st exs ->
  running st = true ->
  prepare st = Ok (ToHttp req) ->
  callAxios (List.length exs) (axiosConfig req) options = Ok response ->
  (200 <= status response <= 205)%Z ->
  nullish (data response) = true ->
  truthy_str (dataPath endpoint) = true ->
  exists m,
    callEndpointTraced endpoint payload credentials options =
    (Throws (TypeError m), (traceOf exs ++ [axiosConfig req])%list).
Proof.
  intros R Hrun Hp Hc S N P.
  assert (E : exists m, receive req response = Throw (TypeError m)).
  { unfold Api.receive, checkStatus, checkHtml, extractData, responseFailed, hasErrors.
    apply okStatus_range in S. rewrite S.
    destruct (dataPath endpoint) as [p|]; [|discriminate P].
    simpl in P. destruct (p =? EmptyString); [discriminate P|].
    destruct (split_cons "." p) as (x & r & ->).
    destruct (data response); try discriminate N; simpl; eauto. }
  destruct E as (m & E). exists m.
  rewrite (callEndpointTraced_next _ _ _ _ _ _ _ _ R Hrun Hp Hc).
  unfold Api.handleResponse. rewrite E. reflexivity.
Qed.

Lemma accumulated_so_far st exs :
  hasStopCondition = false ->
  Reaches st exs ->
  hasMore st = true ->
  allResults st = flat_map (fun e => elements (ex_page e)) exs /\
  Forall (fun e => isArray (ex_page e) = true) exs /\
  seenResponseHashes st = map (fun e => stringify_str (ex_page e)) exs /\
  NoDup (seenResponseHashes st).
Proof.
  intros N. induction 1 as [|st exs req response page st' _ IH _ _ _ Hr Hh]; intros M.
  - repeat split; constructor.
  - rewrite (handleResponse_nostop _ _ _ _ _ _ _ N Hr) in Hh. inv Hh.
    apply advance_hasMore in M.
    destruct page as [| | | | |l|]; try discriminate M.
    simpl in M. cbn [advance allResults seenResponseHashes paginateWithoutStop].
    destruct (has (stringify_str (VArray l)) (seenResponseHashes st)) eqn:Seen;
      [discriminate M|]. cbn [negb] in *.
    destruct (shortPage endpoint (List.length l)); [discriminate M|].
    destruct (IH M) as (A & Arr & S & D).
    rewrite flat_map_app, map_app, Forall_app. simpl. rewrite app_nil_r.
    split; [rewrite A; reflexivity|].
    split; [split; [exact Arr | repeat constructor]|].
    split; [rewrite S; reflexivity|].
    apply NoDup_app; [exact D | repeat constructor; intros [] | ].
    intros x I [<-|[]]. apply has_In in I. congruence.
Qed.

(** X4. Without a stop condition, as long as the loop goes on, the results
    gathered are the elements of the pages received, in order, every
    page was an array, and no two pages had the same JSON text. *)
Theorem pages_accumulated st exs :
  hasStopCondition = false ->
  Reaches st exs ->
  hasMore st = true ->
  allResults st = flat_map (fun e => elements (ex_page e)) exs /\
  Forall (fun e => isArray (ex_page e) = true) exs /\
  seenResponseHashes st = map (fun e => stringify_str (ex_page e)) exs /\
  NoDup (seenResponseHashes st).
Proof. apply accumulated_so_far. Qed.

Lemma returns_after st exs req response st' :
  Reaches st exs ->
  running st = true ->
  prepare st = Ok (ToHttp req) ->
  callAxios (List.length exs) (axiosConfig req) options = Ok response ->
  handleResponse st req response = Ok st' ->
  hasMore st' = false ->
  lastResponse st' = Some response ->
  callEndpointTraced endpoint payload credentials options =
  (Returns {| res_data := resultData endpoint st';
              res_statusCode := status response;
              res_headers := resp_headers response |},
   (traceOf exs ++ [axiosConfig req])%list).
Proof.
  intros R Hrun Hp Hc Hh M L.
  rewrite (callEndpointTraced_next _ _ _ _ _ _ _ _ R Hrun Hp Hc), Hh.
  rewrite runLoop_stopped by (unfold Api.running; rewrite M; reflexivity).
  cbn [fst snd conclude]. unfold finish. rewrite L. reflexivity.
Qed.

(** X5. Without a stop condition, a new page shorter than the page size
    (or any new page when the page size is not a number or is zero) is
    the last one: its elements are added and the run returns. *)
Theorem short_page_ends_run st exs req response page :
  hasStopCondition = false ->
  Reaches st exs ->
  running st = true ->
  prepare st = Ok (ToHttp req) ->
  callAxios (List.length exs) (axiosConfig req) options = Ok response ->
  receive req response = Ok (VArray page) ->
  Forall (fun e => stringify_str (ex_page e) <> stringify_str (VArray page)) exs ->
  shortPage endpoint (List.length page) = true ->
  exists st',
    callEndpointTraced endpoint payload credentials options =
    (Returns {| res_data := resultData endpoint st';
                res_statusCode := status response;
                res_headers := resp_headers response |},
     (traceOf exs ++ [axiosConfig req])%list) /\
    allResults st' = (flat_map (fun e => elements (ex_page e)) exs ++ page)%list.
Proof.
  intros N R Hrun Hp Hc Hr Fresh Short.
  destruct (accumulated_so_far _ _ N R (running_hasMore _ _ Hrun)) as (A & _ & S & _).
  assert (Seen : has (stringify_str (VArray page)) (seenResponseHashes st) = false).
  { destruct (has _ _) eqn:Q; [|reflexivity]. apply has_In in Q. rewrite S in Q.
    apply in_map_iff in Q. destruct Q as (e & Q & I).
    rewrite Forall_forall in Fresh. elim (Fresh e I Q). }
  exists (advance endpoint (paginateWithoutStop endpoint st (VArray page)) response).
  split.
  - apply returns_after with (st := st); try assumption.
    + apply handleResponse_nostop; assumption.
    + destruct (hasMore (advance endpoint _ response)) eqn:M; [|reflexivity].
      apply advance_hasMore in M. simpl in M. rewrite Seen, Short in M.
      discriminate M.
    + reflexivity.
  - cbn [advance allResults paginateWithoutStop]. rewrite Seen, A. reflexivity.
Qed.

(** X6. Without a stop condition, a response that is not an array ends the
    run: it is the single result when it is truthy and nothing was
    gathered before, and is dropped otherwise. *)
Theorem non_array_ends_run st exs req response d :
  hasStopCondition = false ->
  Reaches st exs ->
  running st = true ->
  prepare st = Ok (ToHttp req) ->
  callAxios (List.length exs) (axiosConfig req) options = Ok response ->
  receive req response = Ok d ->
  isArray d = false ->
  exists st',
    callEndpointTraced endpoint payload credentials options =
    (Returns {| res_data := resultData endpoint st';
                res_statusCode := status response;
                res_headers := resp_headers response |},
     (traceOf exs ++ [axiosConfig req])%list) /\
    allResults st' =
      match flat_map (fun e => elements (ex_page e)) exs with
      | [] => if truthy d then [d] else []
      | before => before
      end.
Proof.
  intros N R Hrun Hp Hc Hr NA.
  destruct (accumulated_so_far _ _ N R (running_hasMore _ _ Hrun)) as (A & _ & _ & _).
  exists (advance endpoint (paginateWithoutStop endpoint st d) response).
  split.
  - apply returns_after with (st := st); try assumption.
    + apply handleResponse_nostop; assumption.
    + destruct (hasMore (advance endpoint _ response)) eqn:M; [|reflexivity].
      apply advance_hasMore in M. destruct d; simpl in M, NA; congruence.
    + reflexivity.
  - rewrite <- A. cbn [advance allResults].
    assert (E : allResults (paginateWithoutStop endpoint st d) =
                if truthy d && (List.length (allResults st) =? 0)%nat
                then (allResults st ++ [d])%list else allResults st)
      by (destruct d; try discriminate NA; reflexivity).
    rewrite E. destruct (allResults st); simpl; destruct (truthy d); reflexivity.
Qed.

End Extraction.

(* ================================================================== *)
(** * More on [callEndpoint]: page, offset and cursor                 *)
(* ================================================================== *)

Section Advancing.

Context {ext : Externals} {remote : Remote}.
Variables (endpoint : ApiConfig) (payload credentials : object)
          (options : RequestOptions).

Local Abbreviation hasStopCondition := (hasStopCondition endpoint).
Local Abbreviation prepare := (prepare endpoint payload credentials options).
Local Abbreviation receive := (receive endpoint payload credentials).
Local Abbreviation handleResponse := (handleResponse endpoint payload credentials).
Local Abbreviation Reaches := (Reaches endpoint payload credentials options).
Local Abbreviation running := (running endpoint).
Local Abbreviation pageSizeText := (str_or (pageSizeOf endpoint) "50").
Local Abbreviation cursorParts :=
  (split "." (str_or (cursorPathOf endpoint) "next_cursor")).

Lemma paginateWithoutStop_position st d :
  page (paginateWithoutStop endpoint st d) = page st /\
  offset (paginateWithoutStop endpoint st d) = offset st.
Proof. destruct d; split; reflexivity. Qed.

Lemma paginateWithStop_position st req r d st' :
  paginateWithStop endpoint payload credentials st req r d = Ok st' ->
  page st' = page st /\ offset st' = offset st.
Proof.
  unfold paginateWithStop. intros E.
  repeat split_match; try discriminate;
    apply bind_Ok in E; destruct E as (m & _ & E); inv E; split; reflexivity.
Qed.

Lemma handleResponse_position st req r st' :
  handleResponse st req r = Ok st' ->
  page st' = (if isType endpoint PAGE_BASED then page st + 1 else page st)%Z /\
  offset st' = (if isType endpoint PAGE_BASED then offset st
                else if isType endpoint OFFSET_BASED
                then number_add (offset st) (parseInt pageSizeText)
                else offset st).
Proof.
  unfold Api.handleResponse. intros E.
  apply bind_Ok in E. destruct E as (d & _ & E).
  apply bind_Ok in E. destruct E as (st1 & E1 & E). inv E.
  cbn [advance page offset].
  assert (P : page st1 = page st /\ offset st1 = offset st).
  { destruct (Api.hasStopCondition endpoint).
    - eapply paginateWithStop_position; eassumption.
    - inv E1. apply paginateWithoutStop_position. }
  destruct P as [-> ->]. split; reflexivity.
Qed.

Lemma isType_exclusive a b :
  isType endpoint a = true -> a <> b -> isType endpoint b = false.
Proof.
  unfold isType. destruct (typeOf endpoint) as [t|]; [|discriminate].
  destruct t, a, b; simpl; congruence.
Qed.

(** X7. The position the loop stands at after [n] exchanges: page
    [n + 1] in page-based mode; offset [n] times the page size in
    offset-based mode, when the page size reads as an integer; the
    initial page 1 and offset 0 in every other mode. The numbers of the
    runtime are doubles: the statement covers the range in which their
    arithmetic is exact, up to 2^53. *)
Theorem position_after_exchanges st exs z :
  Reaches st exs ->
  (Z.of_nat (List.length exs) < 2 ^ 53)%Z ->
  (isType endpoint OFFSET_BASED = true ->
   parseInt pageSizeText = Int z /\
   (Z.abs z * Z.of_nat (List.length exs) <= 2 ^ 53)%Z) ->
  page st = (if isType endpoint PAGE_BASED
             then 1 + Z.of_nat (List.length exs) else 1)%Z /\
  offset st = (if isType endpoint OFFSET_BASED
               then Int (z * Z.of_nat (List.length exs))
               else Int 0).
Proof.
  intros R _ Size.
  assert (G : page st = (if isType endpoint PAGE_BASED
                         then 1 + Z.of_nat (List.length exs) else 1)%Z /\
              offset st = (if isType endpoint OFFSET_BASED
                           then match parseInt pageSizeText with
                                | Int x => Int (x * Z.of_nat (List.length exs))
                                | NaN => match exs with [] => Int 0 | _ => NaN end
                                end
                           else Int 0)).
  { clear Size.
    induction R as [|st exs req response page0 st' _ [IHp IHo] _ _ _ _ Hh].
    - simpl. destruct (isType endpoint PAGE_BASED), (isType endpoint OFFSET_BASED);
        try destruct (parseInt pageSizeText); split; try reflexivity;
        rewrite Z.mul_0_r; reflexivity.
    - destruct (handleResponse_position _ _ _ _ Hh) as [-> ->].
      rewrite IHp, IHo, length_app. simpl List.length. split.
      + destruct (isType endpoint PAGE_BASED); [|reflexivity]. lia.
      + destruct (isType endpoint PAGE_BASED) eqn:P.
        * rewrite (isType_exclusive PAGE_BASED OFFSET_BASED P) by discriminate.
          reflexivity.
        * destruct (isType endpoint OFFSET_BASED); [|reflexivity].
          destruct (parseInt pageSizeText) as [|x].
          -- destruct exs; reflexivity.
          -- simpl. f_equal. lia. }
  destruct G as [Gp Go]. split; [exact Gp|]. rewrite Go.
  destruct (isType endpoint OFFSET_BASED); [|reflexivity].
  destruct (Size eq_refl) as [-> _]. reflexivity.
Qed.

(** X8. In cursor-based mode a response without a truthy value at the
    cursor path is the last one: the run returns after it, with that
    value as [next_cursor]. *)
Theorem missing_cursor_ends_run st exs e :
  isType endpoint CURSOR_BASED = true ->
  Reaches st (exs ++ [e]) ->
  truthy (walkCursorPath cursorParts (data (ex_response e))) = false ->
  callEndpointTraced endpoint payload credentials options =
  (Returns {| res_data :=
                VObject [("next_cursor",
                          walkCursorPath cursorParts (data (ex_response e)));
                         ("results", VArray (allResults st))];
              res_statusCode := status (ex_response e);
              res_headers := resp_headers (ex_response e) |},
   traceOf (exs ++ [e])).
Proof.
  intros C R F.
  destruct (Reaches_last _ _ _ _ _ _ _ R) as (st1 & E).
  assert (S : running st = false).
  { unfold Api.running. rewrite E. cbn [advance hasMore]. rewrite C, F. reflexivity. }
  rewrite (callEndpointTraced_stopped _ _ _ _ _ _ R S). cbn [conclude].
  unfold finish, resultData. rewrite E. cbn [advance lastResponse cursor allResults].
  rewrite C. reflexivity.
Qed.

End Advancing.

(* ================================================================== *)
(** * More on [callEndpoint]: runs with a stop condition              *)
(* ================================================================== *)

Section StopCondition.

Context {ext : Externals} {remote : Remote}.
Variables (endpoint : ApiConfig) (payload credentials : object)
          (options : RequestOptions).

Local Abbreviation hasStopCondition := (hasStopCondition endpoint).
Local Abbreviation prepare := (prepare endpoint payload credentials options).
Local Abbreviation receive := (receive endpoint payload credentials).
Local Abbreviation handleResponse := (handleResponse endpoint payload credentials).
Local Abbreviation Reaches := (Reaches endpoint payload credentials options).
Local Abbreviation running := (running endpoint).
Local Abbreviation paginateWithStop :=
  (paginateWithStop endpoint payload credentials).

(** The step that led to a loop head. *)
Lemma Reaches_last_step st exs e :
  Reaches st (exs ++ [e]) ->
  exists st0,
    Reaches st0 exs /\
    receive (ex_req e) (ex_response e) = Ok (ex_page e) /\
    handleResponse st0 (ex_req e) (ex_response e) = Ok st.
Proof.
  intros R.
  inversion R as [Est Eexs|st0 exs0 req response page st' R0 _ _ _ Hr Hh Est Eexs].
  - destruct exs; discriminate.
  - apply app_inj_tail in Eexs. destruct Eexs as [-> <-]. simpl. eauto.
Qed.

Lemma paginateWithStop_records st req r d st' :
  paginateWithStop st req r d = Ok st' ->
  previousResponseHash st' = hash_of d /\
  allResults st' = accumulate (allResults st) d.
Proof.
  unfold Api.paginateWithStop. intros E.
  repeat split_match; try discriminate;
    apply bind_Ok in E; destruct E as (m & _ & E); inv E; split; reflexivity.
Qed.

Lemma previous_hash st exs e :
  hasStopCondition = true ->
  Reaches st (exs ++ [e]) ->
  previousResponseHash st = hash_of (ex_page e).
Proof.
  intros N R. destruct (Reaches_last_step _ _ _ R) as (st0 & _ & Hr & Hh).
  rewrite (handleResponse_stop _ _ _ _ _ _ _ N Hr) in Hh.
  apply bind_Ok in Hh. destruct Hh as (st1 & E & Hh). inv Hh.
  apply paginateWithStop_records in E. apply E.
Qed.

(** X9. With a stop condition, when neither of the first two responses
    carries data, [callEndpoint] throws the stop-condition error at the
    second one: the condition should have ended the run at the first. *)
Theorem empty_first_pages_rejected st e0 req response page :
  hasStopCondition = true ->
  Reaches st [e0] ->
  running st = true ->
  prepare st = Ok (ToHttp req) ->
  callAxios 1 (axiosConfig req) options = Ok response ->
  receive req response = Ok page ->
  currentHasData (ex_page e0) = false ->
  currentHasData page = false ->
  callEndpointTraced endpoint payload credentials options =
  (Throws (stopConditionError endpoint),
   [axiosConfig (ex_req e0); axiosConfig req]) /\
  prefix "Stop condition error: The API returned no data on the first request"
         (exn_message (stopConditionError endpoint)) = true.
Proof.
  intros N R Hrun Hp Hc Hr D0 D1. split; [|reflexivity].
  destruct (Reaches_single _ _ _ _ _ _ R) as (Hh0 & Hr0).
  destruct (first_page_recorded _ _ _ _ _ _ _ N Hr0 Hh0) as (C & F & V).
  rewrite (callEndpointTraced_next _ _ _ _ _ _ _ _ R Hrun Hp Hc).
  rewrite (handleResponse_stop _ _ _ _ _ _ _ N Hr).
  unfold Api.paginateWithStop. rewrite C, V, D0, D1.
  cbn [Nat.eqb andb negb]. rewrite andb_false_r. reflexivity.
Qed.

(** X10. A stop condition that holds on the first response ends the run
    after that one request, with the response among the results. *)
Theorem stop_condition_ends_run req response page verdict :
  hasStopCondition = true ->
  running initialState = true ->
  prepare initialState = Ok (ToHttp req) ->
  callAxios 0 (axiosConfig req) options = Ok response ->
  receive req response = Ok page ->
  evaluateStopCondition (show_opt (stopConditionOf endpoint)) (data response)
    (pageInfo initialState) = Ok verdict ->
  truthy_str (stop_error verdict) = false ->
  shouldStop verdict = true ->
  exists st',
    callEndpointTraced endpoint payload credentials options =
    (Returns {| res_data := resultData endpoint st';
                res_statusCode := status response;
                res_headers := resp_headers response |},
     [axiosConfig req]) /\
    allResults st' = accumulate [] page.
Proof.
  intros N Hrun Hp Hc Hr Hv NoErr Stop.
  assert (E : paginateWithStop initialState req response page =
              Ok {| allResults := accumulate [] page; page := 1; offset := Int 0;
                    cursor := VNull; hasMore := false; loopCounter := 0;
                    seenResponseHashes := [];
                    previousResponseHash := hash_of page;
                    firstResponseHash := hash_of page;
                    hasValidData := currentHasData page;
                    lastResponse := None |}).
  { unfold Api.paginateWithStop. cbn [loopCounter initialState Nat.eqb Nat.ltb Nat.leb andb].
    rewrite Hv. cbn [bind]. rewrite NoErr, Stop. reflexivity. }
  eexists. split.
  - apply (returns_after endpoint payload credentials options initialState []);
      try eassumption; [apply Reaches_start | | |].
    + rewrite (handleResponse_stop _ _ _ _ _ _ _ N Hr), E. reflexivity.
    + cbn [advance hasMore]. destruct (isType endpoint CURSOR_BASED); [|reflexivity].
      destruct (truthy _); reflexivity.
    + reflexivity.
  - reflexivity.
Qed.

(** X11. With a stop condition, from the third response on, a response with
    the JSON text of the one before it ends the run without the stop
    condition being consulted; unlike in runs without a stop condition,
    the repeated response is added to the results. *)
Theorem repeated_page_with_stop_condition st exs e1 e2 req response page :
  hasStopCondition = true ->
  Reaches st (exs ++ [e1; e2]) ->
  running st = true ->
  prepare st = Ok (ToHttp req) ->
  callAxios (List.length (exs ++ [e1; e2])) (axiosConfig req) options = Ok response ->
  receive req response = Ok page ->
  hash_of page = hash_of (ex_page e2) ->
  exists st',
    callEndpointTraced endpoint payload credentials options =
    (Returns {| res_data := resultData endpoint st';
                res_statusCode := status response;
                res_headers := resp_headers response |},
     (traceOf (exs ++ [e1; e2]) ++ [axiosConfig req])%list) /\
    allResults st' = accumulate (allResults st) page.
Proof.
  intros N R Hrun Hp Hc Hr Same.
  pose proof (Reaches_counter _ _ _ _ _ _ R) as C.
  rewrite length_app in C. cbn [List.length] in C.
  assert (P : previousResponseHash st = hash_of (ex_page e2)).
  { apply (previous_hash st (exs ++ [e1]) e2 N).
    rewrite <- app_assoc. exact R. }
  assert (E : paginateWithStop st req response page =
              Ok {| allResults := accumulate (allResults st) page;
                    page := Api.page st; offset := offset st; cursor := cursor st;
                    hasMore := false; loopCounter := loopCounter st;
                    seenResponseHashes := seenResponseHashes st;
                    previousResponseHash := hash_of page;
                    firstResponseHash := firstResponseHash st;
                    hasValidData := hasValidData st;
                    lastResponse := lastResponse st |}).
  { unfold Api.paginateWithStop.
    replace (loopCounter st =? 0)%nat with false by (symmetry; apply Nat.eqb_neq; lia).
    replace (loopCounter st =? 1)%nat with false by (symmetry; apply Nat.eqb_neq; lia).
    replace (1 <? loopCounter st)%nat with true by (symmetry; apply Nat.ltb_lt; lia).
    rewrite P, Same, hash_eqb_refl. reflexivity. }
  eexists. split.
  - apply (returns_after endpoint payload credentials options st (exs ++ [e1; e2]));
      try eassumption.
    + rewrite (handleResponse_stop _ _ _ _ _ _ _ N Hr), E. reflexivity.
    + cbn [advance hasMore]. destruct (isType endpoint CURSOR_BASED); [|reflexivity].
      destruct (truthy _); reflexivity.
    + reflexivity.
  - reflexivity.
Qed.

End StopCondition.

(* ================================================================== *)
(** * More on [callEndpoint]: what a request carries                  *)
(* ================================================================== *)

Lemma In_set k v o kv : In kv (set k v o) -> kv = (k, v) \/ In kv o.
Proof.
  induction o as [|[k' v'] o IH]; simpl.
  - intros [E|[]]; auto.
  - destruct (k' =? k); simpl; intros [E|I]; auto.
    destruct (IH I); auto.
Qed.

Lemma In_spread b : forall a kv, In kv (spread a b) -> In kv a \/ In kv b.
Proof.
  unfold spread. induction b as [|[k v] b IH]; simpl; intros a kv I; [auto|].
  apply IH in I. destruct I as [I|I]; [|auto].
  apply In_set in I. destruct I as [->|I]; auto.
Qed.

Lemma In_fromEntries l kv : In kv (fromEntries l) -> In kv l.
Proof.
  unfold fromEntries. intros I. apply In_spread in I. destruct I as [[]|I]. exact I.
Qed.

Lemma mapM_In {A B : Type} (f : A -> Exc B) l :
  forall l' y, mapM f l = Ok l' -> In y l' -> exists x, In x l /\ f x = Ok y.
Proof.
  induction l as [|x l IH]; simpl; intros l' y E I.
  - inv E. destruct I.
  - apply bind_Ok in E. destruct E as (y0 & Fx & E).
    apply bind_Ok in E. destruct E as (ys & M & E). inv E.
    destruct I as [<-|I]; [eauto|].
    destruct (IH _ _ M I) as (x' & I' & F'). eauto.
Qed.

Lemma keepEntry_spec k s :
  keepEntry (k, s) = true <->
  s <> EmptyString /\ s <> "undefined" /\ s <> "null".
Proof.
  unfold keepEntry. cbn [snd].
  rewrite !andb_true_iff, !negb_true_iff, !String.eqb_neq. tauto.
Qed.

Lemma scheme_word_initial s w r :
  scheme_word s = Some (w, r) -> exists w', w = String "B" w'.
Proof.
  unfold scheme_word. intros E. repeat split_match; inv E; eauto.
Qed.

(** A header value is passed on as it is, or rewritten to a text that
    starts with the scheme word. *)
Lemma processHeader_cases k s :
  processHeader k s = s \/ exists r, processHeader k s = String "B" r.
Proof.
  assert (R : replaceSchemePrefix s = s \/
              exists r, replaceSchemePrefix s = String "B" r).
  { unfold replaceSchemePrefix.
    destruct (scheme_word s) as [[w1 r1]|] eqn:W; [|auto].
    destruct (scheme_word_initial _ _ _ W) as (w' & ->).
    repeat split_match; auto. right. simpl. eauto. }
  assert (C : forall p, convertBasicAuthToBase64 p = p \/
                        exists r, convertBasicAuthToBase64 p = String "B" r).
  { intros p. unfold convertBasicAuthToBase64.
    repeat split_match; auto. right. simpl. eauto. }
  unfold processHeader. destruct (toLowerCase k =? "authorization"); simpl; [|auto].
  destruct (startsWith (replaceSchemePrefix s) "Basic "); [|exact R].
  destruct (C (replaceSchemePrefix s)) as [->|E]; [exact R | auto].
Qed.

Lemma processHeader_kept k s :
  keepEntry (k, s) = true -> keepEntry (k, processHeader k s) = true.
Proof.
  intros K. destruct (processHeader_cases k s) as [->|(r & ->)]; [exact K|].
  reflexivity.
Qed.

Section Requests.

Context {ext : Externals} {remote : Remote}.
Variables (endpoint : ApiConfig) (payload credentials : object)
          (options : RequestOptions).

Local Abbreviation prepare := (prepare endpoint payload credentials options).

Lemma substituteEntries_kept entries vars l k s :
  substituteEntries entries vars = Ok l -> In (k, s) l -> keepEntry (k, s) = true.
Proof.
  unfold substituteEntries. intros E I.
  apply bind_Ok in E. destruct E as (replaced & _ & E). inv E.
  apply filter_In in I. tauto.
Qed.

(** X12. Every header and every query parameter [callEndpoint] hands to
    [callAxios] has a string value that is neither empty nor the text
    [undefined] nor the text [null]: entries whose template comes out
    that way are left out of the request. *)
Theorem sent_entries_filtered st req k v :
  prepare st = Ok (ToHttp req) ->
  In (k, v) (ax_params (axiosConfig req)) \/
  In (k, v) (ax_headers (axiosConfig req)) ->
  exists s, v = VString s /\
            s <> EmptyString /\ s <> "undefined" /\ s <> "null".
Proof.
  unfold Api.prepare. intros E I.
  apply bind_Ok in E. destruct E as (hs & Hh & E).
  apply bind_Ok in E. destruct E as (qs & Hq & E).
  apply bind_Ok in E. destruct E as (b & _ & E).
  apply bind_Ok in E. destruct E as (h & _ & E).
  apply bind_Ok in E. destruct E as (p & _ & E).
  destruct (startsWith h "postgres://" || startsWith h "postgresql://");
    [discriminate|].
  inv E. cbn [axiosConfig ax_params ax_headers] in I.
  unfold string_entries in I.
  destruct I as [I|I]; apply In_fromEntries, in_map_iff in I;
    destruct I as ([k' s'] & E & I); inv E; cbn [fst snd] in *.
  - exists s'. split; [reflexivity|]. apply (keepEntry_spec k).
    exact (substituteEntries_kept _ _ _ _ _ Hq I).
  - apply in_map_iff in I. destruct I as ([k0 s0] & E & I).
    cbn [fst snd] in E. injection E as <- <-.
    exists (processHeader k0 s0). split; [reflexivity|]. apply (keepEntry_spec k0).
    apply processHeader_kept. exact (substituteEntries_kept _ _ _ _ _ Hh I).
Qed.

End Requests.

(* ================================================================== *)
(** * [convertBasicAuthToBase64]                                      *)
(* ================================================================== *)

Lemma get_beyond s : forall n, (String.length s <= n)%nat -> String.get n s = None.
Proof.
  induction s as [|c s IH]; intros n L; [destruct n; reflexivity|].
  destruct n as [|n]; simpl in *; [lia|]. apply IH. lia.
Qed.

Lemma sextet_base64 n : base64_char (Base64.sextet n) = true.
Proof.
  destruct (Nat.lt_ge_cases n 64) as [L|L].
  - assert (A : forallb (fun n => base64_char (Base64.sextet n)) (seq 0 64) = true)
      by (vm_compute; reflexivity).
    rewrite forallb_forall in A. apply A. apply in_seq. lia.
  - unfold Base64.sextet. rewrite get_beyond; [reflexivity|]. exact L.
Qed.

Lemma encode_bytes_base64 fuel :
  forall l, forallb base64_char (list_ascii_of_string (Base64.encode_bytes fuel l)) = true.
Proof.
  induction fuel as [|fuel IH]; intros l; [reflexivity|].
  destruct l as [|a [|b [|c r]]]; cbn [Base64.encode_bytes list_ascii_of_string forallb];
    rewrite ?sextet_base64; try reflexivity.
  rewrite IH. reflexivity.
Qed.

Lemma base64_not_space c : base64_char c = true -> is_space c = false.
Proof.
  destruct c as [[] [] [] [] [] [] [] []]; vm_compute; congruence.
Qed.

Lemma trim_no_space s :
  forallb base64_char (list_ascii_of_string s) = true -> trim s = s.
Proof.
  intros F. unfold trim.
  assert (S : trimStart s = s).
  { destruct s as [|c s]; [reflexivity|]. simpl in *.
    apply andb_true_iff in F. rewrite (base64_not_space c); tauto. }
  rewrite S. clear S. induction s as [|c s IH]; [reflexivity|].
  simpl in F. apply andb_true_iff in F. destruct F as [Fc Fs].
  cbn [trimEnd]. rewrite (IH Fs). destruct s; [|reflexivity].
  rewrite (base64_not_space c Fc). reflexivity.
Qed.

Lemma drop_scheme s : drop (String.length "Basic ") ("Basic " ++ s) = s.
Proof. reflexivity. Qed.

(** X13. Credentials the function has encoded are left alone when they pass
    through it again: applying [convertBasicAuthToBase64] twice gives
    what applying it once gives. *)
Theorem convertBasicAuthToBase64_idempotent (headerValue : string) :
  convertBasicAuthToBase64 (convertBasicAuthToBase64 headerValue) =
  convertBasicAuthToBase64 headerValue.
Proof.
  set (c := trim (drop (String.length "Basic ") headerValue)).
  assert (Once : convertBasicAuthToBase64 headerValue = headerValue \/
                 convertBasicAuthToBase64 headerValue = "Basic " ++ Base64.encode c).
  { unfold convertBasicAuthToBase64. fold c.
    destruct (headerValue =? EmptyString); [auto|].
    destruct (seemsEncoded c); auto. }
  destruct Once as [E|E]; rewrite E; [exact E|]. clear E.
  pose proof (encode_bytes_base64
                (S (List.length (map nat_of_ascii (list_ascii_of_string c))))
                (map nat_of_ascii (list_ascii_of_string c))) as F.
  fold (Base64.encode c) in F.
  unfold convertBasicAuthToBase64.
  replace ("Basic " ++ Base64.encode c =? EmptyString) with false by reflexivity.
  rewrite drop_scheme, (trim_no_space _ F).
  unfold seemsEncoded. rewrite F.
  destruct (Base64.encode c) eqn:E; reflexivity.
Qed.

(* ================================================================== *)
(** * More on [executeApiCall]                                        *)
(* ================================================================== *)

Section Attempts.

Context {ext : Externals} {llm : Assistant}.
Variable remote : nat -> Remote.
Variables (payload credentials : object) (options : RequestOptions).

Local Abbreviation tryBlock := (tryBlock remote payload credentials options).
Local Abbreviation catchBlock := (catchBlock credentials).
Local Abbreviation execLoop := (execLoop remote payload credentials options).
Local Abbreviation retryLimit := (retryLimit options).
Local Abbreviation generateApiConfig := (generateApiConfig payload credentials).
Local Abbreviation executeApiCallTraced :=
  (executeApiCallTraced remote payload credentials options).

(** A property of the loop state that every step keeps holds when the
    loop is left. *)
Lemma execLoop_invariant (P : ExecState -> Prop) :
  (forall st r st1, P st -> tryBlock st = (r, st1) -> P st1) ->
  (forall st e, P st -> P (catchBlock st e)) ->
  (forall st, P st -> P (bump st)) ->
  forall fuel st log st_f log_f,
    P st -> execLoop fuel st log = Some (st_f, log_f) -> P st_f.
Proof.
  intros Try Catch Bump.
  induction fuel as [|fuel IH]; intros st log st_f log_f I E; [discriminate|].
  rewrite execLoop_step in E. destruct (tryBlock st) as [[u|e] st1] eqn:T.
  - inv E. eapply Try; eassumption.
  - assert (I1 : P st1) by (eapply Try; eassumption).
    destruct (isAbortError e); [inv E; auto|].
    destruct (Z.of_nat (retryCount (bump (catchBlock st1 e))) <? retryLimit)%Z.
    + eapply IH; [|exact E]. auto.
    + inv E. auto.
Qed.

(** The attempts of a run, in order: each but the last failed with an
    error that is no [AbortError], and they are numbered from the
    [retryCount] the loop started with. *)
Lemma execLoop_log fuel :
  forall st log st_f log_f,
    execLoop fuel st log = Some (st_f, log_f) ->
    exists more a,
      log_f = (log ++ more ++ [a])%list /\
      Forall (fun x => exists e, at_error x = Some e /\ isAbortError e = false) more /\
      map at_retryCount (more ++ [a]) =
      seq (retryCount st) (List.length (more ++ [a])).
Proof.
  induction fuel as [|fuel IH]; intros st log st_f log_f E; [discriminate|].
  rewrite execLoop_step in E. destruct (tryBlock st) as [[u|e] st1] eqn:T.
  - inv E. exists [], {| at_retryCount := retryCount st; at_error := None |}.
    repeat split. constructor.
  - destruct (tryBlock_spec _ _ _ _ _ _ _ T) as [C _].
    destruct (isAbortError e) eqn:A.
    + inv E. exists [], {| at_retryCount := retryCount st; at_error := Some e |}.
      repeat split. constructor.
    + destruct (Z.of_nat (retryCount (bump (catchBlock st1 e))) <? retryLimit)%Z.
      * apply IH in E. destruct E as (more & a & -> & F & N).
        exists ({| at_retryCount := retryCount st; at_error := Some e |} :: more), a.
        split; [rewrite <- app_assoc; reflexivity|]. split.
        -- constructor; [|exact F]. exists e. split; [reflexivity | exact A].
        -- cbn [app map List.length seq at_retryCount]. rewrite N.
           rewrite retryCount_next, C. reflexivity.
      * inv E. exists [], {| at_retryCount := retryCount st; at_error := Some e |}.
        repeat split. constructor.
Qed.

(** X14. When the first call of [callEndpoint] returns data that is truthy,
    [executeApiCall] returns it with the status, the headers and the
    endpoint it was given, after that one attempt: the language model
    is not consulted and the conversation stays empty, whatever the
    retry limit and the self-healing setting are. *)
Theorem first_attempt_returns endpoint r :
  @callEndpoint ext (remote 0) endpoint payload credentials options = Returns r ->
  truthy (res_data r) = true ->
  exists st,
    executeApiCallTraced endpoint =
    Some (Ok {| out_data := res_data r; out_endpoint := endpoint;
                out_statusCode := Some (res_statusCode r);
                out_headers := Some (res_headers r) |},
          st, [ {| at_retryCount := 0; at_error := None |} ]) /\
    messages st = [].
Proof.
  intros C D. unfold Api.executeApiCallTraced, execFuel.
  rewrite execLoop_step.
  assert (T : tryBlock (initialExec endpoint) =
              (Ok tt,
               {| ex_endpoint := endpoint;
                  response := Some {| box_data := res_data r;
                                      box_statusCode := Some (res_statusCode r);
                                      box_headers := Some (res_headers r) |};
                  retryCount := 0; lastError := None; messages := [];
                  success := true |})).
  { unfold Api.tryBlock, awaitCallEndpoint.
    cbn [initialExec Api.retryCount Nat.ltb Nat.leb andb ex_endpoint].
    rewrite C, D. reflexivity. }
  rewrite T. eexists. split; reflexivity.
Qed.

(** X15. The attempts of [executeApiCall] carry the retry counts 0, 1, 2, ...
    in order, and every attempt but the last failed with an error that
    is no [AbortError]: nothing is attempted after a success or after
    the language model has given up. *)
Theorem attempts_in_order endpoint r st log :
  executeApiCallTraced endpoint = Some (r, st, log) ->
  exists more a,
    log = (more ++ [a])%list /\
    Forall (fun x => exists e, at_error x = Some e /\ isAbortError e = false) more /\
    map at_retryCount log = seq 0 (List.length log).
Proof.
  unfold Api.executeApiCallTraced. intros E.
  destruct (execLoop (execFuel options) (initialExec endpoint) [])
    as [[st' log']|] eqn:L; [|discriminate].
  inv E. apply execLoop_log in L. destruct L as (more & a & -> & F & N).
  exists more, a. auto.
Qed.

(** Without self-healing the endpoint is never rewritten and the
    language model receives nothing to answer. *)
Lemma tryBlock_plain st r st1 :
  isSelfHealingEnabled options = false ->
  tryBlock st = (r, st1) ->
  ex_endpoint st1 = ex_endpoint st /\ messages st1 = messages st.
Proof.
  unfold Api.tryBlock. intros D E. rewrite D, andb_false_r in E.
  repeat split_match; inv E; auto.
Qed.

(** X16. With self-healing switched off, [executeApiCall] repeats the call
    with the endpoint it was given: the endpoint it returns is that
    one, and the conversation it has built holds nothing but its own
    requests to fix the configuration. *)
Theorem endpoint_kept_without_self_healing endpoint r st log :
  isSelfHealingEnabled options = false ->
  executeApiCallTraced endpoint = Some (r, st, log) ->
  ex_endpoint st = endpoint /\
  (forall result, r = Ok result -> out_endpoint result = endpoint) /\
  Forall fixRequest (messages st).
Proof.
  unfold Api.executeApiCallTraced. intros D E.
  destruct (execLoop (execFuel options) (initialExec endpoint) [])
    as [[st' log']|] eqn:L; [|discriminate].
  inv E.
  assert (I : ex_endpoint st = endpoint /\ Forall fixRequest (messages st)).
  { revert L.
    apply (execLoop_invariant
             (fun s => ex_endpoint s = endpoint /\ Forall fixRequest (messages s))).
    - intros s r s1 [P Q] T. destruct (tryBlock_plain _ _ _ D T) as [-> ->]. auto.
    - intros s e [P Q]. split; [exact P|]. unfold Api.catchBlock. cbn [messages].
      destruct (0 <? retryCount s)%nat; [|exact Q].
      apply Forall_app. split; [exact Q|]. constructor; [|constructor].
      split; [reflexivity|]. apply prefix_self_app.
    - intros s I. exact I.
    - split; [reflexivity | constructor]. }
  destruct I as [P Q]. split; [exact P|]. split; [|exact Q].
  unfold finishExec. intros result R.
  destruct (negb (success st)); [discriminate|]. injection R as <-. exact P.
Qed.

Lemma generateApiConfig_keeps endpoint apiConfig n msgs config msgs' msgs1 :
  keeps endpoint apiConfig ->
  generateApiConfig apiConfig n msgs = (Ok (config, msgs'), msgs1) ->
  keeps endpoint config.
Proof.
  unfold Api.generateApiConfig, keeps. intros (I & S & D) E.
  repeat split_match; inv E; cbn [instruction responseSchema Api.id];
    (split; [exact I|]; split; [exact S|]; intros T; specialize (D T);
     try exact D; rewrite D in *; congruence).
Qed.

Lemma tryBlock_keeps endpoint st r st1 :
  keeps endpoint (ex_endpoint st) -> tryBlock st = (r, st1) ->
  keeps endpoint (ex_endpoint st1).
Proof.
  unfold Api.tryBlock. intros K E.
  destruct ((0 <? retryCount st)%nat && isSelfHealingEnabled options).
  - destruct (generateApiConfig (ex_endpoint st) (retryCount st) (messages st))
      as [[[config msgs]|e] msgs1] eqn:G.
    + pose proof (generateApiConfig_keeps _ _ _ _ _ _ _ K G) as K1.
      cbn [ex_endpoint Api.retryCount] in E.
      repeat split_match; inv E; exact K1.
    + inv E. exact K.
  - cbn [ex_endpoint Api.retryCount] in E. repeat split_match; inv E; exact K.
Qed.

(** X17. However often the language model rewrites the endpoint, the one
    [executeApiCall] returns has the instruction and the response schema
    of the endpoint it was given, and its id when that was set. *)
Theorem repaired_endpoint_keeps_instruction endpoint result st log :
  executeApiCallTraced endpoint = Some (Ok result, st, log) ->
  instruction (out_endpoint result) = instruction endpoint /\
  responseSchema (out_endpoint result) = responseSchema endpoint /\
  (truthy_str (Api.id endpoint) = true ->
   Api.id (out_endpoint result) = Api.id endpoint).
Proof.
  unfold Api.executeApiCallTraced. intros E.
  destruct (execLoop (execFuel options) (initialExec endpoint) [])
    as [[st' log']|] eqn:L; [|discriminate].
  assert (K : keeps endpoint (ex_endpoint st')).
  { revert L. apply (execLoop_invariant (fun s => keeps endpoint (ex_endpoint s))).
    - intros s r s1 K T. eapply tryBlock_keeps; eassumption.
    - intros s e K. exact K.
    - intros s K. exact K.
    - repeat split; reflexivity. }
  unfold finishExec in E. destruct (negb (success st')); [discriminate|].
  inv E. exact K.
Qed.

(** X18. A response without data counts as a failure. When at most one
    attempt is allowed and [callEndpoint] returns data that is falsy,
    [executeApiCall] throws an [ApiCallError] that says so; it carries
    the status code of the response, or 500 when that is 0. *)
Theorem empty_data_is_failure endpoint r :
  @callEndpoint ext (remote 0) endpoint payload credentials options = Returns r ->
  truthy (res_data r) = false ->
  (retryLimit <= 1)%Z ->
  executeApiCall remote payload credentials options endpoint =
  Some (Throw (ApiCallError
                 ("API call failed after 1 retries. Last error: " ++
                  slice0 1000
                    (maskCredentials
                       "No data returned from API. This could be due to a configuration error."
                       (Some credentials)))
                 (if (res_statusCode r =? 0)%Z then Some 500%Z
                  else Some (res_statusCode r)))).
Proof.
  intros C D L. unfold executeApiCall, Api.executeApiCallTraced, execFuel.
  rewrite execLoop_step.
  assert (T : tryBlock (initialExec endpoint) =
              (Throw (Error "No data returned from API. This could be due to a configuration error."),
               {| ex_endpoint := endpoint;
                  response := Some {| box_data := res_data r;
                                      box_statusCode := Some (res_statusCode r);
                                      box_headers := Some (res_headers r) |};
                  retryCount := 0; lastError := None; messages := [];
                  success := false |})).
  { unfold Api.tryBlock, awaitCallEndpoint.
    cbn [initialExec Api.retryCount Nat.ltb Nat.leb andb ex_endpoint].
    rewrite C, D. reflexivity. }
  rewrite T. cbn [isAbortError]. rewrite retryCount_next.
  cbn [Api.retryCount].
  destruct (Z.ltb_spec (Z.of_nat 1) retryLimit) as [Q|Q]; [lia|].
  unfold finishExec, failureText, Api.catchBlock, bump, falsyStatus.
  cbn [success negb response box_statusCode Api.retryCount lastError].
  destruct (res_statusCode r =? 0)%Z; reflexivity.
Qed.

End Attempts.

(* ================================================================== *)
(** * More on the token endpoint                                      *)
(* ================================================================== *)

Lemma truthy_nonempty a b : b <> EmptyString -> truthy (VString (a ++ b)) = true.
Proof.
  intros N. destruct a as [|c a]; simpl; [|reflexivity].
  destruct b; [congruence | reflexivity].
Qed.

(** X19. [getOAuthTokenUrl] always has an answer: whatever the integration,
    the value it returns is truthy, so never an empty text. *)
Theorem getOAuthTokenUrl_truthy (integration : Integrations.Integration) :
  truthy (Integrations.getOAuthTokenUrl integration) = true.
Proof.
  unfold Integrations.getOAuthTokenUrl, Integrations.fallbackTokenUrl.
  destruct (truthy (get_opt (Integrations.credentials integration) "token_url")) eqn:T;
    [exact T|].
  assert (F : truthy (VString (Integrations.urlHost integration ++ "/oauth/token")) = true)
    by (apply truthy_nonempty; discriminate).
  destruct (find _ _) as [[key config]|]; [|exact F].
  destruct (Integrations.oauth config) as [o|]; [|exact F].
  destruct (Integrations.tokenUrl o) eqn:U; [exact F | reflexivity].
Qed.

(* ================================================================== *)
(** * The run log: reading, writing and deleting single runs          *)
(* ================================================================== *)

Section RunStore.

Import PostgresStore.

(** Rows with a given primary key. *)
Local Abbreviation at_key i o := (fun x : Row => (row_id x =? i) && (org_id x =? o)).

Lemma at_key_spec i o x :
  (row_id x =? i) && (org_id x =? o) = true <-> key x = (i, o).
Proof.
  unfold key. rewrite andb_true_iff, !String.eqb_eq. split.
  - intros [-> ->]. reflexivity.
  - intros E. inv E. auto.
Qed.

Lemma find_upsert_same r t :
  exists c,
    find (at_key (row_id r) (org_id r)) (upsert r t) =
    Some {| row_id := row_id r; config_id := c; org_id := org_id r;
            data := data r; started_at := started_at r;
            completed_at := completed_at r |}.
Proof.
  induction t as [|x t IH]; simpl.
  - rewrite !String.eqb_refl. simpl. destruct r. eauto.
  - destruct ((row_id x =? row_id r) && (org_id x =? org_id r)) eqn:M.
    + simpl. rewrite M. apply andb_true_iff in M. destruct M as [A B].
      apply String.eqb_eq in A, B. rewrite A, B. eauto.
    + simpl. rewrite M. exact IH.
Qed.

Lemma find_upsert_other i o r t :
  (row_id r =? i) && (org_id r =? o) = false ->
  find (at_key i o) (upsert r t) = find (at_key i o) t.
Proof.
  intros N. induction t as [|x t IH]; simpl.
  - rewrite N. reflexivity.
  - destruct ((row_id x =? row_id r) && (org_id x =? org_id r)) eqn:M.
    + simpl. apply andb_true_iff in M. destruct M as [A B].
      apply String.eqb_eq in A, B. rewrite A, B, N. reflexivity.
    + simpl. rewrite IH. reflexivity.
Qed.

Lemma find_filter_out {A : Type} (p q : A -> bool) l :
  (forall x, p x = true -> q x = false) ->
  find p (filter (fun x => negb (q x)) l) = find p l.
Proof.
  intros D. induction l as [|x l IH]; simpl; [reflexivity|].
  destruct (p x) eqn:P.
  - rewrite (D x P). simpl. rewrite P. reflexivity.
  - destruct (q x); simpl; [|rewrite P]; exact IH.
Qed.

Lemma find_filter_same {A : Type} (p q : A -> bool) l :
  (forall x, p x = q x) ->
  find p (filter (fun x => negb (q x)) l) = None.
Proof.
  intros D. induction l as [|x l IH]; simpl; [reflexivity|].
  destruct (q x) eqn:Q; simpl; [exact IH|]. rewrite D, Q. exact IH.
Qed.

(** X20. What is written is read back. After [createRun(run, orgId)],
    [getRun] answers with [run] for its id in that organisation (unless
    the id is empty, which [getRun] never looks up), and with what it
    answered before for every other id and organisation. As everywhere
    in this model of the store, the passage of [run] through the JSON
    text of the column [data] is taken to give [run] back. *)
Theorem createRun_getRun (run : RunResult) (orgId : option string) (t : Table)
    (i : string) (o : option string) :
  getRun i o (createRun run orgId t) =
  if (i =? id run) && (orgKey o =? orgKey orgId) && negb (i =? EmptyString)
  then Some run
  else getRun i o t.
Proof.
  unfold getRun, createRun, keyed.
  destruct (i =? EmptyString) eqn:Z; [rewrite andb_false_r; reflexivity|].
  rewrite andb_true_r.
  destruct ((i =? id run) && (orgKey o =? orgKey orgId)) eqn:M.
  - apply andb_true_iff in M. destruct M as [A B].
    apply String.eqb_eq in A, B. rewrite A, B.
    destruct (find_upsert_same
                {| row_id := id run; config_id := configId run; org_id := orgKey orgId;
                   data := run; started_at := startedAt run;
                   completed_at := completedAt run |} t) as (c & F).
    cbn [row_id org_id data started_at completed_at] in F. rewrite F.
    cbn [data]. destruct run. reflexivity.
  - rewrite find_upsert_other; [reflexivity|]. cbn [row_id org_id].
    rewrite (String.eqb_sym (id run)), (String.eqb_sym (orgKey orgId)). exact M.
Qed.

(** X21. After [deleteRun(id, orgId)], [getRun] finds nothing under that id
    in that organisation, and what it found before under every other
    id and in every other organisation. *)
Theorem deleteRun_getRun (j : string) (orgId : option string) (t : Table)
    (i : string) (o : option string) :
  getRun i o (deleteRun j orgId t) =
  if (i =? j) && (orgKey o =? orgKey orgId) then None else getRun i o t.
Proof.
  unfold getRun, deleteRun, keyed.
  destruct (i =? EmptyString) eqn:Z.
  { destruct ((i =? j) && _); reflexivity. }
  destruct ((i =? j) && (orgKey o =? orgKey orgId)) eqn:M.
  - apply andb_true_iff in M. destruct M as [A B].
    apply String.eqb_eq in A, B. subst j. rewrite Z, B.
    rewrite find_filter_same; [reflexivity|]. reflexivity.
  - destruct (j =? EmptyString); [reflexivity|].
    rewrite find_filter_out; [reflexivity|].
    intros x P. apply andb_true_iff in P. destruct P as [A B].
    apply String.eqb_eq in A, B. rewrite A, B. exact M.
Qed.

(** X22. [deleteRun] reports a deletion exactly when [getRun] had a run to
    show under that id. *)
Theorem deleteRun_reports (i : string) (orgId : option string) (t : Table) :
  deleteRun_returns i orgId t = true <-> getRun i orgId t <> None.
Proof.
  unfold deleteRun_returns, getRun.
  destruct (i =? EmptyString); [split; congruence|].
  induction t as [|x t IH]; simpl; [split; [discriminate | congruence]|].
  destruct (keyed i orgId x); simpl; [split; [discriminate | reflexivity]|].
  exact IH.
Qed.

(** ** The primary key *)

Lemma upsert_keys r t k :
  In k (map key (upsert r t)) -> k = key r \/ In k (map key t).
Proof.
  induction t as [|x t IH]; simpl.
  - intros [<-|[]]. auto.
  - destruct ((row_id x =? row_id r) && (org_id x =? org_id r)); simpl.
    + intros [<-|I]; auto.
    + intros [<-|I]; auto. destruct (IH I); auto.
Qed.

Lemma upsert_NoDup r t : NoDup (map key t) -> NoDup (map key (upsert r t)).
Proof.
  induction t as [|x t IH]; simpl; intros N.
  - constructor; [intros [] | constructor].
  - inversion N as [|? ? Nx Nt]; subst.
    destruct ((row_id x =? row_id r) && (org_id x =? org_id r)) eqn:M; simpl.
    + exact N.
    + constructor; [|apply IH; exact Nt].
      intros I. apply upsert_keys in I. destruct I as [E|I]; [|exact (Nx I)].
      pose proof (proj2 (at_key_spec (row_id r) (org_id r) x) E). congruence.
Qed.

Lemma filter_NoDup {A B : Type} (g : A -> B) (f : A -> bool) l :
  NoDup (map g l) -> NoDup (map g (filter f l)).
Proof.
  induction l as [|x l IH]; simpl; intros N; [constructor|].
  inversion N as [|? ? Nx Nl]; subst.
  destruct (f x); simpl; [|apply IH; exact Nl].
  constructor; [|apply IH; exact Nl].
  intros I. apply Nx. apply in_map_iff in I. destruct I as (y & E & I).
  apply filter_In in I. apply in_map_iff. exists y. tauto.
Qed.

(** No two rows of the store have the same id and organisation. *)
Lemma Reachable_keys t : Reachable t -> NoDup (map key t).
Proof.
  induction 1 as [|run orgId t _ IH|i orgId t _ IH|orgId t _ IH].
  - constructor.
  - apply upsert_NoDup. exact IH.
  - unfold deleteRun. destruct (i =? EmptyString); [exact IH|].
    apply filter_NoDup. exact IH.
  - apply filter_NoDup. exact IH.
Qed.

Lemma ids_NoDup o l :
  Forall (fun x => org_id x = o) l -> NoDup (map key l) -> NoDup (map row_id l).
Proof.
  induction 1 as [|x l Ox Ol IH]; simpl; intros N; [constructor|].
  inversion N as [|? ? Nx Nl]; subst.
  constructor; [|apply IH; exact Nl].
  intros I. apply Nx. apply in_map_iff in I. destruct I as (y & E & I).
  apply in_map_iff. exists y. split; [|exact I].
  rewrite Forall_forall in Ol. unfold key. rewrite E, (Ol y I). reflexivity.
Qed.

(** X23. [listRuns] never lists a run twice: the ids of the items of a page
    are pairwise different. *)
Theorem listRuns_ids_unique (t : Table) (limit offset : option Z)
    (configId orgId : option string) (page : RunList) :
  Reachable t ->
  listRuns limit offset configId orgId t = Ok page ->
  NoDup (map id (items page)).
Proof.
  intros R E. unfold listRuns in E.
  destruct (orDefault limit 10 <? 0)%Z; [discriminate|].
  destruct (orDefault offset 0 <? 0)%Z; [discriminate|].
  inv E. cbn [items]. rewrite map_map. cbn [toItem id].
  set (m := filter (selected configId orgId) t).
  assert (N : NoDup (map row_id (order_by_started_at_desc m))).
  { eapply Permutation_NoDup.
    - apply Permutation_map. symmetry. apply order_by_perm.
    - apply (ids_NoDup (orgKey orgId)).
      + apply Forall_forall. intros x I. apply filter_In in I.
        destruct I as [_ S]. unfold selected in S.
        apply andb_true_iff in S. destruct S as [S _].
        apply String.eqb_eq in S. exact S.
      + apply filter_NoDup. apply Reachable_keys. exact R. }
  rewrite <- (firstn_skipn (Z.to_nat (orDefault offset 0))
                (order_by_started_at_desc m)) in N.
  rewrite map_app in N. apply NoDup_app_remove_l in N.
  rewrite <- (firstn_skipn (Z.to_nat (orDefault limit 10))
                (skipn _ (order_by_started_at_desc m))) in N.
  rewrite map_app in N. apply NoDup_app_remove_r in N. exact N.
Qed.

Lemma upsert_length_In r t x :
  NoDup (map key t) -> In x t -> key x = key r ->
  In {| row_id := row_id r; config_id := config_id x; org_id := org_id r;
        data := data r; started_at := started_at r;
        completed_at := completed_at r |} (upsert r t) /\
  List.length (upsert r t) = List.length t.
Proof.
  intros N I K. induction t as [|y t IH]; [destruct I|].
  inversion N as [|? ? Ny Nt]; subst. simpl.
  destruct ((row_id y =? row_id r) && (org_id y =? org_id r)) eqn:M.
  - split; [|reflexivity]. left.
    apply at_key_spec in M. destruct I as [->|I].
    + unfold key in K. inv K. reflexivity.
    + exfalso. apply Ny. apply in_map_iff. exists x.
      split; [unfold key in *; congruence | exact I].
  - destruct I as [->|I].
    + pose proof (proj2 (at_key_spec (row_id r) (org_id r) x) K). congruence.
    + destruct (IH Nt I) as [J L]. split; [right; exact J|]. simpl. rewrite L.
      reflexivity.
Qed.

(** X24. Writing a run again under an id the organisation already has
    replaces its data and its dates but leaves the column [config_id]
    as the first write set it: the run stays listed under the
    configuration it was first stored with. No row is added. *)
Theorem recreated_run_keeps_config_id (run : RunResult) (orgId : option string)
    (t : Table) (x : Row) :
  Reachable t ->
  In x t -> row_id x = id run -> org_id x = orgKey orgId ->
  In {| row_id := id run; config_id := config_id x; org_id := orgKey orgId;
        data := run; started_at := startedAt run;
        completed_at := completedAt run |} (createRun run orgId t) /\
  List.length (createRun run orgId t) = List.length t.
Proof.
  intros R I A B. unfold createRun.
  apply (upsert_length_In
           {| row_id := id run; config_id := configId run; org_id := orgKey orgId;
              data := run; started_at := startedAt run;
              completed_at := completedAt run |} t x (Reachable_keys t R) I).
  unfold key. cbn [row_id org_id]. rewrite A, B. reflexivity.
Qed.

(** ** Organisations *)

Lemma filter_upsert_other (p : Row -> bool) r t :
  (forall x, org_id x = org_id r -> p x = false) ->
  filter p (upsert r t) = filter p t.
Proof.
  intros N. induction t as [|x t IH]; simpl.
  - rewrite (N r eq_refl). reflexivity.
  - destruct ((row_id x =? row_id r) && (org_id x =? org_id r)) eqn:M; simpl.
    + apply andb_true_iff in M. destruct M as [_ B]. apply String.eqb_eq in B.
      rewrite (N x B). rewrite N; [reflexivity | exact B].
    + rewrite IH. reflexivity.
Qed.

Lemma filter_filter_out {A : Type} (p q : A -> bool) l :
  (forall x, p x = true -> q x = false) ->
  filter p (filter (fun x => negb (q x)) l) = filter p l.
Proof.
  intros D. induction l as [|x l IH]; simpl; [reflexivity|].
  destruct (p x) eqn:P.
  - rewrite (D x P). simpl. rewrite P, IH. reflexivity.
  - destruct (q x); simpl; [|rewrite P]; exact IH.
Qed.

Lemma selected_org c o x : selected c o x = true -> org_id x = orgKey o.
Proof.
  unfold selected. intros S. apply andb_true_iff in S. destruct S as [S _].
  apply String.eqb_eq in S. exact S.
Qed.

Lemma listRuns_same limit offset c o t t' :
  filter (selected c o) t' = filter (selected c o) t ->
  listRuns limit offset c o t' = listRuns limit offset c o t.
Proof. unfold listRuns. intros ->. reflexivity. Qed.

(** X25. What one organisation writes or deletes never shows in what another
    reads: [createRun], [deleteRun] and [deleteAllRuns] on behalf of
    organisation [a] leave every answer of [listRuns] and [getRun] for
    organisation [b] as it was. *)
Theorem organisations_isolated (a b : option string) (t t' : Table)
    (run : RunResult) (i : string) :
  orgKey a <> orgKey b ->
  t' = createRun run a t \/ t' = deleteRun i a t \/ t' = deleteAllRuns a t ->
  (forall limit offset c, listRuns limit offset c b t' = listRuns limit offset c b t) /\
  (forall j, getRun j b t' = getRun j b t).
Proof.
  intros D [->|[->| ->]].
  - split.
    + intros limit offset c. apply listRuns_same. unfold createRun.
      apply filter_upsert_other. cbn [org_id]. intros x O.
      unfold selected. rewrite O.
      destruct (String.eqb_spec (orgKey a) (orgKey b)); [contradiction|reflexivity].
    + intros j. unfold getRun, createRun, keyed.
      rewrite find_upsert_other; [reflexivity|]. cbn [row_id org_id].
      destruct (String.eqb_spec (orgKey a) (orgKey b)); [contradiction|].
      apply andb_false_r.
  - unfold deleteRun. destruct (i =? EmptyString); [split; reflexivity|]. split.
    + intros limit offset c. apply listRuns_same. apply filter_filter_out.
      intros x S. apply selected_org in S. rewrite S.
      destruct (String.eqb_spec (orgKey b) (orgKey a)); [congruence|].
      apply andb_false_r.
    + intros j. unfold getRun, keyed. rewrite find_filter_out; [reflexivity|].
      intros x P. apply andb_true_iff in P. destruct P as [_ B].
      apply String.eqb_eq in B. rewrite B.
      destruct (String.eqb_spec (orgKey b) (orgKey a)); [congruence|].
      apply andb_false_r.
  - unfold deleteAllRuns. split.
    + intros limit offset c. apply listRuns_same. apply filter_filter_out.
      intros x S. apply selected_org in S. rewrite S.
      destruct (String.eqb_spec (orgKey b) (orgKey a)); [congruence | reflexivity].
    + intros j. unfold getRun, keyed. rewrite find_filter_out; [reflexivity|].
      intros x P. apply andb_true_iff in P. destruct P as [_ B].
      apply String.eqb_eq in B. rewrite B.
      destruct (String.eqb_spec (orgKey b) (orgKey a)); [congruence | reflexivity].
Qed.

End RunStore.

(* ================================================================== *)
(** * Reading many workflows at once                                  *)
(* ================================================================== *)

Lemma lookup_set_same k v o : lookup k (set k v o) = Some v.
Proof.
  induction o as [|[k' v'] o IH]; simpl.
  - rewrite String.eqb_refl. reflexivity.
  - destruct (k' =? k) eqn:E; simpl; [rewrite String.eqb_refl; reflexivity|].
    rewrite E. exact IH.
Qed.

Lemma lookup_set_other k k' v o : k' <> k -> lookup k (set k' v o) = lookup k o.
Proof.
  intros N. induction o as [|[k0 v0] o IH]; simpl.
  - destruct (String.eqb_spec k' k); [contradiction | reflexivity].
  - destruct (String.eqb_spec k0 k') as [->|D]; simpl.
    + destruct (String.eqb_spec k' k); [contradiction | reflexivity].
    + destruct (k0 =? k); [reflexivity | exact IH].
Qed.

Lemma set_fresh k v o : ~ In k (map fst o) -> set k v o = (o ++ [(k, v)])%list.
Proof.
  induction o as [|[k0 v0] o IH]; simpl; intros F; [reflexivity|].
  destruct (String.eqb_spec k0 k) as [->|D]; [tauto|].
  rewrite IH; [reflexivity | tauto].
Qed.

(** Spreading an object into an empty one copies it. *)
Lemma spread_copy d :
  forall a, NoDup (map fst d) ->
            (forall k, In k (map fst a) -> ~ In k (map fst d)) ->
            spread a d = (a ++ d)%list.
Proof.
  unfold spread. induction d as [|[k v] d IH]; intros a N F; simpl.
  - rewrite app_nil_r. reflexivity.
  - inversion N as [|? ? Nk Nd]; subst.
    rewrite set_fresh.
    + rewrite IH.
      * rewrite <- app_assoc. reflexivity.
      * exact Nd.
      * intros k0 I. rewrite map_app, in_app_iff in I. simpl in I.
        destruct I as [I|[<-|[]]]; [|exact Nk].
        intros J. apply (F k0 I). right. exact J.
    + intros I. apply (F k I). left. reflexivity.
Qed.

(** X26. [getManyWorkflows] selects the column [data] alone, so [row.id] is
    undefined for every row of the result. Each workflow it returns is
    the data of a row stored for the organisation, of type [workflow]
    and under one of the ids asked for, with every property as it is
    stored, except that [id] is set to [undefined]. *)
Theorem getManyWorkflows_ids_undefined (ids : list string) (orgId : option string)
    (t : list PostgresStore.ConfigRow) (w : value) :
  (forall r, In r t -> NoDup (map fst (PostgresStore.cfg_data r))) ->
  In w (PostgresStore.getManyWorkflows ids orgId t) ->
  exists r, In r t /\
            PostgresStore.cfg_type r = PostgresStore.workflow /\
            In (PostgresStore.cfg_id r) ids /\
            PostgresStore.cfg_org_id r = PostgresStore.orgKey orgId /\
            w = VObject (set "id" VUndefined (PostgresStore.cfg_data r)) /\
            own_property w "id" = VUndefined /\
            forall k, k <> "id" ->
                      own_property w k =
                      own_property (VObject (PostgresStore.cfg_data r)) k.
Proof.
  unfold PostgresStore.getManyWorkflows, PostgresStore.select_data. intros Obj I.
  apply in_map_iff in I. destruct I as (row & <- & I).
  apply in_map_iff in I. destruct I as (r & <- & I).
  apply filter_In in I. destruct I as [I S].
  exists r. split; [exact I|].
  apply andb_true_iff in S. destruct S as [S O].
  apply andb_true_iff in S. destruct S as [A T].
  apply existsb_exists in A. destruct A as (i & Ii & E).
  apply String.eqb_eq in E, O. subst i.
  split; [destruct (PostgresStore.cfg_type r); (reflexivity || discriminate)|].
  split; [exact Ii|]. split; [exact O|].
  assert (W : VObject (spread (spread [] (PostgresStore.properties
                                            (own_property
                                               (VObject [("data", VObject (PostgresStore.cfg_data r))])
                                               "data")))
                              [("id", own_property
                                        (VObject [("data", VObject (PostgresStore.cfg_data r))])
                                        "id")]) =
              VObject (set "id" VUndefined (PostgresStore.cfg_data r))).
  { cbn [own_property lookup PostgresStore.properties].
    replace ("data" =? "data") with true by reflexivity.
    replace ("data" =? "id") with false by reflexivity.
    cbn [PostgresStore.properties].
    rewrite (spread_copy _ [] (Obj r I)); [|intros k []].
    reflexivity. }
  rewrite W. split; [reflexivity|]. split.
  - cbn [own_property]. rewrite lookup_set_same. reflexivity.
  - intros k N. cbn [own_property]. rewrite lookup_set_other; [reflexivity|].
    congruence.
Qed.

(* ================================================================== *)
(** * The tenant record                                               *)
(* ================================================================== *)

Section Tenant.

Import PostgresStore.



End Tenant.

(* ================================================================== *)
(** * The request the Anthropic model is sent                         *)
(* ================================================================== *)

Section Conversation.

Import AnthropicModel.

Lemma join_merge s c cs :
  join blank ((s ++ blank ++ c) :: cs) = join blank (s :: c :: cs).
Proof.
  destruct cs as [|x r]; [reflexivity|].
  cbn [join]. rewrite !append_assoc. reflexivity.
Qed.

Lemma isTurn_not_system m : isTurn m = true -> isSystem m = false.
Proof.
  unfold isTurn, isSystem. intros T. apply orb_true_iff in T.
  destruct T as [T|T]; apply String.eqb_eq in T; rewrite T; reflexivity.
Qed.

Lemma convert_turns l :
  forall acc,
    anthropicMessages (fold_left convertStep l acc) =
    (anthropicMessages acc ++ filter isTurn l)%list.
Proof.
  induction l as [|m l IH]; intros acc; simpl; [rewrite app_nil_r; reflexivity|].
  rewrite IH. unfold convertStep, isTurn.
  destruct (role m =? "system") eqn:S.
  - apply String.eqb_eq in S. rewrite S. reflexivity.
  - destruct ((role m =? "user") || (role m =? "assistant")); [|reflexivity].
    cbn [anthropicMessages]. rewrite <- app_assoc. destruct m. reflexivity.
Qed.

Lemma convert_system_going l :
  forall acc,
    system acc <> EmptyString ->
    system (fold_left convertStep l acc) =
    join blank (system acc :: map content (filter isSystem l)).
Proof.
  induction l as [|m l IH]; intros acc N; [reflexivity|].
  cbn [fold_left filter]. unfold convertStep at 2, isSystem at 1.
  destruct (role m =? "system") eqn:S.
  - rewrite IH; cbn [system].
    + destruct (system acc =? EmptyString) eqn:Q;
        [apply String.eqb_eq in Q; contradiction|].
      cbn [map]. apply join_merge.
    + destruct (system acc); [contradiction | discriminate].
  - destruct ((role m =? "user") || (role m =? "assistant"));
      rewrite IH; try exact N; reflexivity.
Qed.

Lemma convert_system_start l :
  forall acc,
    system acc = EmptyString ->
    system (fold_left convertStep l acc) =
    join blank (dropEmpty (map content (filter isSystem l))).
Proof.
  induction l as [|m l IH]; intros acc E; [exact E|].
  cbn [fold_left filter]. unfold convertStep at 2, isSystem at 1.
  destruct (role m =? "system") eqn:S.
  - cbn [map]. destruct (content m) as [|c r] eqn:C.
    + cbn [dropEmpty]. apply IH. cbn [system]. rewrite E. reflexivity.
    + rewrite convert_system_going; cbn [system]; rewrite E; [reflexivity|].
      discriminate.
  - destruct ((role m =? "user") || (role m =? "assistant"));
      rewrite IH; try exact E; reflexivity.
Qed.

(** X28. [convertToAnthropicFormat] in closed form. The messages of the
    request are the user and assistant messages of the conversation, in
    their order; messages of any other role are left out. The system
    text is made of the contents of the system messages, in their
    order and separated by blank lines, without the empty contents that
    come before the first one that is not empty. *)
Theorem convertToAnthropicFormat_closed_form (messages : list Message) :
  anthropicMessages (convertToAnthropicFormat messages) = filter isTurn messages /\
  system (convertToAnthropicFormat messages) =
  join blank (dropEmpty (map content (filter isSystem messages))).
Proof.
  unfold convertToAnthropicFormat. split.
  - rewrite convert_turns. reflexivity.
  - apply convert_system_start. reflexivity.
Qed.

Lemma lastUserIdx_found l1 u l2 :
  role u = "user" ->
  Forall (fun m => role m <> "user") l2 ->
  forall k, (k <= List.length l2)%nat ->
    lastUserIdx (List.length l1 + S k) (l1 ++ u :: l2) = Some (List.length l1).
Proof.
  intros U F. induction k as [|k IH]; intros L.
  - rewrite Nat.add_1_r. cbn [lastUserIdx].
    rewrite nth_error_app2, Nat.sub_diag; [|lia]. cbn [nth_error].
    rewrite U. reflexivity.
  - rewrite Nat.add_succ_r. cbn [lastUserIdx].
    rewrite nth_error_app2; [|lia].
    replace (List.length l1 + S k - List.length l1)%nat with (S k) by lia.
    cbn [nth_error]. destruct (nth_error l2 k) as [m|] eqn:E.
    + rewrite Forall_forall in F. specialize (F m (nth_error_In _ _ E)).
      apply String.eqb_neq in F. rewrite F. apply IH. lia.
    + apply IH. lia.
Qed.

Lemma appendContent_at text l1 u l2 :
  appendContent (List.length l1) text (l1 ++ u :: l2) =
  (l1 ++ {| Api.role := role u; Api.content := content u ++ text |} :: l2)%list.
Proof.
  induction l1 as [|m l1 IH]; simpl; [reflexivity|]. rewrite IH. reflexivity.
Qed.

(** X29. [generateObject] puts the schema instruction at the end of the last
    user message of the request and nowhere else: the messages before
    and after it go out as they are. *)
Theorem schema_instruction_on_last_user (schemaInstruction : string)
    (messages l1 l2 : list Message) (u : Message) :
  filter isTurn messages = (l1 ++ u :: l2)%list ->
  role u = "user" ->
  Forall (fun m => role m <> "user") l2 ->
  withSchemaInstruction schemaInstruction messages =
  (l1 ++ {| Api.role := role u; Api.content := content u ++ schemaInstruction |}
      :: l2)%list.
Proof.
  intros T U F. unfold withSchemaInstruction, convertToAnthropicFormat.
  rewrite convert_turns. cbn [anthropicMessages app]. rewrite T.
  replace (List.length (l1 ++ u :: l2)) with (List.length l1 + S (List.length l2))%nat
    by (rewrite length_app; reflexivity).
  rewrite (lastUserIdx_found l1 u l2 U F); [|apply le_n].
  apply appendContent_at.
Qed.

End Conversation.

(* ================================================================== *)
(** * The further properties at work on concrete runs                 *)
(* ================================================================== *)

Section Scenarios.

Import Doubles.

Lemma failed_response_throws_witness :
  exists msg,
    fst (@callEndpointTraced plain notFound (itemsEndpoint PAGE_BASED None)
           [] [] noOptions) = Throws (ApiCallError msg (Some 404%Z)) /\
    prefix "API call failed with status 404" msg = true.
Proof.
  edestruct (@failed_response_throws plain notFound (itemsEndpoint PAGE_BASED None)
               [] [] noOptions initialState []) as (E & P).
  - apply Reaches_start.
  - vm_compute; reflexivity.
  - vm_compute; reflexivity.
  - vm_compute; reflexivity.
  - right; left. vm_compute; reflexivity.
  - rewrite E. eexists. split; [reflexivity | exact P].
Defined.

Lemma html_response_throws_witness :
  exists msg,
    fst (@callEndpointTraced plain (serving [errorPage]) tokenEndpoint
           [] secrets noOptions) = Throws (ApiCallError msg (Some 200%Z)) /\
    prefix "Received HTML response instead of expected JSON data from " msg = true.
Proof.
  edestruct (@html_response_throws plain (serving [errorPage]) tokenEndpoint
               [] secrets noOptions initialState []) as (msg & E & P).
  - apply Reaches_start.
  - vm_compute; reflexivity.
  - vm_compute; reflexivity.
  - vm_compute; reflexivity.
  - vm_compute; reflexivity.
  - reflexivity.
  - vm_compute; reflexivity.
  - rewrite E. exists msg. split; [reflexivity | exact P].
Defined.

Lemma null_body_with_dataPath_throws_witness :
  exists m,
    fst (@callEndpointTraced plain (serving [VNull]) cursorEndpoint [] [] noOptions) =
    Throws (TypeError m).
Proof.
  edestruct (@null_body_with_dataPath_throws plain (serving [VNull]) cursorEndpoint
               [] [] noOptions initialState []) as (m & E).
  - apply Reaches_start.
  - vm_compute; reflexivity.
  - vm_compute; reflexivity.
  - vm_compute; reflexivity.
  - vm_compute. split; discriminate.
  - reflexivity.
  - reflexivity.
  - exists m. rewrite E. reflexivity.
Defined.

Lemma pages_accumulated_witness :
  exists st e,
    @Reaches plain repeating (itemsEndpoint PAGE_BASED None) [] [] noOptions st [e] /\
    allResults st = elements (ex_page e) /\
    isArray (ex_page e) = true.
Proof.
  assert (R : exists st e,
            @Reaches plain repeating (itemsEndpoint PAGE_BASED None) [] [] noOptions
              st [e] /\ hasMore st = true).
  { eexists. eexists. split.
    - eapply Reaches_step with (st := initialState) (exs := []);
        [apply Reaches_start | vm_compute; reflexivity ..].
    - vm_compute; reflexivity. }
  destruct R as (st & e & R & M). exists st, e. split; [exact R|].
  destruct (@pages_accumulated plain repeating (itemsEndpoint PAGE_BASED None)
              [] [] noOptions st [e] eq_refl R M) as (A & F & _).
  split.
  - rewrite A. simpl. apply app_nil_r.
  - inversion F; assumption.
Defined.

Lemma short_page_ends_run_witness :
  exists st',
    @callEndpointTraced plain (serving [VArray [item 1]]) (itemsEndpoint PAGE_BASED None)
      [] [] noOptions =
    (Returns {| res_data := resultData (itemsEndpoint PAGE_BASED None) st';
                res_statusCode := 200; res_headers := [] |},
     [ {| ax_method := Some "GET"; ax_url := "https://api.example.com/items";
          ax_headers := []; ax_data := EmptyString; ax_params := [];
          ax_timeout := 60000 |} ]) /\
    allResults st' = [item 1].
Proof.
  edestruct (@short_page_ends_run plain (serving [VArray [item 1]])
               (itemsEndpoint PAGE_BASED None) [] [] noOptions initialState [])
    as (st' & E & A).
  - reflexivity.
  - apply Reaches_start.
  - vm_compute; reflexivity.
  - vm_compute; reflexivity.
  - vm_compute; reflexivity.
  - vm_compute; reflexivity.
  - constructor.
  - vm_compute; reflexivity.
  - exists st'. split; [exact E | exact A].
Defined.

Lemma non_array_ends_run_witness :
  exists st',
    fst (@callEndpointTraced plain (serving [single]) (itemsEndpoint PAGE_BASED None)
           [] [] noOptions) =
    Returns {| res_data := resultData (itemsEndpoint PAGE_BASED None) st';
               res_statusCode := 200; res_headers := [] |} /\
    allResults st' = [single].
Proof.
  edestruct (@non_array_ends_run plain (serving [single])
               (itemsEndpoint PAGE_BASED None) [] [] noOptions initialState [])
    as (st' & E & A).
  - reflexivity.
  - apply Reaches_start.
  - vm_compute; reflexivity.
  - vm_compute; reflexivity.
  - vm_compute; reflexivity.
  - vm_compute; reflexivity.
  - reflexivity.
  - exists st'. split; [rewrite E; reflexivity | exact A].
Defined.

Lemma position_after_exchanges_witness :
  exists st e1 e2,
    @Reaches plain repeating (itemsEndpoint OFFSET_BASED None) [] [] noOptions
      st [e1; e2] /\
    page st = 1%Z /\ offset st = Int 4.
Proof.
  assert (R : exists st e1 e2,
            @Reaches plain repeating (itemsEndpoint OFFSET_BASED None) [] [] noOptions
              st [e1; e2]).
  { do 3 eexists.
    eapply Reaches_step with (exs := [_]);
      [eapply Reaches_step with (st := initialState) (exs := []);
         [apply Reaches_start | vm_compute; reflexivity ..]
      | vm_compute; reflexivity ..]. }
  destruct R as (st & e1 & e2 & R). exists st, e1, e2. split; [exact R|].
  apply (@position_after_exchanges plain repeating (itemsEndpoint OFFSET_BASED None)
           [] [] noOptions st [e1; e2] 2%Z R).
  - vm_compute; reflexivity.
  - intros _. split; [vm_compute; reflexivity | vm_compute; discriminate].
Defined.

Lemma missing_cursor_ends_run_witness :
  fst (@callEndpointTraced plain (serving [single]) (itemsEndpoint CURSOR_BASED None)
         [] [] noOptions) =
  Returns {| res_data := VObject [("next_cursor", VNull); ("results", VArray [single])];
             res_statusCode := 200; res_headers := [] |}.
Proof.
  etransitivity.
  - apply f_equal.
    eapply (@missing_cursor_ends_run plain (serving [single])
              (itemsEndpoint CURSOR_BASED None) [] [] noOptions) with (exs := []).
    + reflexivity.
    + eapply Reaches_step with (st := initialState) (exs := []);
        [apply Reaches_start | vm_compute; reflexivity ..].
    + vm_compute; reflexivity.
  - vm_compute; reflexivity.
Defined.

Lemma empty_first_pages_rejected_witness :
  exists msg,
    fst (@callEndpointTraced plain silent (itemsEndpoint PAGE_BASED (Some "false"))
           [] [] noOptions) = Throws (Error msg) /\
    prefix "Stop condition error: The API returned no data on the first request"
           msg = true.
Proof.
  edestruct (@empty_first_pages_rejected plain silent
               (itemsEndpoint PAGE_BASED (Some "false")) [] [] noOptions) as (E & M).
  - reflexivity.
  - eapply Reaches_step with (st := initialState) (exs := []);
      [apply Reaches_start | vm_compute; reflexivity ..].
  - vm_compute; reflexivity.
  - vm_compute; reflexivity.
  - vm_compute; reflexivity.
  - vm_compute; reflexivity.
  - reflexivity.
  - reflexivity.
  - rewrite E. eexists. split; [reflexivity | exact M].
Defined.

Lemma stop_condition_ends_run_witness :
  exists st',
    fst (@callEndpointTraced stopping stuck (itemsEndpoint PAGE_BASED (Some "true"))
           [] [] noOptions) =
    Returns {| res_data := resultData (itemsEndpoint PAGE_BASED (Some "true")) st';
               res_statusCode := 200; res_headers := [] |} /\
    allResults st' = [item 1].
Proof.
  edestruct (@stop_condition_ends_run stopping stuck
               (itemsEndpoint PAGE_BASED (Some "true")) [] [] noOptions)
    as (st' & E & A).
  - reflexivity.
  - vm_compute; reflexivity.
  - vm_compute; reflexivity.
  - vm_compute; reflexivity.
  - vm_compute; reflexivity.
  - vm_compute; reflexivity.
  - reflexivity.
  - reflexivity.
  - exists st'. split; [rewrite E; reflexivity | exact A].
Defined.

Lemma repeated_page_with_stop_condition_witness :
  exists st',
    fst (@callEndpointTraced plain stuck (itemsEndpoint PAGE_BASED (Some "false"))
           [] [] noOptions) =
    Returns {| res_data := resultData (itemsEndpoint PAGE_BASED (Some "false")) st';
               res_statusCode := 200; res_headers := [] |} /\
    allResults st' = [item 1; item 2; item 2].
Proof.
  edestruct (@repeated_page_with_stop_condition plain stuck
               (itemsEndpoint PAGE_BASED (Some "false")) [] [] noOptions)
    with (exs := @nil Exchange) as (st' & E & A).
  - reflexivity.
  - eapply Reaches_step with (exs := [_]);
      [eapply Reaches_step with (st := initialState) (exs := []);
         [apply Reaches_start | vm_compute; reflexivity ..]
      | vm_compute; reflexivity ..].
  - vm_compute; reflexivity.
  - vm_compute; reflexivity.
  - vm_compute; reflexivity.
  - vm_compute; reflexivity.
  - reflexivity.
  - exists st'. split; [rewrite E; reflexivity | exact A].
Defined.

Lemma sent_entries_filtered_witness :
  exists s, VString "Bearer s3cr3t" = VString s /\
            s <> EmptyString /\ s <> "undefined" /\ s <> "null".
Proof.
  eapply (@sent_entries_filtered plain tokenEndpoint [] secrets noOptions
            initialState _ "Authorization" (VString "Bearer s3cr3t")).
  - vm_compute; reflexivity.
  - right. vm_compute. left. reflexivity.
Defined.

Lemma first_attempt_returns_witness :
  exists st,
    @executeApiCallTraced plain (stubborn tokenEndpoint) (fun _ => repeating)
      [] [] (withRetries 3) (itemsEndpoint PAGE_BASED None) =
    Some (Ok {| out_data := VArray [item 1; item 2];
                out_endpoint := itemsEndpoint PAGE_BASED None;
                out_statusCode := Some 200%Z;
                out_headers := Some [] |},
          st, [ {| at_retryCount := 0; at_error := None |} ]) /\
    messages st = [].
Proof.
  eapply (@first_attempt_returns plain (stubborn tokenEndpoint) (fun _ => repeating)
            [] [] (withRetries 3) (itemsEndpoint PAGE_BASED None)
            {| res_data := VArray [item 1; item 2]; res_statusCode := 200;
               res_headers := [] |}).
  - vm_compute; reflexivity.
  - reflexivity.
Defined.

Lemma attempts_in_order_witness :
  exists r st log,
    @executeApiCallTraced plain (stubborn tokenEndpoint) echoing [] secrets
      (withRetries 2) tokenEndpoint = Some (r, st, log) /\
    map at_retryCount log = seq 0 (List.length log).
Proof.
  assert (E : exists r st log,
            @executeApiCallTraced plain (stubborn tokenEndpoint) echoing [] secrets
              (withRetries 2) tokenEndpoint = Some (r, st, log)).
  { do 3 eexists. vm_compute; reflexivity. }
  destruct E as (r & st & log & E). exists r, st, log. split; [exact E|].
  destruct (@attempts_in_order plain (stubborn tokenEndpoint) echoing [] secrets
              (withRetries 2) tokenEndpoint r st log E) as (more & a & _ & _ & N).
  exact N.
Defined.

Lemma endpoint_kept_without_self_healing_witness :
  exists r st log,
    @executeApiCallTraced plain disabled echoing [] secrets
      (withRetries 3) tokenEndpoint = Some (r, st, log) /\
    ex_endpoint st = tokenEndpoint /\
    Forall fixRequest (messages st).
Proof.
  assert (E : exists r st log,
            @executeApiCallTraced plain disabled echoing [] secrets
              (withRetries 3) tokenEndpoint = Some (r, st, log)).
  { do 3 eexists. vm_compute; reflexivity. }
  destruct E as (r & st & log & E). exists r, st, log. split; [exact E|].
  destruct (@endpoint_kept_without_self_healing plain disabled echoing [] secrets
              (withRetries 3) tokenEndpoint r st log eq_refl E) as (K & _ & F).
  split; [exact K | exact F].
Defined.

Lemma repaired_endpoint_keeps_instruction_witness :
  exists result st log,
    @executeApiCallTraced plain (helpful repairedEndpoint) recovering [] secrets
      (withRetries 3) tokenEndpoint = Some (Ok result, st, log) /\
    urlPath (out_endpoint result) = Some "/v2/items" /\
    instruction (out_endpoint result) = Some "list the items" /\
    Api.id (out_endpoint result) = Some "items".
Proof.
  assert (E : exists result st log,
            @executeApiCallTraced plain (helpful repairedEndpoint) recovering [] secrets
              (withRetries 3) tokenEndpoint = Some (Ok result, st, log) /\
            urlPath (out_endpoint result) = Some "/v2/items").
  { do 3 eexists. split; vm_compute; reflexivity. }
  destruct E as (result & st & log & E & U). exists result, st, log.
  split; [exact E|]. split; [exact U|].
  destruct (@repaired_endpoint_keeps_instruction plain (helpful repairedEndpoint)
              recovering [] secrets (withRetries 3) tokenEndpoint result st log E)
    as (I & _ & D).
  split; [exact I | apply D; reflexivity].
Defined.

Lemma empty_data_is_failure_witness :
  @executeApiCall plain disabled empty [] secrets (withRetries 1) tokenEndpoint =
  Some (Throw (ApiCallError
                 "API call failed after 1 retries. Last error: No data returned from API. This could be due to a configuration error."
                 (Some 200%Z))).
Proof.
  etransitivity.
  - eapply (@empty_data_is_failure plain disabled empty [] secrets (withRetries 1)
              tokenEndpoint
              {| res_data := VNumber (Int 0); res_statusCode := 200;
                 res_headers := [] |}).
    + vm_compute; reflexivity.
    + reflexivity.
    + vm_compute; discriminate.
  - vm_compute; reflexivity.
Defined.

Lemma listRuns_ids_unique_witness :
  exists page,
    PostgresStore.listRuns (Some 10%Z) None None None runs = Ok page /\
    NoDup (map PostgresStore.id (PostgresStore.items page)).
Proof.
  eexists. split; [vm_compute; reflexivity|].
  eapply (listRuns_ids_unique runs (Some 10%Z) None None None).
  - unfold runs. repeat apply PostgresStore.Reachable_create.
    apply PostgresStore.Reachable_empty.
  - vm_compute; reflexivity.
Defined.

Lemma recreated_run_keeps_config_id_witness :
  In {| PostgresStore.row_id := "a"; PostgresStore.config_id := Some "c1";
        PostgresStore.org_id := EmptyString;
        PostgresStore.data := run "a" "c2" (Some 99%Z);
        PostgresStore.started_at := Some 99%Z;
        PostgresStore.completed_at := None |}
     (PostgresStore.createRun (run "a" "c2" (Some 99%Z)) None runs) /\
  List.length (PostgresStore.createRun (run "a" "c2" (Some 99%Z)) None runs) =
  List.length runs.
Proof.
  apply (recreated_run_keeps_config_id (run "a" "c2" (Some 99%Z)) None runs rowA).
  - unfold runs. repeat apply PostgresStore.Reachable_create.
    apply PostgresStore.Reachable_empty.
  - vm_compute. left. reflexivity.
  - reflexivity.
  - reflexivity.
Defined.

Lemma organisations_isolated_witness :
  PostgresStore.getRun "a" None
    (PostgresStore.createRun (run "a" "c9" None) (Some "acme") runs) =
  PostgresStore.getRun "a" None runs.
Proof.
  apply (proj2 (organisations_isolated (Some "acme") None runs
                  (PostgresStore.createRun (run "a" "c9" None) (Some "acme") runs)
                  (run "a" "c9" None) "a"
                  ltac:(vm_compute; discriminate)
                  (or_introl eq_refl))).
Defined.

Lemma getManyWorkflows_ids_undefined_witness :
  PostgresStore.getManyWorkflows ["w1"; "w3"] (Some "acme") configs =
  [VObject [("id", VUndefined); ("steps", VArray [])]] /\
  exists r, In r configs /\
            VObject [("id", VUndefined); ("steps", VArray [])] =
            VObject (set "id" VUndefined (PostgresStore.cfg_data r)).
Proof.
  split; [vm_compute; reflexivity|].
  destruct (getManyWorkflows_ids_undefined ["w1"; "w3"] (Some "acme") configs
              (VObject [("id", VUndefined); ("steps", VArray [])]))
    as (r & I & _ & _ & _ & W & _).
  - intros r I. vm_compute in I.
    destruct I as [<-|[<-|[<-|[]]]]; vm_compute;
      repeat (constructor; [intros J; vm_compute in J; intuition discriminate|]);
      constructor.
  - vm_compute. left. reflexivity.
  - exists r. split; [exact I | exact W].
Defined.


Lemma schema_instruction_on_last_user_witness :
  AnthropicModel.withSchemaInstruction " Answer in JSON." conversation =
  [says "user" "first"; says "assistant" "one";
   says "user" "second Answer in JSON."; says "assistant" "two"].
Proof.
  apply (schema_instruction_on_last_user " Answer in JSON." conversation
           [says "user" "first"; says "assistant" "one"] [says "assistant" "two"]
           (says "user" "second")).
  - reflexivity.
  - reflexivity.
  - repeat constructor; discriminate.
Defined.

End Scenarios.
